(** * KAgent chatbot client scripts: a shallow embedding

    The repository holds three scripts that talk to a JSON-RPC tool server:
    - [examples/chatbot-demo.py]     (class [KAgentChatbotDemo]),
    - [test_chatbot.py]              (function [test_chatbot]),
    - [test_enhanced_timestamps.py]  (function [test_enhanced_timestamps]
                                      and its entry point).

    The scripts are embedded as programs of a small monad that threads
    the console and the HTTP exchange: a run against a [world] (the
    server and the network, as an oracle) yields the chronological list
    of events, the final machine state and either a value or the Python
    exception that escaped. *)

From Stdlib Require Import ZArith List String Ascii Bool Arith Lia.
From Stdlib Require Import DecimalString.
Import ListNotations.
Local Open Scope list_scope.
Local Open Scope string_scope.

Set Implicit Arguments.
Set Warnings "-register-all".

(* ================================================================== *)
(** * Python values met by the scripts *)
(* ================================================================== *)

(** Values of Python's [json] module.  A [dict] keeps its items in
    insertion order, hence the association list; look-up takes the first
    item with the key.  A [str] is a Rocq string, one [ascii] for each
    character; a float is kept by its [repr]. *)
Inductive json : Type :=
| JNull
| JBool (b : bool)
| JInt (z : Z)
| JFloat (repr : string)
| JStr (s : string)
| JList (l : list json)
| JDict (d : list (string * json)).

(** Exception classes: the [requests.exceptions] hierarchy below
    [RequestException], and the builtins the scripts can meet. *)
Inductive exn_class : Type :=
| RequestException
| ConnectionError
| HTTPError
| Timeout
| TooManyRedirects
| RequestsJSONDecodeError
| ValueError
| KeyError
| IndexError
| TypeError
| AttributeError
| EOFError.

(** [isinstance(e, requests.exceptions.RequestException)]. *)
Definition is_RequestException (c : exn_class) : bool :=
  match c with
  | RequestException | ConnectionError | HTTPError | Timeout
  | TooManyRedirects | RequestsJSONDecodeError => true
  | _ => false
  end.

(** An exception object; [msg] is what [str(e)] gives. *)
Record exn : Type := mkExn { cls : exn_class; msg : string }.

(** The outcome of evaluating an expression: a value or a raise. *)
Inductive res (A : Type) : Type :=
| Ret (a : A)
| Exc (e : exn).
Arguments Ret {A} a.
Arguments Exc {A} e.

(* ------------------------------------------------------------------ *)
(** ** Strings *)

Definition dquote : ascii := ascii_of_nat 34.
Definition squote : ascii := ascii_of_nat 39.
Definition backslash : ascii := ascii_of_nat 92.
Definition newline : string := String (ascii_of_nat 10) "".

(** [str(n)] for an integer. *)
Definition str_of_Z (z : Z) : string := NilZero.string_of_int (Z.to_int z).

(** [needle in hay] for two strings. *)
Fixpoint contains (needle hay : string) : bool :=
  prefix needle hay ||
  match hay with
  | EmptyString => false
  | String _ hay' => contains needle hay'
  end.

(** [s[:n]]. *)
Definition slice_to (n : nat) (s : string) : string := substring 0 n s.

Fixpoint has_char (c : ascii) (s : string) : bool :=
  match s with
  | EmptyString => false
  | String c' s' => Ascii.eqb c c' || has_char c s'
  end.

Definition hex_digit (n : nat) : ascii :=
  nth n ["0"; "1"; "2"; "3"; "4"; "5"; "6"; "7"; "8"; "9";
         "a"; "b"; "c"; "d"; "e"; "f"]%char "0"%char.

(** One character of [repr(s)], [q] being the quote chosen. *)
Definition repr_char (q c : ascii) : string :=
  let n := nat_of_ascii c in
  if Ascii.eqb c q || Ascii.eqb c backslash then String backslash (String c "")
  else if Nat.eqb n 9 then String backslash "t"
  else if Nat.eqb n 10 then String backslash "n"
  else if Nat.eqb n 13 then String backslash "r"
  else if Nat.ltb n 32 || Nat.eqb n 127 || (Nat.ltb 127 n && Nat.ltb n 161)
          || Nat.eqb n 173
       then String backslash
              (String "x" (String (hex_digit (n / 16)) (String (hex_digit (n mod 16)) "")))
  else String c "".

Fixpoint repr_chars (q : ascii) (s : string) : string :=
  match s with
  | EmptyString => ""
  | String c s' => repr_char q c ++ repr_chars q s'
  end.

(** [repr(s)] for a string: single quotes unless the string has a single
    quote and no double quote. *)
Definition repr_str (s : string) : string :=
  let q := if has_char squote s && negb (has_char dquote s) then dquote else squote in
  String q (repr_chars q s ++ String q "").

Fixpoint join (sep : string) (l : list string) : string :=
  match l with
  | [] => ""
  | [x] => x
  | x :: l' => x ++ sep ++ join sep l'
  end.

(* ------------------------------------------------------------------ *)
(** ** [repr], [str] and the type name *)

Fixpoint py_repr (v : json) : string :=
  match v with
  | JNull => "None"
  | JBool true => "True"
  | JBool false => "False"
  | JInt z => str_of_Z z
  | JFloat r => r
  | JStr s => repr_str s
  | JList l => "[" ++ join ", " (map py_repr l) ++ "]"
  | JDict d =>
      "{" ++ join ", " (map (fun kv : string * json => let (k, x) := kv in
                                       repr_str k ++ ": " ++ py_repr x) d) ++ "}"
  end.

(** [str(v)]: a string is itself, everything else is its [repr]. *)
Definition py_str (v : json) : string :=
  match v with
  | JStr s => s
  | _ => py_repr v
  end.

Definition type_name (v : json) : string :=
  match v with
  | JNull => "NoneType"
  | JBool _ => "bool"
  | JInt _ => "int"
  | JFloat _ => "float"
  | JStr _ => "str"
  | JList _ => "list"
  | JDict _ => "dict"
  end.

Definition type_error (m : string) : exn := mkExn TypeError m.

Definition not_subscriptable {A} (v : json) : res A :=
  Exc (type_error ("'" ++ type_name v ++ "' object is not subscriptable")).

(* ------------------------------------------------------------------ *)
(** ** The operations the scripts apply to a parsed body *)

Fixpoint lookup (k : string) (d : list (string * json)) : option json :=
  match d with
  | [] => None
  | (k', x) :: d' => if String.eqb k k' then Some x else lookup k d'
  end.

(** [k in v] with [k] a string. *)
Definition py_in (k : string) (v : json) : res bool :=
  match v with
  | JDict d => Ret (match lookup k d with Some _ => true | None => false end)
  | JList l =>
      Ret (existsb (fun x => match x with JStr s => String.eqb s k | _ => false end) l)
  | JStr s => Ret (contains k s)
  | _ => Exc (type_error ("argument of type '" ++ type_name v ++ "' is not iterable"))
  end.

(** [v[k]] with [k] a string. *)
Definition getitem (v : json) (k : string) : res json :=
  match v with
  | JDict d =>
      match lookup k d with
      | Some x => Ret x
      | None => Exc (mkExn KeyError (repr_str k))
      end
  | JList _ => Exc (type_error "list indices must be integers or slices, not str")
  | JStr _ => Exc (type_error "string indices must be integers, not 'str'")
  | _ => not_subscriptable v
  end.

(** [v[i]] with [i] a non-negative integer.  The keys of a parsed JSON
    object are strings, so an integer is never among them. *)
Definition getindex (v : json) (i : nat) : res json :=
  match v with
  | JList l =>
      match nth_error l i with
      | Some x => Ret x
      | None => Exc (mkExn IndexError "list index out of range")
      end
  | JStr s =>
      match get i s with
      | Some c => Ret (JStr (String c ""))
      | None => Exc (mkExn IndexError "string index out of range")
      end
  | JDict _ => Exc (mkExn KeyError (str_of_Z (Z.of_nat i)))
  | _ => not_subscriptable v
  end.

(** [v.get(k, default)]. *)
Definition dict_get (v : json) (k : string) (default : json) : res json :=
  match v with
  | JDict d =>
      Ret (match lookup k d with Some x => x | None => default end)
  | _ => Exc (mkExn AttributeError
                ("'" ++ type_name v ++ "' object has no attribute 'get'"))
  end.

(** [len(v)]. *)
Definition py_len (v : json) : res nat :=
  match v with
  | JStr s => Ret (String.length s)
  | JList l => Ret (List.length l)
  | JDict d => Ret (List.length d)
  | _ => Exc (type_error ("object of type '" ++ type_name v ++ "' has no len()"))
  end.

(** [v[:n]].  A dict refuses a slice (with [TypeError] up to CPython
    3.11, where a slice is not hashable). *)
Definition py_slice_to (v : json) (n : nat) : res json :=
  match v with
  | JStr s => Ret (JStr (slice_to n s))
  | JList l => Ret (JList (firstn n l))
  | JDict _ => Exc (type_error "unhashable type: 'slice'")
  | _ => not_subscriptable v
  end.

(** [v + lit] with [lit] a string literal. *)
Definition py_add_str (v : json) (lit : string) : res json :=
  match v with
  | JStr s => Ret (JStr (s ++ lit))
  | JList _ =>
      Exc (type_error ("can only concatenate list (not " ++ String dquote "str"
                       ++ String dquote ") to list"))
  | _ =>
      Exc (type_error ("unsupported operand type(s) for +: '" ++ type_name v
                       ++ "' and 'str'"))
  end.

(** ["=" * 50] and the like. *)
Fixpoint str_mul (s : string) (n : nat) : string :=
  match n with
  | O => ""
  | S n' => s ++ str_mul s n'
  end.

(* ================================================================== *)
(** * The console and the HTTP exchange *)
(* ================================================================== *)

Inductive verb : Type := GET | POST.

(** What [requests] is asked to send: the verb, the URL, the [json=]
    argument and the [timeout=] argument (seconds) when given. *)
Record request : Type := mkRequest {
  req_verb : verb;
  req_url : string;
  req_json : option json;
  req_timeout : option Z
}.

(** What the scripts read from a [requests.Response]: the status code, the
    reason phrase and the final URL (both used by [raise_for_status]), and
    what [.json()] does on the body: the parsed value, or the exception
    the library raises on a body that is not JSON. *)
Record response : Type := mkResponse {
  status_code : Z;
  reason : string;
  resp_url : string;
  resp_json : res json
}.

(** A request either raises in the library or returns a response. *)
Inductive outcome : Type :=
| Raised (e : exn)
| Returned (r : response).

(** The server and the network: the outcome of the [n]-th request of the
    run (counted from 0), which may depend on the request. *)
Definition world : Type := nat -> request -> outcome.

(** A printed piece of text, with its origin: [Lit] is text of the script
    itself, [Recv] is text that came in through the HTTP exchange (the
    text of a result, the value of an error field, a status code, the
    message of an exception). *)
Inductive frag : Type :=
| Lit (s : string)
| Recv (s : string).

Definition frag_text (f : frag) : string :=
  match f with Lit s => s | Recv s => s end.

(** One argument of [print]: the pieces of an f-string, or a single piece. *)
Definition arg : Type := list frag.

Definition arg_text (a : arg) : string := String.concat "" (map frag_text a).

(** What [print(a1, ..., an)] writes on standard output. *)
Definition render (args : list arg) : string :=
  join " " (map arg_text args) ++ newline.

Inductive event : Type :=
| Printed (args : list arg)
| Input (r : res string)
| Sent (rq : request) (o : outcome).

(** The machine state: how many requests were sent, and the lines still
    unread on standard input. *)
Record state : Type := mkState { sent : nat; stdin : list string }.

(** A program: given the world and a state, the events it causes, the
    state it leaves, and its value or the exception it raises. *)
Definition M (A : Type) : Type := world -> state -> list event * state * res A.

Definition ret {A} (a : A) : M A := fun _ s => ([], s, Ret a).

Definition raise {A} (e : exn) : M A := fun _ s => ([], s, Exc e).

Definition bind {A B} (m : M A) (f : A -> M B) : M B :=
  fun w s =>
    match m w s with
    | (t1, s1, Ret a) =>
        let '(t2, s2, r) := f a w s1 in ((t1 ++ t2)%list, s2, r)
    | (t1, s1, Exc e) => (t1, s1, Exc e)
    end.

Notation "x <- c1 ;; c2" := (bind c1 (fun x => c2))
  (at level 61, c1 at next level, right associativity).
Notation "c1 ;; c2" := (bind c1 (fun _ => c2))
  (at level 61, right associativity).

(** An expression evaluated inside a program. *)
Definition lift {A} (r : res A) : M A := fun _ s => ([], s, r).

(** [try: m  except C as e: h e], [catches] deciding [isinstance(e, C)]. *)
Definition try_except {A} (m : M A) (catches : exn_class -> bool)
    (h : exn -> M A) : M A :=
  fun w s =>
    match m w s with
    | (t1, s1, Exc e) =>
        if catches (cls e)
        then let '(t2, s2, r) := h e w s1 in ((t1 ++ t2)%list, s2, r)
        else (t1, s1, Exc e)
    | done => done
    end.

(** [except Exception]: every class of [exn_class] derives from it. *)
Definition is_Exception (c : exn_class) : bool := true.

Definition print (args : list arg) : M unit :=
  fun _ s => ([Printed args], s, Ret tt).

(** [input()]: the next line of standard input, [EOFError] at its end. *)
Definition input : M string :=
  fun _ s =>
    match stdin s with
    | [] =>
        let e := mkExn EOFError "EOF when reading a line" in
        ([Input (Exc e)], s, Exc e)
    | l :: ls => ([Input (Ret l)], mkState (sent s) ls, Ret l)
    end.

(** One request through [requests]. *)
Definition http (rq : request) : M response :=
  fun w s =>
    let o := w (sent s) rq in
    ([Sent rq o], mkState (S (sent s)) (stdin s),
     match o with Raised e => Exc e | Returned r => Ret r end).

(** [Response.raise_for_status()] of [requests]. *)
Definition raise_for_status (r : response) : M unit :=
  let c := status_code r in
  if ((400 <=? c) && (c <? 500))%Z then
    raise (mkExn HTTPError (str_of_Z c ++ " Client Error: " ++ reason r
                            ++ " for url: " ++ resp_url r))
  else if ((500 <=? c) && (c <? 600))%Z then
    raise (mkExn HTTPError (str_of_Z c ++ " Server Error: " ++ reason r
                            ++ " for url: " ++ resp_url r))
  else ret tt.

(** [for x in xs: body x]. *)
Fixpoint for_each {A} (xs : list A) (body : A -> M unit) : M unit :=
  match xs with
  | [] => ret tt
  | x :: xs' => body x ;; for_each xs' body
  end.

(** [x <- r ;; k] for expressions. *)
Definition res_bind {A B} (r : res A) (f : A -> res B) : res B :=
  match r with
  | Ret a => f a
  | Exc e => Exc e
  end.

(** The expression [result["result"]["content"][0]["text"]], evaluated
    from the left as Python does. *)
Definition result_text (result : json) : res json :=
  res_bind (getitem result "result") (fun r =>
  res_bind (getitem r "content") (fun c =>
  res_bind (getindex c 0) (fun item =>
  getitem item "text"))).

(** A run starts with no request sent. *)
Definition start (lines : list string) : state := mkState 0 lines.

Definition trace_of {A} (m : M A) (w : world) (s : state) : list event :=
  fst (fst (m w s)).

Definition value_of {A} (m : M A) (w : world) (s : state) : res A :=
  snd (m w s).

(* ================================================================== *)
(** * examples/chatbot-demo.py *)
(* ================================================================== *)

Module ChatbotDemo.

(** The instance: [session] is a plain [requests.Session()], of which the
    model keeps nothing but that requests go through [http]. *)
Record KAgentChatbotDemo : Type := mkDemo { base_url : string }.

(** [KAgentChatbotDemo()] with the default of [__init__]. *)
Definition init : KAgentChatbotDemo := mkDemo "http://localhost:8084".

Definition call_tool (self : KAgentChatbotDemo) (tool_name : string)
    (arguments : list (string * json)) : M json :=
  let payload :=
    JDict [("jsonrpc", JStr "2.0");
           ("id", JInt 1);
           ("method", JStr "tools/call");
           ("params", JDict [("name", JStr tool_name);
                             ("arguments", JDict arguments)])] in
  try_except
    (response <- http (mkRequest POST (base_url self ++ "/jsonrpc")
                                 (Some payload) None) ;;
     raise_for_status response ;;
     lift (resp_json response))
    is_RequestException
    (fun e =>
       print [[Lit "Error calling tool "; Lit tool_name; Lit ": "; Recv (msg e)]] ;;
       ret (JDict [("error", JStr (msg e))])).

Definition demo_chatbot_query (self : KAgentChatbotDemo) : M unit :=
  print [[Lit "🤖 KAgent Chatbot Agent Demo"]] ;;
  print [[Lit (str_mul "=" 50)]] ;;
  (* Example 1 *)
  print [[Lit (newline ++ "1. Query: 'What's happening with our services?'")]] ;;
  result <- call_tool self "chatbot_query"
              [("query", JStr "What's happening with our services?");
               ("timeRange", JStr "3h");
               ("limit", JInt 5)] ;;
  (b <- lift (py_in "result" result) ;;
   if b : bool then
     text <- lift (result_text result) ;;
     print [[Lit "Response:"]; [Recv (py_str text)]]
   else
     err <- lift (dict_get result "error" (JStr "Unknown error")) ;;
     print [[Lit "Error:"]; [Recv (py_str err)]]) ;;
  (* Example 2 *)
  print [[Lit (newline ++ "2. Query: 'Tell me about pod crashes'")]] ;;
  result <- call_tool self "chatbot_query"
              [("query", JStr "Tell me about pod crashes");
               ("timeRange", JStr "1d");
               ("limit", JInt 10)] ;;
  (b <- lift (py_in "result" result) ;;
   if b : bool then
     text <- lift (result_text result) ;;
     print [[Lit "Response:"]; [Recv (py_str text)]]
   else
     err <- lift (dict_get result "error" (JStr "Unknown error")) ;;
     print [[Lit "Error:"]; [Recv (py_str err)]]) ;;
  (* Example 3 *)
  print [[Lit (newline ++ "3. Query: 'What critical alerts do we have?'")]] ;;
  result <- call_tool self "chatbot_query"
              [("query", JStr "What critical alerts do we have?");
               ("timeRange", JStr "6h");
               ("limit", JInt 3)] ;;
  (b <- lift (py_in "result" result) ;;
   if b : bool then
     text <- lift (result_text result) ;;
     print [[Lit "Response:"]; [Recv (py_str text)]]
   else
     err <- lift (dict_get result "error" (JStr "Unknown error")) ;;
     print [[Lit "Error:"]; [Recv (py_str err)]]).

Definition demo_remediation (self : KAgentChatbotDemo) : M unit :=
  print [[Lit (newline ++ "🔧 Remediation Script Demo")]] ;;
  print [[Lit (str_mul "=" 50)]] ;;
  print [[Lit (newline ++ "Generating remediation script for alert...")]] ;;
  result <- call_tool self "get_remediation"
              [("alertId", JStr "test-crashing-pod-default-1722943743");
               ("service", JStr "test-crashing-pod");
               ("namespace", JStr "default")] ;;
  b <- lift (py_in "result" result) ;;
  if b : bool then
    print [[Lit "Remediation Script:"]] ;;
    text <- lift (result_text result) ;;
    print [[Recv (py_str text)]]
  else
    err <- lift (dict_get result "error" (JStr "Unknown error")) ;;
    print [[Lit "Error:"]; [Recv (py_str err)]].

Definition test_queries : list string :=
  ["Show me issues in the last 3 hours";
   "What critical alerts do we have?";
   "Any pod crashes recently?";
   "Tell me about service issues";
   "What resource problems are there?";
   "Show me trends in the past week";
   "Generate a fix for the crashing pod"].

Definition demo_intent_recognition (self : KAgentChatbotDemo) : M unit :=
  print [[Lit (newline ++ "🧠 Intent Recognition Demo")]] ;;
  print [[Lit (str_mul "=" 50)]] ;;
  for_each test_queries (fun query =>
    print [[Lit (newline ++ "Query: '"); Lit query; Lit "'"]] ;;
    result <- call_tool self "chatbot_query"
                [("query", JStr query);
                 ("timeRange", JStr "3h");
                 ("limit", JInt 3)] ;;
    b <- lift (py_in "result" result) ;;
    if b : bool then
      response <- lift (result_text result) ;;
      (* Truncate long responses for demo *)
      n <- lift (py_len response) ;;
      response <- (if Nat.ltb 200 n
                   then lift (res_bind (py_slice_to response 200)
                                (fun cut => py_add_str cut "..."))
                   else ret response) ;;
      print [[Lit "Response: "; Recv (py_str response)]]
    else
      err <- lift (dict_get result "error" (JStr "Unknown error")) ;;
      print [[Lit "Error: "; Recv (py_str err)]]).

Definition run_full_demo (self : KAgentChatbotDemo) : M unit :=
  print [[Lit "🚀 Starting KAgent Chatbot Agent Demo"]] ;;
  print [[Lit "Make sure the MCP server is running on localhost:8084"]] ;;
  print [[Lit "Press Enter to continue..."]] ;;
  input ;;
  (* [true] when the block falls through, [false] when it returns *)
  go_on <- try_except
             (response <- http (mkRequest GET (base_url self ++ "/health") None None) ;;
              if (status_code response =? 200)%Z then
                print [[Lit "✅ Connected to MCP server"]] ;;
                ret true
              else
                print [[Lit "❌ Failed to connect to MCP server"]] ;;
                ret false)
             is_RequestException
             (fun _ =>
                print [[Lit "❌ Cannot connect to MCP server. Is it running?"]] ;;
                ret false) ;;
  if go_on : bool then
    demo_chatbot_query self ;;
    demo_remediation self ;;
    demo_intent_recognition self ;;
    print [[Lit (newline ++ "🎉 Demo completed!")]] ;;
    print [[Lit (newline ++ "Key Features Demonstrated:")]] ;;
    print [[Lit "- Natural language query processing"]] ;;
    print [[Lit "- Intent recognition and filtering"]] ;;
    print [[Lit "- MongoDB data retrieval"]] ;;
    print [[Lit "- LLM-powered intelligent responses"]] ;;
    print [[Lit "- Remediation script generation"]]
  else ret tt.

(** The entry point. *)
Definition main : M unit := run_full_demo init.

End ChatbotDemo.

(* ================================================================== *)
(** * test_chatbot.py *)
(* ================================================================== *)

Module TestChatbot.

Definition test_chatbot : M unit :=
  print [[Lit "🧪 Testing KAgent Chatbot Agent..."]] ;;
  (* Test 1: Basic query *)
  let payload :=
    JDict [("jsonrpc", JStr "2.0");
           ("id", JInt 1);
           ("method", JStr "tools/call");
           ("params",
            JDict [("name", JStr "chatbot_query");
                   ("arguments",
                    JDict [("query", JStr "What's happening with our services?");
                           ("timeRange", JStr "3h");
                           ("limit", JInt 3)])])] in
  try_except
    (response <- http (mkRequest POST "http://localhost:8084/jsonrpc"
                                 (Some payload) (Some 30%Z)) ;;
     if (status_code response =? 200)%Z then
       result <- lift (resp_json response) ;;
       b <- lift (py_in "result" result) ;;
       if b : bool then
         print [[Lit "✅ Chatbot query test passed!"]] ;;
         text <- lift (result_text result) ;;
         shown <- lift (res_bind (py_slice_to text 200)
                          (fun cut => py_add_str cut "...")) ;;
         print [[Lit "Response:"]; [Recv (py_str shown)]]
       else
         err <- lift (dict_get result "error" (JStr "Unknown error")) ;;
         print [[Lit "❌ Chatbot query failed:"]; [Recv (py_str err)]]
     else
       print [[Lit "❌ HTTP error: "; Recv (str_of_Z (status_code response))]])
    is_Exception
    (fun e =>
       print [[Lit "❌ Connection error: "; Recv (msg e)]] ;;
       print [[Lit "Make sure the MCP server is running on localhost:8084"]]).

(** The entry point. *)
Definition main : M unit := test_chatbot.

End TestChatbot.

(* ================================================================== *)
(** * test_enhanced_timestamps.py *)
(* ================================================================== *)

Module TestEnhancedTimestamps.

Definition test_enhanced_timestamps : M bool :=
  print [[Lit "🧪 Testing Enhanced Timestamp Functionality..."]] ;;
  let payload :=
    JDict [("jsonrpc", JStr "2.0");
           ("id", JInt 1);
           ("method", JStr "tools/call");
           ("params",
            JDict [("name", JStr "chatbot_query");
                   ("arguments",
                    JDict [("query", JStr "show me latest alerts with detailed timestamps");
                           ("timeRange", JStr "3h");
                           ("limit", JInt 3)])])] in
  try_except
    (print [[Lit "📡 Sending request to tools server..."]] ;;
     response <- http (mkRequest POST "http://localhost:8084/jsonrpc"
                                 (Some payload) (Some 30%Z)) ;;
     if (status_code response =? 200)%Z then
       result <- lift (resp_json response) ;;
       b <- lift (py_in "result" result) ;;
       if b : bool then
         print [[Lit "✅ Enhanced timestamp query successful!"]] ;;
         response_text <- lift (result_text result) ;;
         shown <- lift (res_bind (py_slice_to response_text 500)
                          (fun cut => py_add_str cut "...")) ;;
         print [[Lit "Response preview:"]; [Recv (py_str shown)]] ;;
         (* Check if the response contains timestamp information *)
         created <- lift (py_in "Created:" response_text) ;;
         updated <- (if created : bool then ret true
                     else lift (py_in "Updated:" response_text)) ;;
         collected <- (if updated : bool then ret true
                       else lift (py_in "Collected:" response_text)) ;;
         (if collected : bool
          then print [[Lit "✅ Enhanced timestamp fields are being used!"]]
          else print [[Lit "⚠️  Enhanced timestamp fields not found in response"]]) ;;
         ret true
       else
         err <- lift (dict_get result "error" (JStr "Unknown error")) ;;
         print [[Lit "❌ Enhanced timestamp query failed:"]; [Recv (py_str err)]] ;;
         ret false
     else
       print [[Lit "❌ HTTP error: "; Recv (str_of_Z (status_code response))]] ;;
       ret false)
    is_Exception
    (fun e =>
       print [[Lit "❌ Connection error: "; Recv (msg e)]] ;;
       print [[Lit "Make sure the tools server is accessible on localhost:8084"]] ;;
       ret false).

(** The entry point. *)
Definition main : M unit :=
  print [[Lit "🚀 Starting Enhanced Timestamp Tests..."]] ;;
  (* Test chatbot with enhanced timestamps *)
  success1 <- test_enhanced_timestamps ;;
  if success1 : bool then
    print [[Lit (newline ++ "🎉 Enhanced timestamp functionality is working!")]] ;;
    print [[Lit "The system now includes:"]] ;;
    print [[Lit "- Multiple timestamp fields (createdAt, updatedAt, collectedAt, analyzedAt)"]] ;;
    print [[Lit "- Enhanced metadata (eventCount, podCount, logLineCount)"]] ;;
    print [[Lit "- Tags for better categorization"]] ;;
    print [[Lit "- Better filtering and sorting capabilities"]]
  else
    print [[Lit (newline ++ "❌ Some tests failed. Check the system configuration.")]].

End TestEnhancedTimestamps.

(* ================================================================== *)
(** * Reading a trace *)
(* ================================================================== *)

(** A [tools/call] request is a POST; the liveness probe is a GET. *)
Definition call_of (ev : event) : option (request * outcome) :=
  match ev with
  | Sent rq o => match req_verb rq with POST => Some (rq, o) | GET => None end
  | _ => None
  end.

(** The [tools/call] requests of a trace with their outcomes, in order. *)
Fixpoint calls (t : list event) : list (request * outcome) :=
  match t with
  | [] => []
  | ev :: t' =>
      match call_of ev with
      | Some c => c :: calls t'
      | None => calls t'
      end
  end.

(** The events before the first [tools/call] request. *)
Fixpoint until_call (t : list event) : list event :=
  match t with
  | [] => []
  | ev :: t' =>
      match call_of ev with
      | Some _ => []
      | None => ev :: until_call t'
      end
  end.

(** The events that follow the [k]-th [tools/call] request (from 0), up to
    the next one or to the end of the run. *)
Fixpoint after_call (k : nat) (t : list event) : list event :=
  match t with
  | [] => []
  | ev :: t' =>
      match call_of ev, k with
      | Some _, O => until_call t'
      | Some _, S k' => after_call k' t'
      | None, _ => after_call k t'
      end
  end.

Definition is_recv (f : frag) : bool :=
  match f with Recv _ => true | Lit _ => false end.

(** A printed line reports the reply when some piece of it came in through
    the HTTP exchange. *)
Definition reports (ev : event) : bool :=
  match ev with
  | Printed args => existsb (existsb is_recv) args
  | _ => false
  end.

Definition count_reports (t : list event) : nat := List.length (filter reports t).

(** Standard output at the end of the run. *)
Fixpoint stdout (t : list event) : string :=
  match t with
  | [] => ""
  | Printed args :: t' => render args ++ stdout t'
  | _ :: t' => stdout t'
  end.

(** All the requests of a trace, probe included. *)
Fixpoint requests (t : list event) : list request :=
  match t with
  | [] => []
  | Sent rq _ :: t' => rq :: requests t'
  | _ :: t' => requests t'
  end.

(* ================================================================== *)
(** * The call sites of the demo *)
(* ================================================================== *)

(** [run_full_demo] goes through eleven call sites of three shapes, each
    made of its header lines, one [call_tool] and the report of the result.
    [demo_sites] lists them; [demo_sites_run] below shows that running the
    list is running the three [demo_*] methods in turn. *)
Inductive site_kind : Type :=
| Plain         (* demo_chatbot_query *)
| Remediation   (* demo_remediation *)
| Intent.       (* demo_intent_recognition *)

Record site : Type := mkSite {
  header : list (list arg);
  tool : string;
  arguments : list (string * json);
  kind : site_kind
}.

Definition report (k : site_kind) (result : json) : M unit :=
  b <- lift (py_in "result" result) ;;
  match k with
  | Plain =>
      if b : bool then
        text <- lift (result_text result) ;;
        print [[Lit "Response:"]; [Recv (py_str text)]]
      else
        err <- lift (dict_get result "error" (JStr "Unknown error")) ;;
        print [[Lit "Error:"]; [Recv (py_str err)]]
  | Remediation =>
      if b : bool then
        print [[Lit "Remediation Script:"]] ;;
        text <- lift (result_text result) ;;
        print [[Recv (py_str text)]]
      else
        err <- lift (dict_get result "error" (JStr "Unknown error")) ;;
        print [[Lit "Error:"]; [Recv (py_str err)]]
  | Intent =>
      if b : bool then
        response <- lift (result_text result) ;;
        n <- lift (py_len response) ;;
        response <- (if Nat.ltb 200 n
                     then lift (res_bind (py_slice_to response 200)
                                  (fun cut => py_add_str cut "..."))
                     else ret response) ;;
        print [[Lit "Response: "; Recv (py_str response)]]
      else
        err <- lift (dict_get result "error" (JStr "Unknown error")) ;;
        print [[Lit "Error: "; Recv (py_str err)]]
  end.

Definition run_site (self : ChatbotDemo.KAgentChatbotDemo) (c : site) : M unit :=
  for_each (header c) print ;;
  result <- ChatbotDemo.call_tool self (tool c) (arguments c) ;;
  report (kind c) result.

Definition query_site (hdr : list (list arg)) (query timeRange : string)
    (limit : Z) (k : site_kind) : site :=
  mkSite hdr "chatbot_query"
         [("query", JStr query); ("timeRange", JStr timeRange); ("limit", JInt limit)]
         k.

Definition intent_header (query : string) : list arg :=
  [[Lit (newline ++ "Query: '"); Lit query; Lit "'"]].

Definition demo_sites : list site :=
  [ query_site [[[Lit "🤖 KAgent Chatbot Agent Demo"]];
                [[Lit (str_mul "=" 50)]];
                [[Lit (newline ++ "1. Query: 'What's happening with our services?'")]]]
               "What's happening with our services?" "3h" 5 Plain;
    query_site [[[Lit (newline ++ "2. Query: 'Tell me about pod crashes'")]]]
               "Tell me about pod crashes" "1d" 10 Plain;
    query_site [[[Lit (newline ++ "3. Query: 'What critical alerts do we have?'")]]]
               "What critical alerts do we have?" "6h" 3 Plain;
    mkSite [[[Lit (newline ++ "🔧 Remediation Script Demo")]];
            [[Lit (str_mul "=" 50)]];
            [[Lit (newline ++ "Generating remediation script for alert...")]]]
           "get_remediation"
           [("alertId", JStr "test-crashing-pod-default-1722943743");
            ("service", JStr "test-crashing-pod");
            ("namespace", JStr "default")]
           Remediation;
    query_site [[[Lit (newline ++ "🧠 Intent Recognition Demo")]];
                [[Lit (str_mul "=" 50)]];
                intent_header "Show me issues in the last 3 hours"]
               "Show me issues in the last 3 hours" "3h" 3 Intent ]
  ++ map (fun query => query_site [intent_header query] query "3h" 3 Intent)
         (tl ChatbotDemo.test_queries).

(** The request [call_tool] sends for a site. *)
Definition site_request (self : ChatbotDemo.KAgentChatbotDemo) (c : site) : request :=
  mkRequest POST (ChatbotDemo.base_url self ++ "/jsonrpc")
    (Some (JDict [("jsonrpc", JStr "2.0");
                  ("id", JInt 1);
                  ("method", JStr "tools/call");
                  ("params", JDict [("name", JStr (tool c));
                                    ("arguments", JDict (arguments c))])]))
    None.

(** What a site does once its request is answered by [o]: the events
    after the request and the value of the site.  It is read off a run of
    the site against the world that always answers [o]. *)
Definition react (self : ChatbotDemo.KAgentChatbotDemo) (c : site) (o : outcome)
  : list event * res unit :=
  let '(t, _, r) := run_site self c (fun _ _ => o) (start []) in
  (skipn (S (List.length (header c))) t, r).

(** The lines that close [run_full_demo]. *)
Definition demo_epilogue : M unit :=
  print [[Lit (newline ++ "🎉 Demo completed!")]] ;;
  print [[Lit (newline ++ "Key Features Demonstrated:")]] ;;
  print [[Lit "- Natural language query processing"]] ;;
  print [[Lit "- Intent recognition and filtering"]] ;;
  print [[Lit "- MongoDB data retrieval"]] ;;
  print [[Lit "- LLM-powered intelligent responses"]] ;;
  print [[Lit "- Remediation script generation"]].

(** Two programs that run alike. *)
Definition same {A} (m1 m2 : M A) : Prop := forall w s, m1 w s = m2 w s.

(** A quiet program only prints and computes: its lines and its value do
    not depend on the world or on the state, which it leaves as it is. *)
Definition quiet {A} (m : M A) : Prop :=
  exists lines r, forall w s, m w s = (map Printed lines, s, r).

(** What a request turns into once it is answered. *)
Definition answered (o : outcome) : M response :=
  match o with
  | Raised e => raise e
  | Returned r => ret r
  end.

Definition after_event {A} (ev : event) (x : list event * state * res A)
  : list event * state * res A :=
  let '(t, s, r) := x in (ev :: t, s, r).

(** The state after one more request. *)
Definition bump (s : state) : state := mkState (S (sent s)) (stdin s).

(** A site from the answer on: [call_tool] past its [post], then the
    report. *)
Definition site_tail (c : site) (o : outcome) : M unit :=
  result <- try_except
              (response <- answered o ;;
               raise_for_status response ;;
               lift (resp_json response))
              is_RequestException
              (fun e =>
                 print [[Lit "Error calling tool "; Lit (tool c); Lit ": ";
                         Recv (msg e)]] ;;
                 ret (JDict [("error", JStr (msg e))])) ;;
  report (kind c) result.

(** The line a site prints for an error value [v]. *)
Definition err_line (k : site_kind) (v : string) : list arg :=
  match k with
  | Intent => [[Lit "Error: "; Recv v]]
  | _ => [[Lit "Error:"]; [Recv v]]
  end.

(** The lines a site prints for a text [text] of the result. *)
Definition text_lines (k : site_kind) (text : string) : list (list arg) :=
  match k with
  | Plain => [[[Lit "Response:"]; [Recv text]]]
  | Remediation => [[[Lit "Remediation Script:"]]; [[Recv text]]]
  | Intent =>
      [[[Lit "Response: ";
         Recv (if Nat.ltb 200 (String.length text)
               then slice_to 200 text ++ "..." else text)]]]
  end.

(** The line [call_tool] prints when it catches [e]. *)
Definition caught_line (c : site) (m : string) : list arg :=
  [[Lit "Error calling tool "; Lit (tool c); Lit ": "; Recv m]].

(** The lines a site has printed when the access to the text fails. *)
Definition lines_before_text (k : site_kind) : list (list arg) :=
  match k with
  | Remediation => [[[Lit "Remediation Script:"]]]
  | _ => []
  end.

(** A site whose header is script text only. *)
Definition literal_site (c : site) : Prop :=
  count_reports (map Printed (header c)) = 0.

(** The liveness probe of the demo. *)
Definition health_request : request :=
  mkRequest GET "http://localhost:8084/health" None None.

(** What the demo has done once the probe is answered with status 200. *)
Definition demo_prelude (l : string) (r : response) : list event :=
  [Printed [[Lit "🚀 Starting KAgent Chatbot Agent Demo"]];
   Printed [[Lit "Make sure the MCP server is running on localhost:8084"]];
   Printed [[Lit "Press Enter to continue..."]];
   Input (Ret l);
   Sent health_request (Returned r);
   Printed [[Lit "✅ Connected to MCP server"]]].

(* ================================================================== *)
(** * The vocabulary of the specification *)
(* ================================================================== *)

(** The fixed envelope of a [tools/call] request, after the specification:
    [{"jsonrpc":"2.0","id":1,"method":"tools/call",
      "params":{"name":T,"arguments":A}}]. *)
Definition envelope (T : string) (A : list (string * json)) : json :=
  JDict [("jsonrpc", JStr "2.0");
         ("id", JInt 1);
         ("method", JStr "tools/call");
         ("params", JDict [("name", JStr T); ("arguments", JDict A)])].

(** Truncation after the specification: a text longer than the threshold
    is cut to that length and gets an ellipsis, a shorter one is kept. *)
Definition truncated (threshold : nat) (text : string) : string :=
  if Nat.ltb threshold (String.length text)
  then slice_to threshold text ++ "..."
  else text.

(** The three scripts and their entry points. *)
Inductive script : Type :=
| ChatbotDemoPy
| TestChatbotPy
| TestEnhancedTimestampsPy.

Definition entry (p : script) : M unit :=
  match p with
  | ChatbotDemoPy => ChatbotDemo.main
  | TestChatbotPy => TestChatbot.main
  | TestEnhancedTimestampsPy => TestEnhancedTimestamps.main
  end.

(** How many [tools/call] sites a script goes through. *)
Definition call_sites (p : script) : nat :=
  match p with
  | ChatbotDemoPy => List.length demo_sites
  | TestChatbotPy => 1
  | TestEnhancedTimestampsPy => 1
  end.

(** The request of [test_chatbot.py]. *)
Definition test_chatbot_request : request :=
  mkRequest POST "http://localhost:8084/jsonrpc"
    (Some (envelope "chatbot_query"
             [("query", JStr "What's happening with our services?");
              ("timeRange", JStr "3h");
              ("limit", JInt 3)]))
    (Some 30%Z).

(** The request of [test_enhanced_timestamps.py]. *)
Definition test_timestamps_request : request :=
  mkRequest POST "http://localhost:8084/jsonrpc"
    (Some (envelope "chatbot_query"
             [("query", JStr "show me latest alerts with detailed timestamps");
              ("timeRange", JStr "3h");
              ("limit", JInt 3)]))
    (Some 30%Z).

(** ** Sample servers *)

Definition reply (status : Z) (body : json) : outcome :=
  Returned (mkResponse status "OK" "http://localhost:8084/jsonrpc" (Ret body)).

(** A well-formed body [{"result":{"content":[{"text":t}]}}]. *)
Definition result_body (t : string) : json :=
  JDict [("result", JDict [("content", JList [JDict [("text", JStr t)]])])].

(** A server that answers every request with status 200 and the text [t]. *)
Definition w_text (t : string) : world := fun _ _ => reply 200 (result_body t).

(** A server whose probe answers 200 and whose [/jsonrpc] refuses the
    connection. *)
Definition w_refused : world :=
  fun _ rq =>
    match req_verb rq with
    | GET => reply 200 JNull
    | POST => Raised (mkExn ConnectionError "Connection refused")
    end.

(** A server that answers every request with 200 and [{"error":"boom"}]. *)
Definition w_boom : world := fun _ _ => reply 200 (JDict [("error", JStr "boom")]).

(** Status 200 with the body [{"result":{}}]. *)
Definition no_content_response : response :=
  mkResponse 200 "OK" "http://localhost:8084/jsonrpc" (Ret (JDict [("result", JDict [])])).

(** A server that answers every request with it. *)
Definition w_no_content : world := fun _ _ => Returned no_content_response.

(** A server that answers every request with status 503. *)
Definition w_unavailable : world := fun _ _ => reply 503 JNull.

(** The test of line 42 of [test_enhanced_timestamps.py]. *)
Definition has_timestamps (text : string) : bool :=
  contains "Created:" text || contains "Updated:" text || contains "Collected:" text.

(** The line that test chooses. *)
Definition timestamps_line (found : bool) : list arg :=
  if found
  then [[Lit "✅ Enhanced timestamp fields are being used!"]]
  else [[Lit "⚠️  Enhanced timestamp fields not found in response"]].

(** What the entry point of [test_enhanced_timestamps.py] prints last. *)
Definition verdict_lines (success : bool) : list (list arg) :=
  if success
  then [[[Lit (newline ++ "🎉 Enhanced timestamp functionality is working!")]];
        [[Lit "The system now includes:"]];
        [[Lit "- Multiple timestamp fields (createdAt, updatedAt, collectedAt, analyzedAt)"]];
        [[Lit "- Enhanced metadata (eventCount, podCount, logLineCount)"]];
        [[Lit "- Tags for better categorization"]];
        [[Lit "- Better filtering and sorting capabilities"]]]
  else [[[Lit (newline ++ "❌ Some tests failed. Check the system configuration.")]]].

(** [params.name] and [id] of the body a request carries. *)
Definition tool_of (rq : request) : option string :=
  match req_json rq with
  | Some body =>
      match getitem body "params" with
      | Ret params =>
          match getitem params "name" with
          | Ret (JStr T) => Some T
          | _ => None
          end
      | _ => None
      end
  | None => None
  end.

Definition id_of (rq : request) : option json :=
  match req_json rq with
  | Some body => match getitem body "id" with Ret x => Some x | Exc _ => None end
  | None => None
  end.

(** An HTTP-200 reply whose body is [{"error": v}]. *)
Definition error_reply (v : string) (r : response) : Prop :=
  status_code r = 200%Z /\ resp_json r = Ret (JDict [("error", JStr v)]).

(** An HTTP-200 reply whose body has a ["result"] field but not the whole
    of [result.content[0].text]. *)
Definition malformed (r : response) : Prop :=
  status_code r = 200%Z /\
  exists d x e,
    resp_json r = Ret (JDict d) /\ lookup "result" d = Some x /\
    result_text (JDict d) = Exc e.

(** The faults of an access by key or by index. *)
Definition structural (e : exn) : Prop :=
  cls e = KeyError \/ cls e = IndexError \/ cls e = TypeError.

(** A fault of the transport, as [requests] raises them. *)
Definition transport_failure (o : outcome) (e : exn) : Prop :=
  o = Raised e /\ is_RequestException (cls e) = true.

(** [400 <= status < 600], where [raise_for_status] raises. *)
Definition error_status (c : Z) : bool := ((400 <=? c) && (c <? 600))%Z.

(** The outcomes the demo copes with: a fault of the transport, an HTTP
    error status, or a JSON object that either has no ["result"] field or
    holds a string at [result.content[0].text]. *)
Definition handled (o : outcome) : Prop :=
  match o with
  | Raised e => is_RequestException (cls e) = true
  | Returned r =>
      error_status (status_code r) = true \/
      exists d, resp_json r = Ret (JDict d) /\
                (lookup "result" d = None \/
                 exists text, result_text (JDict d) = Ret (JStr text))
  end.

(** The script sets [timeout=30] on each request it sends, and sends one. *)
Definition sets_timeout_30 (p : script) : Prop :=
  forall w lines,
    requests (trace_of (entry p) w (start lines)) <> [] /\
    Forall (fun rq => req_timeout rq = Some 30%Z)
           (requests (trace_of (entry p) w (start lines))).

(** The script sets no timeout on any request it sends. *)
Definition sets_no_timeout (p : script) : Prop :=
  forall w lines,
    Forall (fun rq => req_timeout rq = None)
           (requests (trace_of (entry p) w (start lines))).

(** A server whose probe answers 200 and whose every [tools/call] meets
    the outcome [o]. *)
Definition w_calls (o : outcome) : world :=
  fun _ rq =>
    match req_verb rq with
    | GET => reply 200 JNull
    | POST => o
    end.

(** The message of the [HTTPError] that [raise_for_status] raises for a
    status in 400..599. *)
Definition http_error_message (r : response) : string :=
  str_of_Z (status_code r)
  ++ (if (status_code r <? 500)%Z then " Client Error: " else " Server Error: ")
  ++ reason r ++ " for url: " ++ resp_url r.

(** What makes [call_tool] raise something its handler does not catch: the
    POST itself, or [.json()] on a response that passed
    [raise_for_status]. *)
Definition raises_uncaught (o : outcome) (e : exn) : Prop :=
  is_RequestException (cls e) = false /\
  (o = Raised e \/
   exists r, o = Returned r /\ error_status (status_code r) = false /\
             resp_json r = Exc e).

(** A body that parses to something else than a JSON object. *)
Definition not_an_object (body : json) : Prop :=
  match body with JDict _ => False | _ => True end.

(** The last line of [test_chatbot.py] and of [test_enhanced_timestamps]
    when something is caught. *)
Definition connection_error_line (e : exn) : list arg :=
  [[Lit "❌ Connection error: "; Recv (msg e)]].

(** The first line of the epilogue of [run_full_demo]. *)
Definition completed_line : list arg := [[Lit (newline ++ "🎉 Demo completed!")]].

(** A site whose header does not announce the end of the demo. *)
Definition plain_header (c : site) : Prop := ~ In completed_line (header c).

(** The lines [run_full_demo] prints before it reads standard input. *)
Definition demo_banner : list event :=
  [Printed [[Lit "🚀 Starting KAgent Chatbot Agent Demo"]];
   Printed [[Lit "Make sure the MCP server is running on localhost:8084"]];
   Printed [[Lit "Press Enter to continue..."]]].

(** The site of [demo_remediation]. *)
Definition remediation_site : site :=
  mkSite [[[Lit (newline ++ "🔧 Remediation Script Demo")]];
          [[Lit (str_mul "=" 50)]];
          [[Lit (newline ++ "Generating remediation script for alert...")]]]
         "get_remediation"
         [("alertId", JStr "test-crashing-pod-default-1722943743");
          ("service", JStr "test-crashing-pod");
          ("namespace", JStr "default")]
         Remediation.

(* ================================================================== *)
(** * Properties *)
(* ================================================================== *)

(** ** The monad *)

Lemma bind_assoc {A B C} (m : M A) (f : A -> M B) (g : B -> M C) w s :
  bind (bind m f) g w s = bind m (fun a => bind (f a) g) w s.
Proof.
  unfold bind. destruct (m w s) as [[t1 s1] [a|e]]; [|reflexivity].
  destruct (f a w s1) as [[t2 s2] [b|e]]; [|reflexivity].
  destruct (g b w s2) as [[t3 s3] r]. now rewrite app_assoc.
Qed.

Lemma bind_congr {A B} (m : M A) (f g : A -> M B) w s :
  (forall a w' s', f a w' s' = g a w' s') ->
  bind m f w s = bind m g w s.
Proof.
  intros H. unfold bind. destruct (m w s) as [[t1 s1] [a|e]]; [|reflexivity].
  now rewrite H.
Qed.

Lemma bind_ret_l {A B} (a : A) (f : A -> M B) w s : bind (ret a) f w s = f a w s.
Proof. unfold bind, ret. now destruct (f a w s) as [[t2 s2] r]. Qed.

Ltac norm_binds :=
  repeat first
    [ rewrite bind_assoc
    | rewrite bind_ret_l
    | apply bind_congr; intros ].

(** Running the eleven sites is running the three [demo_*] methods. *)
Lemma demo_sites_run (self : ChatbotDemo.KAgentChatbotDemo) (k : M unit) :
  same (ChatbotDemo.demo_chatbot_query self ;;
        ChatbotDemo.demo_remediation self ;;
        ChatbotDemo.demo_intent_recognition self ;; k)
       (for_each demo_sites (run_site self) ;; k).
Proof.
  intros w s.
  unfold ChatbotDemo.demo_chatbot_query, ChatbotDemo.demo_remediation,
    ChatbotDemo.demo_intent_recognition, demo_sites, ChatbotDemo.test_queries,
    run_site, query_site, intent_header, report.
  cbn [for_each map app tl header tool arguments kind].
  norm_binds.
  all: try reflexivity.
Qed.

(** ** Quiet programs *)

Lemma quiet_ret {A} (a : A) : quiet (ret a).
Proof. now exists [], (Ret a). Qed.

Lemma quiet_raise {A} (e : exn) : quiet (@raise A e).
Proof. now exists [], (Exc e). Qed.

Lemma quiet_lift {A} (r : res A) : quiet (lift r).
Proof. now exists [], r. Qed.

Lemma quiet_print args : quiet (print args).
Proof. now exists [args], (Ret tt). Qed.

Lemma quiet_bind {A B} (m : M A) (f : A -> M B) :
  quiet m -> (forall a, quiet (f a)) -> quiet (bind m f).
Proof.
  intros (l1 & [a|e] & Hm) Hf.
  - destruct (Hf a) as (l2 & r2 & Hfa).
    exists (l1 ++ l2)%list, r2. intros w s. unfold bind.
    now rewrite Hm, Hfa, map_app.
  - exists l1, (Exc e). intros w s. unfold bind. now rewrite Hm.
Qed.

Lemma quiet_try {A} (m : M A) catches (h : exn -> M A) :
  quiet m -> (forall e, quiet (h e)) -> quiet (try_except m catches h).
Proof.
  intros (l1 & [a|e] & Hm) Hh.
  - exists l1, (Ret a). intros w s. unfold try_except. now rewrite Hm.
  - destruct (catches (cls e)) eqn:Hc.
    + destruct (Hh e) as (l2 & r2 & Hhe).
      exists (l1 ++ l2)%list, r2. intros w s. unfold try_except.
      now rewrite Hm, Hc, Hhe, map_app.
    + exists l1, (Exc e). intros w s. unfold try_except. now rewrite Hm, Hc.
Qed.

Lemma quiet_raise_for_status r : quiet (raise_for_status r).
Proof.
  unfold raise_for_status.
  repeat match goal with |- quiet (if ?b then _ else _) => destruct b end;
    auto using @quiet_raise, @quiet_ret.
Qed.

Ltac prove_quiet :=
  repeat first
    [ apply quiet_ret | apply quiet_raise | apply quiet_lift | apply quiet_print
    | apply quiet_raise_for_status
    | apply quiet_bind; [|intros ?]
    | apply quiet_try; [|intros ?]
    | match goal with
      | |- quiet (if ?b then _ else _) => destruct b
      | |- quiet (match ?k with _ => _ end) => destruct k
      end ].

Lemma quiet_report k result : quiet (report k result).
Proof. unfold report. prove_quiet. Qed.

Lemma quiet_answered o : quiet (answered o).
Proof. destruct o; prove_quiet. Qed.

Lemma quiet_site_tail c o : quiet (site_tail c o).
Proof.
  unfold site_tail. apply quiet_bind; [|intros; apply quiet_report].
  apply quiet_try; [|intros; prove_quiet].
  apply quiet_bind; [apply quiet_answered|intros; prove_quiet].
Qed.

(** ** One request, then the rest *)

Lemma http_bind {A} rq (k : response -> M A) w s :
  bind (http rq) k w s =
  after_event (Sent rq (w (sent s) rq)) (bind (answered (w (sent s) rq)) k w (bump s)).
Proof.
  unfold bind, http, answered, raise, ret, bump, after_event.
  destruct (w (sent s) rq) as [e|r]; [reflexivity|].
  now destruct (k r w _) as [[t2 s2] r2].
Qed.

Lemma try_after_event {A} (m m' : M A) catches h ev w s s' :
  m w s = after_event ev (m' w s') ->
  try_except m catches h w s = after_event ev (try_except m' catches h w s').
Proof.
  unfold try_except, after_event. intros ->.
  destruct (m' w s') as [[t1 s1] [a|e]]; [reflexivity|].
  destruct (catches (cls e)); [|reflexivity].
  now destruct (h e w s1) as [[t2 s2] r2].
Qed.

Lemma bind_after_event {A B} (m m' : M A) (f : A -> M B) ev w s s' :
  m w s = after_event ev (m' w s') ->
  bind m f w s = after_event ev (bind m' f w s').
Proof.
  unfold bind, after_event. intros ->.
  destruct (m' w s') as [[t1 s1] [a|e]]; [|reflexivity].
  now destruct (f a w s1) as [[t2 s2] r2].
Qed.

Lemma prints_bind {A} (hdr : list (list arg)) (k : M A) w s :
  bind (for_each hdr print) (fun _ => k) w s =
  let '(t, s', r) := k w s in ((map Printed hdr ++ t)%list, s', r).
Proof.
  revert w s. induction hdr as [|p hdr IH]; intros w s.
  - cbn [for_each map app]. rewrite bind_ret_l. now destruct (k w s) as [[t s'] r].
  - cbn [for_each map]. rewrite bind_assoc.
    unfold bind at 1. cbv [print]. rewrite IH.
    now destruct (k w s) as [[t s'] r].
Qed.

Lemma call_then_report self c w s :
  (result <- ChatbotDemo.call_tool self (tool c) (arguments c) ;;
   report (kind c) result) w s =
  after_event (Sent (site_request self c) (w (sent s) (site_request self c)))
    (site_tail c (w (sent s) (site_request self c)) w (bump s)).
Proof.
  unfold ChatbotDemo.call_tool, site_tail.
  apply bind_after_event, try_after_event. unfold site_request.
  apply http_bind.
Qed.

Lemma run_site_tail self c w s :
  run_site self c w s =
  let o := w (sent s) (site_request self c) in
  let '(t, s', r) := site_tail c o w (bump s) in
  ((map Printed (header c) ++ Sent (site_request self c) o :: t)%list, s', r).
Proof.
  unfold run_site. rewrite prints_bind, call_then_report.
  cbv zeta. now destruct (site_tail c _ w (bump s)) as [[t s'] r].
Qed.

(** [react] is the tail of the site, whatever the world and the state. *)
Lemma react_tail self c o w s :
  site_tail c o w s = (fst (react self c o), s, snd (react self c o)).
Proof.
  destruct (quiet_site_tail c o) as (l & r & Ho).
  unfold react. rewrite run_site_tail. cbv zeta. rewrite !Ho.
  replace (S (List.length (header c)))
    with (List.length (map Printed (header c) ++ [Sent (site_request self c) o])%list)
    by (rewrite length_app, length_map; cbn; lia).
  change (Sent (site_request self c) o :: map Printed l)
    with ([Sent (site_request self c) o] ++ map Printed l)%list.
  now rewrite app_assoc, skipn_app, skipn_all, Nat.sub_diag.
Qed.

(** A site sends its request, whatever the world, and what follows is
    fixed by the outcome alone. *)
Lemma run_site_eq self c w s :
  let o := w (sent s) (site_request self c) in
  run_site self c w s =
  ((map Printed (header c) ++ Sent (site_request self c) o :: fst (react self c o))%list,
   bump s, snd (react self c o)).
Proof.
  cbv zeta. rewrite run_site_tail. cbv zeta.
  now rewrite (react_tail self).
Qed.

Lemma react_prints self c o : exists lines, fst (react self c o) = map Printed lines.
Proof.
  destruct (quiet_site_tail c o) as (l & r & Ho).
  exists l. pose proof (react_tail self c o (fun _ _ => o) (start [])) as H.
  rewrite Ho in H. now inversion H.
Qed.

(** ** What a site does for each kind of outcome *)

Ltac run_glue :=
  cbv [bind ret lift print raise try_except answered raise_for_status report
       site_tail is_Exception].

Ltac innermost x :=
  lazymatch x with
  | context [match ?y with _ => _ end] => innermost y
  | _ => destruct x eqn:?
  end.

Ltac split_match :=
  match goal with
  | |- context [match ?x with _ => _ end] => innermost x
  end.

Lemma tail_raised c e w s :
  is_RequestException (cls e) = true ->
  site_tail c (Raised e) w s =
  ([Printed (caught_line c (msg e)); Printed (err_line (kind c) (msg e))], s, Ret tt).
Proof.
  intros He. run_glue. rewrite He. now destruct (kind c).
Qed.

Lemma error_status_split c :
  error_status c = (((400 <=? c) && (c <? 500)) || ((500 <=? c) && (c <? 600)))%Z.
Proof.
  unfold error_status.
  destruct (Z.leb_spec 400 c), (Z.ltb_spec c 500), (Z.leb_spec 500 c),
    (Z.ltb_spec c 600); cbn; try reflexivity; lia.
Qed.

Lemma tail_http_error c r w s :
  error_status (status_code r) = true ->
  exists m,
    site_tail c (Returned r) w s =
    ([Printed (caught_line c m); Printed (err_line (kind c) m)], s, Ret tt).
Proof.
  intros Hs. rewrite error_status_split in Hs. run_glue.
  destruct ((400 <=? status_code r)%Z && (status_code r <? 500)%Z).
  - eexists. now destruct (kind c).
  - cbn in Hs. rewrite Hs. eexists. now destruct (kind c).
Qed.

Lemma status_ok_run r :
  error_status (status_code r) = false ->
  forall w s, raise_for_status r w s = ([], s, Ret tt).
Proof.
  intros Hs w s. rewrite error_status_split in Hs.
  apply orb_false_iff in Hs as [H4 H5].
  unfold raise_for_status. now rewrite H4, H5.
Qed.

Lemma tail_no_result c r d w s :
  error_status (status_code r) = false ->
  resp_json r = Ret (JDict d) ->
  lookup "result" d = None ->
  site_tail c (Returned r) w s =
  ([Printed (err_line (kind c)
       (py_str (match lookup "error" d with
                | Some x => x
                | None => JStr "Unknown error"
                end)))], s, Ret tt).
Proof.
  intros Hs Hj Hl. unfold site_tail, answered.
  cbv [bind try_except ret]. rewrite (status_ok_run _ Hs).
  cbv [lift report bind]. rewrite Hj. cbn [py_in dict_get]. rewrite Hl.
  now destruct (kind c).
Qed.

Lemma result_text_has_result d v :
  result_text (JDict d) = Ret v -> exists x, lookup "result" d = Some x.
Proof.
  unfold result_text, res_bind. cbn [getitem].
  destruct (lookup "result" d) as [x|]; [eauto|discriminate].
Qed.

Lemma tail_text c r d text w s :
  error_status (status_code r) = false ->
  resp_json r = Ret (JDict d) ->
  result_text (JDict d) = Ret (JStr text) ->
  site_tail c (Returned r) w s = (map Printed (text_lines (kind c) text), s, Ret tt).
Proof.
  intros Hs Hj Ht. destruct (result_text_has_result _ Ht) as [x Hx].
  unfold site_tail, answered.
  cbv [bind try_except ret]. rewrite (status_ok_run _ Hs).
  cbv [lift report bind]. rewrite Hj. cbn [py_in]. rewrite Hx.
  destruct (kind c); cbv [print ret lift]; rewrite Ht; cbn [py_len py_str map text_lines];
    try reflexivity.
  destruct (Nat.ltb 200 (String.length text)); reflexivity.
Qed.

Lemma getitem_structural v k e : getitem v k = Exc e -> structural e.
Proof.
  unfold structural, getitem, not_subscriptable.
  destruct v; try (intros [= <-]; cbn; tauto).
  destruct (lookup k d); intros [= <-]; cbn; tauto.
Qed.

Lemma getindex_structural v i e : getindex v i = Exc e -> structural e.
Proof.
  unfold structural, getindex, not_subscriptable.
  destruct v; try (intros [= <-]; cbn; tauto).
  - destruct (get i s); intros [= <-]; cbn; tauto.
  - destruct (nth_error l i); intros [= <-]; cbn; tauto.
Qed.

(** Whatever makes [result["result"]["content"][0]["text"]] fail, the fault
    is a [KeyError], an [IndexError] or a [TypeError]. *)
Lemma result_text_structural v e : result_text v = Exc e -> structural e.
Proof.
  unfold result_text, res_bind.
  destruct (getitem v "result") as [r|e1] eqn:H1;
    [|intros [= <-]; eauto using getitem_structural].
  destruct (getitem r "content") as [c|e2] eqn:H2;
    [|intros [= <-]; eauto using getitem_structural].
  destruct (getindex c 0) as [x|e3] eqn:H3;
    [|intros [= <-]; eauto using getindex_structural].
  eauto using getitem_structural.
Qed.

Lemma tail_access_fails c r d x e w s :
  status_code r = 200%Z ->
  resp_json r = Ret (JDict d) ->
  lookup "result" d = Some x ->
  result_text (JDict d) = Exc e ->
  site_tail c (Returned r) w s = (map Printed (lines_before_text (kind c)), s, Exc e).
Proof.
  intros Hs Hj Hx He. unfold site_tail, answered.
  cbv [bind try_except ret]. rewrite status_ok_run by now (unfold error_status; rewrite Hs).
  cbv [lift report bind]. rewrite Hj. cbn [py_in]. rewrite Hx.
  destruct (kind c); cbv [print ret lift]; rewrite He; reflexivity.
Qed.

Lemma tail_reports_le2 c o w s :
  count_reports (fst (fst (site_tail c o w s))) <= 2.
Proof.
  unfold count_reports. run_glue. destruct (kind c);
  repeat split_match; cbn; lia.
Qed.

Lemma tail_reports_le1 c r body w s :
  error_status (status_code r) = false ->
  resp_json r = Ret body ->
  count_reports (fst (fst (site_tail c (Returned r) w s))) <= 1.
Proof.
  intros Hs Hj. unfold site_tail, answered.
  cbv [bind try_except ret]. rewrite (status_ok_run _ Hs).
  cbv [lift report bind]. rewrite Hj. unfold count_reports.
  cbv [print ret lift]. destruct (kind c); repeat split_match; cbn; lia.
Qed.

(** ** Traces *)

Lemma calls_app t1 t2 : calls (t1 ++ t2) = (calls t1 ++ calls t2)%list.
Proof.
  induction t1 as [|ev t1 IH]; [reflexivity|].
  cbn. destruct (call_of ev); cbn; now rewrite IH.
Qed.

Lemma calls_prints l : calls (map Printed l) = [].
Proof. induction l; [reflexivity|assumption]. Qed.

Lemma until_call_prints l t :
  until_call (map Printed l ++ t) = (map Printed l ++ until_call t)%list.
Proof. induction l as [|a l IH]; [reflexivity|]. cbn. now rewrite IH. Qed.

Lemma until_call_prints_only l : until_call (map Printed l) = map Printed l.
Proof. induction l as [|a l IH]; [reflexivity|]. cbn. now rewrite IH. Qed.

Lemma after_call_prints k l t : after_call k (map Printed l ++ t) = after_call k t.
Proof. induction l as [|a l IH]; [reflexivity|]. cbn. now rewrite IH. Qed.

Lemma count_reports_app t1 t2 :
  count_reports (t1 ++ t2) = count_reports t1 + count_reports t2.
Proof. unfold count_reports. now rewrite filter_app, length_app. Qed.

Lemma after_call_incl k t ev : In ev (after_call k t) -> In ev t.
Proof.
  assert (U : forall t, In ev (until_call t) -> In ev t).
  { induction t0 as [|a t0 IH]; [easy|]. cbn.
    destruct (call_of a); cbn; [easy|]. intros [->|H]; auto. }
  revert k. induction t as [|a t IH]; intros k; [easy|]. cbn.
  destruct (call_of a); [destruct k|]; intros H; right; eauto.
Qed.

(** ** The run of the demo, site by site *)

Lemma demo_sites_literal : Forall literal_site demo_sites.
Proof. repeat constructor. Qed.

Lemma epilogue_run w s :
  exists lines,
    demo_epilogue w s = (map Printed lines, s, Ret tt) /\
    count_reports (map Printed lines) = 0.
Proof. eexists (_ :: _ :: _ :: _ :: _ :: _ :: [_]). split; reflexivity. Qed.

Lemma sites_nil self w s :
  (for_each [] (run_site self) ;; demo_epilogue) w s = demo_epilogue w s.
Proof. cbn [for_each]. now rewrite bind_ret_l. Qed.

Lemma sites_cons self c cs w s :
  (for_each (c :: cs) (run_site self) ;; demo_epilogue) w s =
  let o := w (sent s) (site_request self c) in
  let here := (map Printed (header c)
               ++ Sent (site_request self c) o :: fst (react self c o))%list in
  match snd (react self c o) with
  | Ret _ =>
      let '(t, s', r) := (for_each cs (run_site self) ;; demo_epilogue) w (bump s) in
      ((here ++ t)%list, s', r)
  | Exc e => (here, bump s, Exc e)
  end.
Proof.
  cbn [for_each]. rewrite bind_assoc. unfold bind at 1.
  rewrite run_site_eq. cbv zeta.
  destruct (snd (react self c _)); reflexivity.
Qed.

Lemma call_of_site self c o :
  call_of (Sent (site_request self c) o) = Some (site_request self c, o).
Proof. reflexivity. Qed.

(** Up to its first request a run of sites prints script text only, and a
    run of at least one site sends at least one request. *)
Lemma sites_start self cs w s :
  Forall literal_site cs ->
  count_reports (until_call (trace_of (for_each cs (run_site self) ;; demo_epilogue) w s)) = 0
  /\ (cs <> [] -> calls (trace_of (for_each cs (run_site self) ;; demo_epilogue) w s) <> []).
Proof.
  intros Hl. unfold trace_of. destruct cs as [|c cs].
  - rewrite sites_nil. destruct (epilogue_run w s) as (l & -> & Hc).
    cbn [fst]. rewrite until_call_prints_only. split; [assumption|easy].
  - inversion_clear Hl as [|? ? Hc _]. rewrite sites_cons. cbv zeta.
    destruct (snd (react self c _));
      [destruct ((for_each cs (run_site self) ;; demo_epilogue) w (bump s)) as [[t s'] r]|];
      cbn [fst]; rewrite <- ?app_assoc, until_call_prints, calls_app, calls_prints;
      cbn [until_call calls app]; rewrite call_of_site, app_nil_r; (split; [exact Hc|easy]).
Qed.

Lemma react_calls self c o : calls (fst (react self c o)) = [].
Proof. destruct (react_prints self c o) as (l & ->). apply calls_prints. Qed.

Lemma react_until_call self c o t :
  until_call (fst (react self c o) ++ t) = (fst (react self c o) ++ until_call t)%list.
Proof. destruct (react_prints self c o) as (l & ->). apply until_call_prints. Qed.

Lemma react_after_call self c o k t :
  after_call k (fst (react self c o) ++ t) = after_call k t.
Proof. destruct (react_prints self c o) as (l & ->). apply after_call_prints. Qed.

(** The [k]-th request of a run of sites is the request of the [k]-th
    site; what follows it is the reaction of that site and then script
    text only; a site that raises ends the run, and a site that returns
    leaves the run to the next site or to the epilogue. *)
Lemma sites_at self cs :
  Forall literal_site cs ->
  forall k w s rq o,
    let run := (for_each cs (run_site self) ;; demo_epilogue) in
    nth_error (calls (trace_of run w s)) k = Some (rq, o) ->
    exists c rest,
      nth_error cs k = Some c /\ rq = site_request self c /\
      o = w (sent s + k) rq /\
      after_call k (trace_of run w s) = (fst (react self c o) ++ rest)%list /\
      count_reports rest = 0 /\
      match snd (react self c o) with
      | Exc e =>
          value_of run w s = Exc e /\ List.length (calls (trace_of run w s)) = S k
      | Ret _ =>
          (S k < List.length cs -> S k < List.length (calls (trace_of run w s))) /\
          (S k = List.length cs -> value_of run w s = Ret tt)
      end.
Proof.
  intros Hl. induction Hl as [|c cs Hc Hl IH]; intros k w s rq o run; subst run.
  - unfold trace_of. rewrite sites_nil.
    destruct (epilogue_run w s) as (l & -> & _). cbn [fst].
    rewrite calls_prints. now destruct k.
  - unfold trace_of, value_of in *. rewrite sites_cons. cbv zeta.
    set (o0 := w (sent s) (site_request self c)).
    destruct (snd (react self c o0)) as [[]|e] eqn:Hv.
    + pose proof (sites_start self w (bump s) Hl) as [Hstart Hsome].
      pose proof (fun k' => IH k' w (bump s)) as IH'. clear IH. unfold trace_of in *.
      destruct ((for_each cs (run_site self) ;; demo_epilogue) w (bump s))
        as [[t s'] r] eqn:Hrest.
      cbn [fst snd] in *.
      rewrite <- !app_assoc, calls_app, calls_prints, after_call_prints.
      cbn [app calls after_call]. rewrite call_of_site, calls_app.
      rewrite react_calls. cbn [app].
      destruct k as [|k]; cbn [nth_error];
        rewrite ?react_until_call, ?react_after_call.
      * intros [= <- <-]. exists c, (until_call t).
        rewrite Nat.add_0_r. fold o0. rewrite Hv.
        repeat split; try assumption.
        -- cbn [List.length]. intros H.
           destruct (calls t); [|cbn; lia].
           exfalso. apply Hsome; [|reflexivity]. intros ->. cbn in H. lia.
        -- cbn [List.length]. intros H. injection H as H.
           symmetry in H. apply length_zero_iff_nil in H. subst cs.
           rewrite sites_nil in Hrest.
           destruct (epilogue_run w (bump s)) as (l & Hl' & _).
           rewrite Hl' in Hrest. now inversion Hrest.
      * intros Hk.
        destruct (IH' k rq o Hk) as (c' & rest & Hn & Hrq & Ho & Ha & Hr & Hm).
        exists c', rest. cbn [bump sent] in Ho.
        replace (sent s + S k) with (S (sent s) + k) by lia.
        repeat split; try assumption.
        destruct (snd (react self c' o)).
        -- destruct Hm as [H1 H2]. cbn [List.length]. split; intros; [|apply H2]; lia.
        -- destruct Hm as [H1 H2]. cbn [List.length]. split; [assumption|lia].
    + cbn [fst snd].
      rewrite calls_app, calls_prints, after_call_prints.
      cbn [app calls after_call]. rewrite call_of_site.
      rewrite react_calls.
      destruct k as [|k]; cbn [nth_error]; [|now destruct k].
      intros [= <- <-]. exists c, [].
      rewrite <- (app_nil_r (fst (react self c o0))) at 1.
      rewrite react_until_call. cbn [until_call].
      rewrite Nat.add_0_r. fold o0. rewrite Hv.
      repeat split; reflexivity.
Qed.

(** ** The run of [run_full_demo] *)

Lemma run_full_demo_sites self w s :
  ChatbotDemo.run_full_demo self w s =
  (print [[Lit "🚀 Starting KAgent Chatbot Agent Demo"]] ;;
   print [[Lit "Make sure the MCP server is running on localhost:8084"]] ;;
   print [[Lit "Press Enter to continue..."]] ;;
   input ;;
   go_on <- try_except
              (response <- http (mkRequest GET (ChatbotDemo.base_url self ++ "/health")
                                           None None) ;;
               if (status_code response =? 200)%Z then
                 print [[Lit "✅ Connected to MCP server"]] ;;
                 ret true
               else
                 print [[Lit "❌ Failed to connect to MCP server"]] ;;
                 ret false)
              is_RequestException
              (fun _ =>
                 print [[Lit "❌ Cannot connect to MCP server. Is it running?"]] ;;
                 ret false) ;;
   if go_on : bool
   then for_each demo_sites (run_site self) ;; demo_epilogue
   else ret tt) w s.
Proof.
  unfold ChatbotDemo.run_full_demo.
  repeat (apply bind_congr; intros).
  destruct a3; [apply (demo_sites_run self demo_epilogue)|reflexivity].
Qed.

Lemma main_connected w l ls r :
  w 0 health_request = Returned r ->
  status_code r = 200%Z ->
  ChatbotDemo.main w (start (l :: ls)) =
  let '(t, s', v) :=
    (for_each demo_sites (run_site ChatbotDemo.init) ;; demo_epilogue) w (mkState 1 ls) in
  ((demo_prelude l r ++ t)%list, s', v).
Proof.
  intros Hw Hs. unfold ChatbotDemo.main. rewrite run_full_demo_sites.
  remember (for_each demo_sites (run_site ChatbotDemo.init) ;; demo_epilogue) as body.
  cbv [bind print input try_except http ret start stdin sent].
  change (mkRequest GET (ChatbotDemo.base_url ChatbotDemo.init ++ "/health") None None)
    with health_request.
  rewrite Hw, Hs. cbn [Z.eqb Pos.eqb app].
  now destruct (body w _) as [[t s'] v].
Qed.

(** Without an answer 200 to the probe, the demo sends no [tools/call]. *)
Lemma main_not_connected w lines :
  (forall r, w 0 health_request = Returned r -> status_code r <> 200%Z) ->
  calls (trace_of ChatbotDemo.main w (start lines)) = [].
Proof.
  intros Hw. unfold trace_of, ChatbotDemo.main. rewrite run_full_demo_sites.
  remember (for_each demo_sites (run_site ChatbotDemo.init) ;; demo_epilogue) as body.
  cbv [bind print input try_except http ret start stdin sent].
  change (mkRequest GET (ChatbotDemo.base_url ChatbotDemo.init ++ "/health") None None)
    with health_request.
  destruct lines as [|l ls]; [reflexivity|].
  destruct (w 0 health_request) as [e|r] eqn:Ho.
  - now destruct (is_RequestException (cls e)).
  - specialize (Hw r eq_refl).
    destruct (Z.eqb_spec (status_code r) 200); [contradiction|reflexivity].
Qed.

Lemma main_calls_inv w lines :
  calls (trace_of ChatbotDemo.main w (start lines)) <> [] ->
  exists l ls r,
    lines = l :: ls /\ w 0 health_request = Returned r /\ status_code r = 200%Z.
Proof.
  intros H. destruct lines as [|l ls].
  - exfalso. apply H. reflexivity.
  - destruct (w 0 health_request) as [e|r] eqn:Ho.
    + exfalso. apply H, main_not_connected. intros r Hr. congruence.
    + destruct (Z.eq_dec (status_code r) 200) as [Hs|Hs]; [now exists l, ls, r|].
      exfalso. apply H, main_not_connected. intros r' Hr'. congruence.
Qed.

(** ** The two test scripts *)

Ltac run_test :=
  cbv [TestChatbot.main TestChatbot.test_chatbot
       TestEnhancedTimestamps.main TestEnhancedTimestamps.test_enhanced_timestamps
       bind ret lift print raise try_except http is_Exception].

Lemma test_chatbot_calls w s :
  calls (trace_of TestChatbot.main w s)
  = [(test_chatbot_request, w (sent s) test_chatbot_request)]
  /\ value_of TestChatbot.main w s = Ret tt.
Proof.
  unfold test_chatbot_request, envelope, trace_of, value_of. run_test.
  repeat split_match; cbn; split; reflexivity.
Qed.

Lemma test_timestamps_calls w s :
  calls (trace_of TestEnhancedTimestamps.main w s)
  = [(test_timestamps_request, w (sent s) test_timestamps_request)]
  /\ value_of TestEnhancedTimestamps.main w s = Ret tt.
Proof.
  unfold test_timestamps_request, envelope, trace_of, value_of. run_test.
  repeat split_match; cbn; split; reflexivity.
Qed.

(** ** The demo, request by request *)

Lemma demo_at w lines k rq o :
  nth_error (calls (trace_of ChatbotDemo.main w (start lines))) k = Some (rq, o) ->
  exists c rest,
    nth_error demo_sites k = Some c /\ rq = site_request ChatbotDemo.init c /\
    o = w (S k) rq /\
    after_call k (trace_of ChatbotDemo.main w (start lines))
    = (fst (react ChatbotDemo.init c o) ++ rest)%list /\
    count_reports rest = 0 /\
    match snd (react ChatbotDemo.init c o) with
    | Exc e =>
        value_of ChatbotDemo.main w (start lines) = Exc e /\
        List.length (calls (trace_of ChatbotDemo.main w (start lines))) = S k
    | Ret _ =>
        (S k < List.length demo_sites ->
         S k < List.length (calls (trace_of ChatbotDemo.main w (start lines)))) /\
        (S k = List.length demo_sites ->
         value_of ChatbotDemo.main w (start lines) = Ret tt)
    end.
Proof.
  intros Hk.
  destruct (main_calls_inv w lines) as (l & ls & r & -> & Hw & Hs).
  { intros H. rewrite H in Hk. now destruct k. }
  unfold trace_of, value_of in *. rewrite (main_connected _ _ _ Hw Hs) in *.
  pose proof (@sites_at ChatbotDemo.init demo_sites demo_sites_literal k w (mkState 1 ls) rq o) as H.
  unfold trace_of, value_of in H. cbv zeta in H.
  destruct ((for_each demo_sites (run_site ChatbotDemo.init) ;; demo_epilogue)
              w (mkState 1 ls)) as [[t s'] v].
  cbn [fst snd] in *.
  change (calls (demo_prelude l r ++ t)) with (calls t) in *.
  change (after_call k (demo_prelude l r ++ t)) with (after_call k t).
  exact (H Hk).
Qed.

(** ** The test scripts, outcome by outcome *)

Ltac given H :=
  unfold test_chatbot_request, test_timestamps_request, envelope in H;
  run_test; rewrite H.

Lemma test_chatbot_raised w s e :
  w (sent s) test_chatbot_request = Raised e ->
  TestChatbot.main w s =
  ([Printed [[Lit "🧪 Testing KAgent Chatbot Agent..."]];
    Sent test_chatbot_request (Raised e);
    Printed [[Lit "❌ Connection error: "; Recv (msg e)]];
    Printed [[Lit "Make sure the MCP server is running on localhost:8084"]]],
   bump s, Ret tt).
Proof. intros H. given H. reflexivity. Qed.

Lemma test_chatbot_no_result w s r d :
  w (sent s) test_chatbot_request = Returned r ->
  status_code r = 200%Z ->
  resp_json r = Ret (JDict d) ->
  lookup "result" d = None ->
  TestChatbot.main w s =
  ([Printed [[Lit "🧪 Testing KAgent Chatbot Agent..."]];
    Sent test_chatbot_request (Returned r);
    Printed [[Lit "❌ Chatbot query failed:"];
             [Recv (py_str (match lookup "error" d with
                            | Some x => x
                            | None => JStr "Unknown error"
                            end))]]],
   bump s, Ret tt).
Proof.
  intros H Hs Hj Hl. given H. rewrite Hs, Hj. cbn [Z.eqb Pos.eqb py_in dict_get].
  rewrite Hl. reflexivity.
Qed.

Lemma test_chatbot_malformed w s r :
  w (sent s) test_chatbot_request = Returned r ->
  malformed r ->
  exists e, structural e /\
    TestChatbot.main w s =
    ([Printed [[Lit "🧪 Testing KAgent Chatbot Agent..."]];
      Sent test_chatbot_request (Returned r);
      Printed [[Lit "✅ Chatbot query test passed!"]];
      Printed [[Lit "❌ Connection error: "; Recv (msg e)]];
      Printed [[Lit "Make sure the MCP server is running on localhost:8084"]]],
     bump s, Ret tt).
Proof.
  intros H (Hs & d & x & e & Hj & Hx & He).
  exists e. split; [eauto using result_text_structural|].
  given H. rewrite Hs, Hj. cbn [Z.eqb Pos.eqb py_in]. rewrite Hx, He. reflexivity.
Qed.

Lemma test_chatbot_text w s r d text :
  w (sent s) test_chatbot_request = Returned r ->
  status_code r = 200%Z ->
  resp_json r = Ret (JDict d) ->
  result_text (JDict d) = Ret (JStr text) ->
  TestChatbot.main w s =
  ([Printed [[Lit "🧪 Testing KAgent Chatbot Agent..."]];
    Sent test_chatbot_request (Returned r);
    Printed [[Lit "✅ Chatbot query test passed!"]];
    Printed [[Lit "Response:"]; [Recv (slice_to 200 text ++ "...")]]],
   bump s, Ret tt).
Proof.
  intros H Hs Hj Ht. destruct (result_text_has_result _ Ht) as [x Hx].
  given H. rewrite Hs, Hj. cbn [Z.eqb Pos.eqb py_in]. rewrite Hx, Ht. reflexivity.
Qed.

Lemma test_timestamps_raised w s e :
  w (sent s) test_timestamps_request = Raised e ->
  TestEnhancedTimestamps.main w s =
  ([Printed [[Lit "🚀 Starting Enhanced Timestamp Tests..."]];
    Printed [[Lit "🧪 Testing Enhanced Timestamp Functionality..."]];
    Printed [[Lit "📡 Sending request to tools server..."]];
    Sent test_timestamps_request (Raised e);
    Printed [[Lit "❌ Connection error: "; Recv (msg e)]];
    Printed [[Lit "Make sure the tools server is accessible on localhost:8084"]];
    Printed [[Lit (newline ++ "❌ Some tests failed. Check the system configuration.")]]],
   bump s, Ret tt).
Proof. intros H. given H. reflexivity. Qed.

Lemma test_timestamps_no_result w s r d :
  w (sent s) test_timestamps_request = Returned r ->
  status_code r = 200%Z ->
  resp_json r = Ret (JDict d) ->
  lookup "result" d = None ->
  TestEnhancedTimestamps.main w s =
  ([Printed [[Lit "🚀 Starting Enhanced Timestamp Tests..."]];
    Printed [[Lit "🧪 Testing Enhanced Timestamp Functionality..."]];
    Printed [[Lit "📡 Sending request to tools server..."]];
    Sent test_timestamps_request (Returned r);
    Printed [[Lit "❌ Enhanced timestamp query failed:"];
             [Recv (py_str (match lookup "error" d with
                            | Some x => x
                            | None => JStr "Unknown error"
                            end))]];
    Printed [[Lit (newline ++ "❌ Some tests failed. Check the system configuration.")]]],
   bump s, Ret tt).
Proof.
  intros H Hs Hj Hl. given H. rewrite Hs, Hj. cbn [Z.eqb Pos.eqb py_in dict_get].
  rewrite Hl. reflexivity.
Qed.

Lemma test_timestamps_malformed w s r :
  w (sent s) test_timestamps_request = Returned r ->
  malformed r ->
  exists e, structural e /\
    TestEnhancedTimestamps.main w s =
    ([Printed [[Lit "🚀 Starting Enhanced Timestamp Tests..."]];
      Printed [[Lit "🧪 Testing Enhanced Timestamp Functionality..."]];
      Printed [[Lit "📡 Sending request to tools server..."]];
      Sent test_timestamps_request (Returned r);
      Printed [[Lit "✅ Enhanced timestamp query successful!"]];
      Printed [[Lit "❌ Connection error: "; Recv (msg e)]];
      Printed [[Lit "Make sure the tools server is accessible on localhost:8084"]];
      Printed [[Lit (newline ++ "❌ Some tests failed. Check the system configuration.")]]],
     bump s, Ret tt).
Proof.
  intros H (Hs & d & x & e & Hj & Hx & He).
  exists e. split; [eauto using result_text_structural|].
  given H. rewrite Hs, Hj. cbn [Z.eqb Pos.eqb py_in]. rewrite Hx, He. reflexivity.
Qed.

(** ** What standard output contains *)

Lemma prefix_app x b : prefix x (x ++ b) = true.
Proof.
  induction x as [|c x IH]; cbn; [now destruct b|].
  destruct (ascii_dec c c); [assumption|contradiction].
Qed.

Lemma prefix_keep x a b : prefix x a = true -> prefix x (a ++ b) = true.
Proof.
  revert a. induction x as [|c x IH]; intros a; cbn.
  - now destruct (a ++ b).
  - destruct a as [|c' a]; [discriminate|]. cbn.
    destruct (ascii_dec c c'); [apply IH|discriminate].
Qed.

Lemma prefix_refl x : prefix x x = true.
Proof.
  induction x as [|c x IH]; cbn; [reflexivity|].
  destruct (ascii_dec c c); [assumption|contradiction].
Qed.

Lemma contains_self x : contains x x = true.
Proof. destruct x; cbn [contains]; now rewrite prefix_refl. Qed.

Lemma contains_here x b : contains x (x ++ b) = true.
Proof.
  destruct (x ++ b) eqn:E; cbn [contains]; rewrite <- E, prefix_app; reflexivity.
Qed.

Lemma contains_skip x a b : contains x b = true -> contains x (a ++ b) = true.
Proof.
  intros H. induction a as [|c a IH]; [assumption|].
  cbn. rewrite IH. apply orb_true_r.
Qed.

Lemma contains_keep x a b : contains x a = true -> contains x (a ++ b) = true.
Proof.
  induction a as [|c a IH].
  - cbn. rewrite orb_false_r. intros H.
    destruct x; [|discriminate]. now destruct b.
  - cbn [contains]. intros H. apply orb_true_iff in H as [H|H].
    + change (String c a ++ b) with (String c (a ++ b)).
      cbn [contains]. change (String c (a ++ b)) with (String c a ++ b).
      now rewrite prefix_keep.
    + change (String c a ++ b) with (String c (a ++ b)).
      cbn [contains]. rewrite IH by assumption. apply orb_true_r.
Qed.

Lemma contains_frag f a : In f a -> contains (frag_text f) (arg_text a) = true.
Proof.
  unfold arg_text. induction a as [|g a IH]; [easy|].
  intros [->|H].
  - destruct a; cbn [map String.concat].
    + apply contains_self.
    + apply contains_here.
  - specialize (IH H). destruct a as [|g' a]; [easy|].
    cbn [map String.concat] in *. apply contains_skip.
    now apply (contains_skip _ "").
Qed.

Lemma contains_join x sep l y :
  In y l -> contains x y = true -> contains x (join sep l) = true.
Proof.
  induction l as [|z l IH]; [easy|].
  intros [->|H] Hx.
  - destruct l; cbn [join]; [assumption|now apply contains_keep].
  - specialize (IH H Hx). destruct l as [|z' l]; [easy|].
    cbn [join] in *. now apply contains_skip, contains_skip.
Qed.

(** A line that carries [m] shows [m] on standard output. *)
Lemma stdout_contains m args t :
  In (Printed args) t -> In (Recv m) (List.concat args) ->
  contains m (stdout t) = true.
Proof.
  intros Ht Hm. apply in_concat in Hm as (a & Ha & Hf).
  assert (Hr : contains m (render args) = true).
  { unfold render. apply contains_keep.
    apply (@contains_join m " " (map arg_text args) (arg_text a)); [now apply in_map|].
    exact (contains_frag _ _ Hf). }
  induction t as [|ev t IH]; [easy|].
  destruct Ht as [->|Ht].
  - cbn. now apply contains_keep.
  - specialize (IH Ht). destruct ev; cbn; try assumption. now apply contains_skip.
Qed.

(** ** The reaction of a site, outcome by outcome *)

Lemma react_from_tail self c o t r :
  (forall w s, site_tail c o w s = (t, s, r)) -> react self c o = (t, r).
Proof.
  intros H. pose proof (react_tail self c o (fun _ _ => o) (start [])) as E.
  rewrite H in E. destruct (react self c o). cbn in E. now inversion E.
Qed.

Lemma react_raised self c e :
  is_RequestException (cls e) = true ->
  react self c (Raised e) =
  ([Printed (caught_line c (msg e)); Printed (err_line (kind c) (msg e))], Ret tt).
Proof. intros He. apply react_from_tail. intros w s. now apply tail_raised. Qed.

Lemma error_reply_status v r : error_reply v r -> error_status (status_code r) = false.
Proof. intros [Hs _]. unfold error_status. now rewrite Hs. Qed.

Lemma react_error_reply self c v r :
  error_reply v r ->
  react self c (Returned r) = ([Printed (err_line (kind c) v)], Ret tt).
Proof.
  intros Hr. apply react_from_tail. intros w s.
  rewrite (@tail_no_result c r [("error", JStr v)] w s);
    [reflexivity|eauto using error_reply_status|apply Hr|reflexivity].
Qed.

Lemma err_line_carries k v : In (Recv v) (List.concat (err_line k v)).
Proof. destruct k; cbn; tauto. Qed.

(** The only request of a test script. *)
Lemma only_call {A} (x : A) k y : nth_error [x] k = Some y -> k = 0 /\ y = x.
Proof. destruct k as [|[|k]]; cbn; [intros [= <-]; auto|discriminate|discriminate]. Qed.

Lemma react_malformed self c r :
  malformed r ->
  exists e, structural e /\
    react self c (Returned r) = (map Printed (lines_before_text (kind c)), Exc e).
Proof.
  intros (Hs & d & x & e & Hj & Hx & He).
  exists e. split; [eauto using result_text_structural|].
  apply react_from_tail. intros w s. eauto using tail_access_fails.
Qed.

Lemma lines_before_text_silent k :
  count_reports (map Printed (lines_before_text k)) = 0.
Proof. now destruct k. Qed.

Lemma test_chatbot_reports w s :
  count_reports (after_call 0 (trace_of TestChatbot.main w s)) <= 1.
Proof.
  unfold count_reports, trace_of. run_test.
  repeat split_match; cbn; lia.
Qed.

Lemma test_timestamps_reports w s :
  count_reports (after_call 0 (trace_of TestEnhancedTimestamps.main w s)) <= 1.
Proof.
  unfold count_reports, trace_of. run_test.
  repeat first
    [ match goal with
      | |- context [res_bind (py_slice_to ?x _) _] =>
          is_var x; destruct x; cbn [res_bind py_slice_to py_add_str py_in not_subscriptable]
      end
    | split_match ];
    cbn; lia.
Qed.

Lemma react_reports_le2 self c o : count_reports (fst (react self c o)) <= 2.
Proof.
  pose proof (tail_reports_le2 c o (fun _ _ => o) (start [])) as H.
  now rewrite (react_tail self) in H.
Qed.

Lemma react_reports_le1 self c r body :
  error_status (status_code r) = false ->
  resp_json r = Ret body ->
  count_reports (fst (react self c (Returned r))) <= 1.
Proof.
  intros Hs Hj.
  pose proof (@tail_reports_le1 c r body (fun _ _ => Returned r) (start []) Hs Hj) as H.
  now rewrite (react_tail self) in H.
Qed.

Lemma react_handled self c o : handled o -> snd (react self c o) = Ret tt.
Proof.
  intros H.
  enough (E : exists t, site_tail c o (fun _ _ => o) (start []) = (t, start [], Ret tt)).
  { destruct E as [t E]. rewrite (react_tail self) in E. now inversion E. }
  destruct o as [e|r]; cbn [handled] in H.
  - eexists. now apply tail_raised.
  - destruct (error_status (status_code r)) eqn:Hs.
    + destruct (@tail_http_error c r (fun _ _ => Returned r) (start []) Hs) as [m Hm].
      eexists. exact Hm.
    + destruct H as [H|(d & Hj & [Hn|[text Ht]])]; [discriminate| |].
      * eexists. eapply tail_no_result; eassumption.
      * eexists. eapply tail_text; eassumption.
Qed.

(** When every outcome met is handled, a run of sites goes through all of
    them and ends normally. *)
Lemma sites_handled self cs w s :
  (forall rq o,
     In (rq, o) (calls (trace_of (for_each cs (run_site self) ;; demo_epilogue) w s)) ->
     handled o) ->
  map fst (calls (trace_of (for_each cs (run_site self) ;; demo_epilogue) w s))
  = map (site_request self) cs /\
  value_of (for_each cs (run_site self) ;; demo_epilogue) w s = Ret tt.
Proof.
  revert s. induction cs as [|c cs IH]; intros s; unfold trace_of, value_of in *.
  - rewrite sites_nil. destruct (epilogue_run w s) as (l & -> & _). cbn [fst snd].
    now rewrite calls_prints.
  - rewrite sites_cons. cbv zeta.
    set (o0 := w (sent s) (site_request self c)).
    pose proof (@react_handled self c o0) as Hh.
    destruct (snd (react self c o0)) as [[]|e].
    + specialize (IH (bump s)).
      destruct ((for_each cs (run_site self) ;; demo_epilogue) w (bump s)) as [[t s'] v].
      cbn [fst snd] in *.
      rewrite <- app_assoc, calls_app, calls_prints. cbn [app calls].
      rewrite call_of_site, calls_app, react_calls. cbn [app map fst].
      intros H. destruct IH as [IH1 IH2];
        [intros rq' o' Hin; apply (H rq' o'); now right|].
      now rewrite IH1.
    + cbn [fst snd]. rewrite calls_app, calls_prints. cbn [app calls].
      rewrite call_of_site. intros H.
      discriminate Hh. apply (H (site_request self c)). now left.
Qed.

(** ** The requests of a run *)

Lemma requests_app t1 t2 : requests (t1 ++ t2) = (requests t1 ++ requests t2)%list.
Proof.
  induction t1 as [|ev t1 IH]; [reflexivity|].
  destruct ev; cbn; now rewrite IH.
Qed.

Lemma requests_prints l : requests (map Printed l) = [].
Proof. induction l; [reflexivity|assumption]. Qed.

Lemma sites_requests self cs w s :
  Forall (fun rq => req_timeout rq = None)
         (requests (trace_of (for_each cs (run_site self) ;; demo_epilogue) w s)).
Proof.
  revert s. induction cs as [|c cs IH]; intros s; unfold trace_of in *.
  - rewrite sites_nil. destruct (epilogue_run w s) as (l & -> & _). cbn [fst].
    rewrite requests_prints. constructor.
  - rewrite sites_cons. cbv zeta.
    destruct (react_prints self c (w (sent s) (site_request self c))) as (post & Hpost).
    destruct (snd (react self c _)) as [[]|e].
    + specialize (IH (bump s)).
      destruct ((for_each cs (run_site self) ;; demo_epilogue) w (bump s)) as [[t s'] v].
      cbn [fst] in *. rewrite Hpost.
      rewrite <- app_assoc, requests_app, requests_prints. cbn [app requests].
      rewrite requests_app, requests_prints. cbn [app].
      constructor; [reflexivity|assumption].
    + cbn [fst]. rewrite Hpost, requests_app, requests_prints. cbn [app requests].
      rewrite requests_prints. constructor; [reflexivity|constructor].
Qed.

Lemma demo_requests w lines :
  Forall (fun rq => req_timeout rq = None)
         (requests (trace_of ChatbotDemo.main w (start lines))).
Proof.
  destruct lines as [|l ls]; [constructor|].
  destruct (w 0 health_request) as [e|r] eqn:Hw.
  - unfold trace_of, ChatbotDemo.main. rewrite run_full_demo_sites.
    remember (for_each demo_sites (run_site ChatbotDemo.init) ;; demo_epilogue) as body.
    cbv [bind print input try_except http ret start stdin sent].
    change (mkRequest GET (ChatbotDemo.base_url ChatbotDemo.init ++ "/health") None None)
      with health_request.
    rewrite Hw. destruct (is_RequestException (cls e)); repeat constructor.
  - destruct (Z.eq_dec (status_code r) 200) as [Hs|Hs].
    + unfold trace_of. rewrite (main_connected _ _ _ Hw Hs).
      pose proof (sites_requests ChatbotDemo.init demo_sites w (mkState 1 ls)) as H.
      unfold trace_of in H.
      destruct ((for_each demo_sites (run_site ChatbotDemo.init) ;; demo_epilogue)
                  w (mkState 1 ls)) as [[t s'] v].
      cbn [fst] in *. constructor; [reflexivity|exact H].
    + unfold trace_of, ChatbotDemo.main. rewrite run_full_demo_sites.
      remember (for_each demo_sites (run_site ChatbotDemo.init) ;; demo_epilogue) as body.
      cbv [bind print input try_except http ret start stdin sent].
      change (mkRequest GET (ChatbotDemo.base_url ChatbotDemo.init ++ "/health") None None)
        with health_request.
      rewrite Hw. destruct (Z.eqb_spec (status_code r) 200); [contradiction|].
      repeat constructor.
Qed.

Lemma test_chatbot_requests w s :
  requests (trace_of TestChatbot.main w s) = [test_chatbot_request].
Proof.
  unfold test_chatbot_request, envelope, trace_of. run_test.
  repeat split_match; reflexivity.
Qed.

Lemma test_timestamps_requests w s :
  requests (trace_of TestEnhancedTimestamps.main w s) = [test_timestamps_request].
Proof.
  unfold test_timestamps_request, envelope, trace_of. run_test.
  repeat split_match; reflexivity.
Qed.

(** ** The verdict of [test_enhanced_timestamps] *)

Lemma result_text_dict body v :
  result_text body = Ret v -> exists d x, body = JDict d /\ lookup "result" d = Some x.
Proof.
  destruct body; try discriminate. intros H.
  destruct (result_text_has_result _ H) as [x Hx]. now exists d, x.
Qed.

Lemma test_timestamps_text w s r d text :
  w (sent s) test_timestamps_request = Returned r ->
  status_code r = 200%Z ->
  resp_json r = Ret (JDict d) ->
  result_text (JDict d) = Ret (JStr text) ->
  TestEnhancedTimestamps.test_enhanced_timestamps w s =
  ([Printed [[Lit "🧪 Testing Enhanced Timestamp Functionality..."]];
    Printed [[Lit "📡 Sending request to tools server..."]];
    Sent test_timestamps_request (Returned r);
    Printed [[Lit "✅ Enhanced timestamp query successful!"]];
    Printed [[Lit "Response preview:"]; [Recv (slice_to 500 text ++ "...")]];
    Printed (timestamps_line (has_timestamps text))],
   bump s, Ret true).
Proof.
  intros H Hs Hj Ht. destruct (result_text_has_result _ Ht) as [x Hx].
  given H. rewrite Hs, Hj. cbn [Z.eqb Pos.eqb py_in]. rewrite Hx, Ht.
  cbn [res_bind py_slice_to py_add_str py_in py_str]. unfold has_timestamps.
  destruct (contains "Created:" text), (contains "Updated:" text),
    (contains "Collected:" text); reflexivity.
Qed.

Ltac returns_false :=
  cbv beta iota zeta; cbn [snd]; split; [now exists false|discriminate].

Lemma test_timestamps_verdict w s :
  (exists b, value_of TestEnhancedTimestamps.test_enhanced_timestamps w s = Ret b) /\
  (value_of TestEnhancedTimestamps.test_enhanced_timestamps w s = Ret true ->
   exists r d x text,
     w (sent s) test_timestamps_request = Returned r /\ status_code r = 200%Z /\
     resp_json r = Ret (JDict d) /\ lookup "result" d = Some x /\
     result_text (JDict d) = Ret (JStr text)).
Proof.
  unfold test_timestamps_request, envelope, value_of. run_test.
  match goal with |- context [w (sent s) ?rq] => destruct (w (sent s) rq) as [e|r] eqn:Hw end.
  { returns_false. }
  destruct (Z.eqb_spec (status_code r) 200) as [Hs|Hs];
    [|returns_false].
  destruct (resp_json r) as [body|e] eqn:Hj; [|returns_false].
  destruct (py_in "result" body) as [[|]|e]; cycle 1.
  { destruct (dict_get body "error" (JStr "Unknown error"));
      returns_false. }
  { returns_false. }
  destruct (result_text body) as [text|e] eqn:Ht;
    [|returns_false].
  destruct (result_text_dict _ Ht) as (d & x & -> & Hx).
  destruct text; cbn [res_bind py_slice_to py_add_str not_subscriptable];
    try returns_false.
  cbn [py_in]. cbv beta iota zeta.
  split.
  - exists true.
    destruct (contains "Created:" s0), (contains "Updated:" s0),
      (contains "Collected:" s0); reflexivity.
  - intros _. now exists r, d, x, s0.
Qed.

(** ** Truncation *)

Lemma slice_to_short n text : String.length text <= n -> slice_to n text = text.
Proof.
  unfold slice_to. revert n. induction text as [|c text IH]; intros n H.
  - now destruct n.
  - destruct n as [|n]; cbn in *; [lia|]. rewrite IH; [reflexivity|lia].
Qed.

Lemma truncated_spec n text :
  (n < String.length text -> truncated n text = slice_to n text ++ "...") /\
  (String.length text <= n -> truncated n text = text).
Proof.
  unfold truncated. destruct (Nat.ltb_spec n (String.length text)); split; intros; try lia;
    reflexivity.
Qed.

Lemma react_text self c r d text :
  error_status (status_code r) = false ->
  resp_json r = Ret (JDict d) ->
  result_text (JDict d) = Ret (JStr text) ->
  react self c (Returned r) = (map Printed (text_lines (kind c) text), Ret tt).
Proof.
  intros Hs Hj Ht. apply react_from_tail. intros w s. eauto using tail_text.
Qed.

Lemma intent_sites k c :
  nth_error demo_sites k = Some c -> 4 <= k -> kind c = Intent.
Proof.
  intros H Hk.
  do 4 (destruct k as [|k]; [lia|]).
  do 7 (destruct k as [|k]; [now injection H as <-|]).
  now destruct k.
Qed.

(* ================================================================== *)
(** * The claims *)
(* ================================================================== *)

(** C1.  For every tool name [T] and every arguments mapping [A], the only
    request [call_tool] sends is a POST to [<base_url>/jsonrpc] whose JSON
    body is exactly the envelope
    [{"jsonrpc":"2.0","id":1,"method":"tools/call","params":{"name":T,"arguments":A}}];
    and every [tools/call] request that any run of any of the three
    scripts sends goes to [http://localhost:8084/jsonrpc] with a body that
    is such an envelope, with no field added or missing. *)
Theorem C1_request_is_the_envelope :
  (forall self T A w s,
     requests (trace_of (ChatbotDemo.call_tool self T A) w s)
     = [mkRequest POST (ChatbotDemo.base_url self ++ "/jsonrpc")
                  (Some (envelope T A)) None])
  /\
  (forall p w lines rq o,
     In (rq, o) (calls (trace_of (entry p) w (start lines))) ->
     req_url rq = "http://localhost:8084/jsonrpc" /\
     exists T A, req_json rq = Some (envelope T A)).
Proof.
  split.
  - intros self T A w s. unfold trace_of, ChatbotDemo.call_tool, envelope.
    cbv [bind ret lift print raise try_except http raise_for_status].
    repeat split_match; reflexivity.
  - intros p w lines rq o Hin. destruct p; cbn [entry] in Hin.
    + apply In_nth_error in Hin as [k Hk].
      apply demo_at in Hk as (c & _ & _ & -> & _).
      split; [reflexivity|]. now exists (tool c), (arguments c).
    + rewrite (proj1 (test_chatbot_calls w (start lines))) in Hin.
      destruct Hin as [[= <- _]|[]]. split; [reflexivity|]. eexists _, _. reflexivity.
    + rewrite (proj1 (test_timestamps_calls w (start lines))) in Hin.
      destruct Hin as [[= <- _]|[]]. split; [reflexivity|]. eexists _, _. reflexivity.
Qed.

Lemma C1_witness :
  req_url test_chatbot_request = "http://localhost:8084/jsonrpc" /\
  exists T A, req_json test_chatbot_request = Some (envelope T A).
Proof.
  apply (proj2 C1_request_is_the_envelope TestChatbotPy (w_text "ok") []
           test_chatbot_request (reply 200 (result_body "ok"))).
  left. reflexivity.
Defined.

(** C2.  In every run of the demo, a [tools/call] POST comes only after
    the GET of [/health] has returned status 200; and when no such answer
    is in the run (the probe returned another status, or raised, or was
    never sent), the run sends no [tools/call] request at all. *)
Theorem C2_calls_only_after_probe_200 (w : world) (lines : list string) :
  (forall pre rq o post,
     trace_of ChatbotDemo.main w (start lines) = (pre ++ Sent rq o :: post)%list ->
     req_verb rq = POST ->
     exists r pre1 pre2,
       pre = (pre1 ++ Sent health_request (Returned r) :: pre2)%list /\
       status_code r = 200%Z)
  /\
  ((forall r, In (Sent health_request (Returned r))
                 (trace_of ChatbotDemo.main w (start lines)) ->
              status_code r <> 200%Z) ->
   calls (trace_of ChatbotDemo.main w (start lines)) = []).
Proof.
  assert (connected :
            calls (trace_of ChatbotDemo.main w (start lines)) <> [] ->
            exists l r t,
              status_code r = 200%Z /\
              trace_of ChatbotDemo.main w (start lines) = (demo_prelude l r ++ t)%list).
  { intros H. apply main_calls_inv in H as (l & ls & r & -> & Hw & Hs).
    exists l, r. unfold trace_of. rewrite (main_connected _ _ _ Hw Hs).
    destruct ((for_each demo_sites (run_site ChatbotDemo.init) ;; demo_epilogue)
                w (mkState 1 ls)) as [[t s'] v].
    now exists t. }
  split.
  - intros pre rq o post Ht Hv.
    destruct connected as (l & r & t & Hs & Hrun).
    { rewrite Ht, calls_app. cbn. rewrite Hv. now destruct (calls pre). }
    exists r. rewrite Hrun in Ht.
    assert (skip : forall q a x, (a :: x = q ++ Sent rq o :: post)%list ->
                     call_of a = None ->
                     exists q', q = a :: q' /\ (x = q' ++ Sent rq o :: post)%list).
    { intros q a x E Ha. destruct q as [|a' pre'].
      - cbn in E. injection E as -> _. cbn in Ha. now rewrite Hv in Ha.
      - cbn in E. injection E as -> E. now exists pre'. }
    unfold demo_prelude in Ht. cbn [app] in Ht.
    apply skip in Ht as (p1 & -> & Ht); [|reflexivity].
    apply skip in Ht as (p2 & -> & Ht); [|reflexivity].
    apply skip in Ht as (p3 & -> & Ht); [|reflexivity].
    apply skip in Ht as (p4 & -> & Ht); [|reflexivity].
    apply skip in Ht as (p5 & -> & Ht); [|reflexivity].
    eexists [_; _; _; _], p5. split; [reflexivity|exact Hs].
  - intros Hno.
    destruct (calls (trace_of ChatbotDemo.main w (start lines))) eqn:Hc; [reflexivity|].
    destruct connected as (line & r & t & Hs & Hrun); [easy|].
    exfalso. apply (Hno r); [|exact Hs].
    rewrite Hrun. unfold demo_prelude. cbn. tauto.
Qed.

Lemma C2_witness :
  (exists r pre1 pre2,
     firstn 9 (trace_of ChatbotDemo.main (w_text "ok") (start [""]))
     = (pre1 ++ Sent health_request (Returned r) :: pre2)%list /\
     status_code r = 200%Z)
  /\ calls (trace_of ChatbotDemo.main w_unavailable (start [""])) = [].
Proof.
  split.
  - refine (proj1 (C2_calls_only_after_probe_200 (w_text "ok") [""]) _
              (site_request ChatbotDemo.init
                 (nth 0 demo_sites (mkSite [] "" [] Plain)))
              (reply 200 (result_body "ok"))
              (skipn 10 (trace_of ChatbotDemo.main (w_text "ok") (start [""])))
              _ _); reflexivity.
  - apply (proj2 (C2_calls_only_after_probe_200 w_unavailable [""])).
    intros r Hin. vm_compute in Hin.
    repeat (destruct Hin as [Hin|Hin]; [try discriminate Hin|]); try contradiction.
    injection Hin as <-. discriminate.
Defined.

(** C3 (as amended).  For a reply with status 200 and the text [text] at
    [result.content[0].text]: the seven call sites of
    [demo_intent_recognition] (threshold 200) print the text truncated as
    specified, its first 200 characters followed by ["..."] when it is
    longer than 200 characters and the text itself otherwise;
    [test_chatbot.py] (threshold 200) and [test_enhanced_timestamps.py]
    (threshold 500) always print the first threshold-many characters of
    the text followed by ["..."], which for a text no longer than the
    threshold is the whole text with the ellipsis appended. *)
Theorem C3_truncation_by_call_site (w : world) (lines : list string)
    (r : response) (d : list (string * json)) (text : string) :
  status_code r = 200%Z ->
  resp_json r = Ret (JDict d) ->
  result_text (JDict d) = Ret (JStr text) ->
  (forall k rq,
     nth_error (calls (trace_of (entry ChatbotDemoPy) w (start lines))) k
     = Some (rq, Returned r) ->
     4 <= k ->
     exists rest,
       after_call k (trace_of (entry ChatbotDemoPy) w (start lines))
       = Printed [[Lit "Response: "; Recv (truncated 200 text)]] :: rest) /\
  (w 0 test_chatbot_request = Returned r ->
   after_call 0 (trace_of (entry TestChatbotPy) w (start lines))
   = [Printed [[Lit "✅ Chatbot query test passed!"]];
      Printed [[Lit "Response:"]; [Recv (slice_to 200 text ++ "...")]]]) /\
  (w 0 test_timestamps_request = Returned r ->
   exists rest,
     after_call 0 (trace_of (entry TestEnhancedTimestampsPy) w (start lines))
     = Printed [[Lit "✅ Enhanced timestamp query successful!"]]
       :: Printed [[Lit "Response preview:"]; [Recv (slice_to 500 text ++ "...")]]
       :: rest) /\
  (200 < String.length text -> truncated 200 text = slice_to 200 text ++ "...") /\
  (String.length text <= 200 ->
   truncated 200 text = text /\ slice_to 200 text ++ "..." = text ++ "...") /\
  (String.length text <= 500 -> slice_to 500 text ++ "..." = text ++ "...").
Proof.
  intros Hs Hj Ht.
  assert (Hok : error_status (status_code r) = false)
    by (unfold error_status; now rewrite Hs).
  split; [|split; [|split; [|split; [|split]]]].
  - intros k rq Hk H4. cbn [entry] in *.
    destruct (demo_at _ _ _ Hk) as (c & rest & Hc & _ & _ & Ha & _).
    rewrite (@react_text ChatbotDemo.init c r d text Hok Hj Ht), (@intent_sites k c Hc H4) in Ha.
    now exists rest.
  - intros Hw. cbn [entry]. unfold trace_of.
    now rewrite (@test_chatbot_text w (start lines) r d text Hw Hs Hj Ht).
  - intros Hw. cbn [entry]. unfold trace_of, TestEnhancedTimestamps.main.
    cbv [bind print].
    rewrite (@test_timestamps_text w (start lines) r d text Hw Hs Hj Ht).
    eexists. reflexivity.
  - apply truncated_spec.
  - intros H. split; [now apply truncated_spec|]. now rewrite slice_to_short.
  - intros H. now rewrite slice_to_short.
Qed.

Lemma C3_witness :
  after_call 0 (trace_of (entry TestChatbotPy) (w_text "ok") (start []))
  = [Printed [[Lit "✅ Chatbot query test passed!"]];
     Printed [[Lit "Response:"]; [Recv (slice_to 200 "ok" ++ "...")]]].
Proof.
  refine (proj1 (proj2 (@C3_truncation_by_call_site (w_text "ok") []
            (mkResponse 200 "OK" "http://localhost:8084/jsonrpc" (Ret (result_body "ok")))
            [("result", JDict [("content", JList [JDict [("text", JStr "ok")]])])]
            "ok" _ _ _)) _); reflexivity.
Defined.

(** C3 (as stated) fails.  The server answers with the text ["ok"], two
    characters, below both thresholds: as specified it is printed as it
    is, and so does the intent site of the demo, but [test_chatbot.py]
    prints ["ok..."] after ["Response:"] and
    [test_enhanced_timestamps.py] prints ["ok..."] after
    ["Response preview:"]. *)
Lemma C3_counterexample :
  truncated 200 "ok" = "ok" /\ truncated 500 "ok" = "ok" /\
  after_call 0 (trace_of (entry TestChatbotPy) (w_text "ok") (start []))
  = [Printed [[Lit "✅ Chatbot query test passed!"]];
     Printed [[Lit "Response:"]; [Recv "ok..."]]] /\
  nth_error (after_call 0 (trace_of (entry TestEnhancedTimestampsPy) (w_text "ok") (start []))) 1
  = Some (Printed [[Lit "Response preview:"]; [Recv "ok..."]]) /\
  nth_error (after_call 4 (trace_of (entry ChatbotDemoPy) (w_text "ok") (start [""]))) 0
  = Some (Printed [[Lit "Response: "; Recv "ok"]]) /\
  "ok..." <> truncated 200 "ok".
Proof. repeat split; try reflexivity. discriminate. Qed.

(** C4 (as amended).  An HTTP-200 reply whose body has a ["result"] field
    but not the whole of [result.content[0].text] makes the access raise
    a [KeyError], an [IndexError] or a [TypeError].  In the demo no handler
    is around the access: the fault leaves [run_full_demo], nothing of the
    reply is printed and no further request is sent.  In [test_chatbot.py]
    and [test_enhanced_timestamps.py] the access is inside the [try] whose
    handler is [except Exception]: the fault is caught, the line
    ["❌ Connection error: <fault>"] is printed and the script ends
    normally. *)
Theorem C4_malformed_reply (p : script) (w : world) (lines : list string)
    (k : nat) (rq : request) (r : response) :
  nth_error (calls (trace_of (entry p) w (start lines))) k = Some (rq, Returned r) ->
  malformed r ->
  exists e, structural e /\
    match p with
    | ChatbotDemoPy =>
        value_of (entry p) w (start lines) = Exc e /\
        List.length (calls (trace_of (entry p) w (start lines))) = S k /\
        count_reports (after_call k (trace_of (entry p) w (start lines))) = 0
    | _ =>
        value_of (entry p) w (start lines) = Ret tt /\
        In (Printed [[Lit "❌ Connection error: "; Recv (msg e)]])
           (after_call k (trace_of (entry p) w (start lines)))
    end.
Proof.
  intros Hk Hr. destruct p; cbn [entry] in *.
  - destruct (demo_at _ _ _ Hk) as (c & rest & Hc & -> & Ho & Ha & Hrest & Hm).
    destruct (react_malformed ChatbotDemo.init c Hr) as (e & He & Hre).
    rewrite Hre in Ha, Hm. cbn [fst snd] in Ha, Hm.
    exists e. split; [assumption|]. destruct Hm as [Hv Hn].
    repeat split; try assumption.
    rewrite Ha, count_reports_app, lines_before_text_silent, Hrest. reflexivity.
  - pose proof (test_chatbot_calls w (start lines)) as [Hc Hv].
    rewrite Hc in Hk. apply only_call in Hk as [-> [= -> Ho]].
    destruct (@test_chatbot_malformed w (start lines) r (eq_sym Ho) Hr) as (e & He & Hrun).
    exists e. split; [assumption|].
    unfold trace_of, value_of. rewrite Hrun. cbn. tauto.
  - pose proof (test_timestamps_calls w (start lines)) as [Hc Hv].
    rewrite Hc in Hk. apply only_call in Hk as [-> [= -> Ho]].
    destruct (@test_timestamps_malformed w (start lines) r (eq_sym Ho) Hr) as (e & He & Hrun).
    exists e. split; [assumption|].
    unfold trace_of, value_of. rewrite Hrun. cbn. tauto.
Qed.

Lemma C4_witness :
  exists e, structural e /\
    value_of (entry ChatbotDemoPy) w_no_content (start [""]) = Exc e /\
    List.length (calls (trace_of (entry ChatbotDemoPy) w_no_content (start [""]))) = 1 /\
    count_reports (after_call 0 (trace_of (entry ChatbotDemoPy) w_no_content (start [""]))) = 0.
Proof.
  apply (@C4_malformed_reply ChatbotDemoPy w_no_content [""] 0
           (site_request ChatbotDemo.init (nth 0 demo_sites (mkSite [] "" [] Plain)))
           no_content_response).
  - vm_compute. reflexivity.
  - split; [reflexivity|].
    exists [("result", JDict [])], (JDict []), (mkExn KeyError "'content'").
    repeat split; reflexivity.
Defined.

(** C4 (as stated) fails.  [test_chatbot.py] is answered with status 200
    and the body [{"result":{}}], which has ["result"] and lacks
    ["content"]: the [KeyError] is caught by [except Exception], the script
    prints ["❌ Connection error: 'content'"] and ends normally, so it is
    not true that each of the three scripts lets the fault escape. *)
Lemma C4_counterexample :
  nth_error (calls (trace_of (entry TestChatbotPy) w_no_content (start []))) 0
  = Some (test_chatbot_request, Returned no_content_response) /\
  malformed no_content_response /\
  value_of (entry TestChatbotPy) w_no_content (start []) = Ret tt /\
  In (Printed [[Lit "❌ Connection error: "; Recv "'content'"]])
     (trace_of (entry TestChatbotPy) w_no_content (start [])) /\
  ~ (forall p w lines k rq r',
       nth_error (calls (trace_of (entry p) w (start lines))) k = Some (rq, Returned r') ->
       malformed r' ->
       exists e, value_of (entry p) w (start lines) = Exc e).
Proof.
  assert (Hm : malformed no_content_response).
  { split; [reflexivity|].
    exists [("result", JDict [])], (JDict []), (mkExn KeyError "'content'").
    repeat split; reflexivity. }
  split; [reflexivity|]. split; [exact Hm|]. split; [reflexivity|].
  split; [vm_compute; tauto|].
  intros H.
  destruct (H TestChatbotPy w_no_content [] 0 test_chatbot_request no_content_response
              eq_refl Hm) as [e He].
  discriminate He.
Qed.

(** C5.  When a [tools/call] request of any of the three scripts is
    answered with status 200 and the body [{"error": v}] (for instance
    [{"error":"boom"}]), the script prints next a line that carries [v], so
    that standard output contains [v]; no exception leaves the handling
    code: the script goes on to its next call when it has one, and ends
    normally when that call was its last. *)
Theorem C5_error_field_is_printed (p : script) (w : world) (lines : list string)
    (k : nat) (rq : request) (r : response) (v : string) :
  nth_error (calls (trace_of (entry p) w (start lines))) k = Some (rq, Returned r) ->
  error_reply v r ->
  (exists line rest,
     after_call k (trace_of (entry p) w (start lines)) = Printed line :: rest /\
     In (Recv v) (List.concat line) /\ count_reports rest = 0) /\
  contains v (stdout (trace_of (entry p) w (start lines))) = true /\
  (S k < call_sites p ->
   S k < List.length (calls (trace_of (entry p) w (start lines)))) /\
  (S k = call_sites p -> value_of (entry p) w (start lines) = Ret tt).
Proof.
  intros Hk Hr.
  assert (shown : forall line rest,
            after_call k (trace_of (entry p) w (start lines)) = Printed line :: rest ->
            In (Recv v) (List.concat line) ->
            contains v (stdout (trace_of (entry p) w (start lines))) = true).
  { intros line rest Ha Hin. apply (@stdout_contains v line); [|assumption].
    apply (@after_call_incl k). rewrite Ha. now left. }
  destruct p; cbn [entry call_sites] in *.
  - destruct (demo_at _ _ _ Hk) as (c & rest & Hc & -> & Ho & Ha & Hrest & Hm).
    rewrite (react_error_reply _ _ Hr) in Ha, Hm. cbn [fst snd app] in Ha, Hm.
    split; [|split; [|exact Hm]].
    + exists (err_line (kind c) v), rest. auto using err_line_carries.
    + eapply shown; [exact Ha|apply err_line_carries].
  - pose proof (test_chatbot_calls w (start lines)) as [Hc Hv].
    rewrite Hc in Hk. apply only_call in Hk as [-> [= -> Ho]].
    destruct Hr as [Hs Hj].
    pose proof (@test_chatbot_no_result w (start lines) r _ (eq_sym Ho) Hs Hj eq_refl) as Hrun.
    unfold trace_of, value_of in *. rewrite Hrun in *. cbn [fst snd] in *.
    split; [|split; [|split; [cbn; lia|reflexivity]]].
    + eexists _, []. split; [reflexivity|]. cbn. tauto.
    + eapply shown; [reflexivity|cbn; tauto].
  - pose proof (test_timestamps_calls w (start lines)) as [Hc Hv].
    rewrite Hc in Hk. apply only_call in Hk as [-> [= -> Ho]].
    destruct Hr as [Hs Hj].
    pose proof (@test_timestamps_no_result w (start lines) r _ (eq_sym Ho) Hs Hj eq_refl)
      as Hrun.
    unfold trace_of, value_of in *. rewrite Hrun in *. cbn [fst snd] in *.
    split; [|split; [|split; [cbn; lia|reflexivity]]].
    + eexists _, [_]. split; [reflexivity|]. cbn. tauto.
    + eapply shown; [reflexivity|cbn; tauto].
Qed.

Lemma C5_witness :
  (exists line rest,
     after_call 3 (trace_of (entry ChatbotDemoPy) w_boom (start [""]))
     = Printed line :: rest /\
     In (Recv "boom") (List.concat line) /\ count_reports rest = 0) /\
  contains "boom" (stdout (trace_of (entry ChatbotDemoPy) w_boom (start [""]))) = true /\
  (4 < call_sites ChatbotDemoPy ->
   4 < List.length (calls (trace_of (entry ChatbotDemoPy) w_boom (start [""])))) /\
  (4 = call_sites ChatbotDemoPy ->
   value_of (entry ChatbotDemoPy) w_boom (start [""]) = Ret tt).
Proof.
  apply (@C5_error_field_is_printed ChatbotDemoPy w_boom [""] 3
           (site_request ChatbotDemo.init (nth 3 demo_sites (mkSite [] "" [] Plain)))
           (mkResponse 200 "OK" "http://localhost:8084/jsonrpc"
                       (Ret (JDict [("error", JStr "boom")])))
           "boom").
  - vm_compute. reflexivity.
  - split; reflexivity.
Defined.

(** C6.  When a [tools/call] POST of any of the three scripts fails in the
    transport (the library raises a [RequestException], for instance a
    refused connection), the script catches the fault and prints next a
    line that carries the message of the fault, so that standard output
    contains it; the script does not stop there: it goes on to its next
    call when it has one, and ends normally when that call was its
    last. *)
Theorem C6_transport_failure_is_caught (p : script) (w : world) (lines : list string)
    (k : nat) (rq : request) (o : outcome) (e : exn) :
  nth_error (calls (trace_of (entry p) w (start lines))) k = Some (rq, o) ->
  transport_failure o e ->
  (exists line rest,
     after_call k (trace_of (entry p) w (start lines)) = Printed line :: rest /\
     In (Recv (msg e)) (List.concat line)) /\
  contains (msg e) (stdout (trace_of (entry p) w (start lines))) = true /\
  (S k < call_sites p ->
   S k < List.length (calls (trace_of (entry p) w (start lines)))) /\
  (S k = call_sites p -> value_of (entry p) w (start lines) = Ret tt).
Proof.
  intros Hk [-> He].
  assert (shown : forall line rest,
            after_call k (trace_of (entry p) w (start lines)) = Printed line :: rest ->
            In (Recv (msg e)) (List.concat line) ->
            contains (msg e) (stdout (trace_of (entry p) w (start lines))) = true).
  { intros line rest Ha Hin. apply (@stdout_contains (msg e) line); [|assumption].
    apply (@after_call_incl k). rewrite Ha. now left. }
  destruct p; cbn [entry call_sites] in *.
  - destruct (demo_at _ _ _ Hk) as (c & rest & Hc & -> & Ho & Ha & Hrest & Hm).
    rewrite (react_raised _ _ _ He) in Ha, Hm. cbn [fst snd app] in Ha, Hm.
    assert (Hin : In (Recv (msg e)) (List.concat (caught_line c (msg e))))
      by (cbn; tauto).
    split; [|split; [|exact Hm]].
    + now exists (caught_line c (msg e)), (Printed (err_line (kind c) (msg e)) :: rest).
    + eapply shown; [exact Ha|exact Hin].
  - pose proof (test_chatbot_calls w (start lines)) as [Hc Hv].
    rewrite Hc in Hk. apply only_call in Hk as [-> [= -> Ho]].
    pose proof (@test_chatbot_raised w (start lines) e (eq_sym Ho)) as Hrun.
    unfold trace_of, value_of in *. rewrite Hrun in *. cbn [fst snd] in *.
    split; [|split; [|split; [cbn; lia|reflexivity]]].
    + eexists _, [_]. split; [reflexivity|]. cbn. tauto.
    + eapply shown; [reflexivity|cbn; tauto].
  - pose proof (test_timestamps_calls w (start lines)) as [Hc Hv].
    rewrite Hc in Hk. apply only_call in Hk as [-> [= -> Ho]].
    pose proof (@test_timestamps_raised w (start lines) e (eq_sym Ho)) as Hrun.
    unfold trace_of, value_of in *. rewrite Hrun in *. cbn [fst snd] in *.
    split; [|split; [|split; [cbn; lia|reflexivity]]].
    + eexists _, [_; _]. split; [reflexivity|]. cbn. tauto.
    + eapply shown; [reflexivity|cbn; tauto].
Qed.

Lemma C6_witness :
  (exists line rest,
     after_call 0 (trace_of (entry ChatbotDemoPy) w_refused (start [""]))
     = Printed line :: rest /\
     In (Recv "Connection refused") (List.concat line)) /\
  contains "Connection refused"
           (stdout (trace_of (entry ChatbotDemoPy) w_refused (start [""]))) = true /\
  (1 < call_sites ChatbotDemoPy ->
   1 < List.length (calls (trace_of (entry ChatbotDemoPy) w_refused (start [""])))) /\
  (1 = call_sites ChatbotDemoPy ->
   value_of (entry ChatbotDemoPy) w_refused (start [""]) = Ret tt).
Proof.
  apply (@C6_transport_failure_is_caught ChatbotDemoPy w_refused [""] 0
           (site_request ChatbotDemo.init (nth 0 demo_sites (mkSite [] "" [] Plain)))
           (Raised (mkExn ConnectionError "Connection refused"))
           (mkExn ConnectionError "Connection refused")).
  - vm_compute. reflexivity.
  - split; reflexivity.
Defined.

(** C7 (as amended).  After a [tools/call] request and before the next
    one, [test_chatbot.py] and [test_enhanced_timestamps.py] print at most
    one line that carries something of the reply (the text of the result,
    the error value, the status code or the message of a fault).  The demo
    prints at most two such lines, at most one when the request returns a
    response with a status outside 400..599 and a body that parses, and
    exactly two when the POST fails in the transport: ["Error calling tool
    T: e"] printed by [call_tool] and then ["Error: e"] printed by the
    call site. *)
Theorem C7_reports_per_request (p : script) (w : world) (lines : list string)
    (k : nat) (rq : request) (o : outcome) :
  nth_error (calls (trace_of (entry p) w (start lines))) k = Some (rq, o) ->
  count_reports (after_call k (trace_of (entry p) w (start lines))) <= 2 /\
  (p <> ChatbotDemoPy ->
   count_reports (after_call k (trace_of (entry p) w (start lines))) <= 1) /\
  (forall r body,
     o = Returned r -> error_status (status_code r) = false ->
     resp_json r = Ret body ->
     count_reports (after_call k (trace_of (entry p) w (start lines))) <= 1) /\
  (p = ChatbotDemoPy ->
   forall e, transport_failure o e ->
     count_reports (after_call k (trace_of (entry p) w (start lines))) = 2).
Proof.
  intros Hk. destruct p; cbn [entry] in *.
  - destruct (demo_at _ _ _ Hk) as (c & rest & Hc & -> & Ho & Ha & Hrest & _).
    rewrite Ha, count_reports_app, Hrest, Nat.add_0_r.
    split; [apply react_reports_le2|]. split; [easy|]. split.
    + intros r body -> Hs Hj. eauto using react_reports_le1.
    + intros _ e [-> He]. rewrite (react_raised _ _ _ He). cbn [fst].
      now destruct (kind c).
  - pose proof (test_chatbot_calls w (start lines)) as [Hc _].
    rewrite Hc in Hk. apply only_call in Hk as [-> _].
    pose proof (test_chatbot_reports w (start lines)).
    repeat split; intros; try lia; discriminate.
  - pose proof (test_timestamps_calls w (start lines)) as [Hc _].
    rewrite Hc in Hk. apply only_call in Hk as [-> _].
    pose proof (test_timestamps_reports w (start lines)).
    repeat split; intros; try lia; discriminate.
Qed.

Lemma C7_witness :
  count_reports (after_call 0 (trace_of (entry ChatbotDemoPy) w_refused (start [""]))) <= 2 /\
  (ChatbotDemoPy <> ChatbotDemoPy ->
   count_reports (after_call 0 (trace_of (entry ChatbotDemoPy) w_refused (start [""]))) <= 1) /\
  (forall r body,
     Raised (mkExn ConnectionError "Connection refused") = Returned r ->
     error_status (status_code r) = false ->
     resp_json r = Ret body ->
     count_reports (after_call 0 (trace_of (entry ChatbotDemoPy) w_refused (start [""]))) <= 1) /\
  (ChatbotDemoPy = ChatbotDemoPy ->
   forall e, transport_failure (Raised (mkExn ConnectionError "Connection refused")) e ->
     count_reports (after_call 0 (trace_of (entry ChatbotDemoPy) w_refused (start [""]))) = 2).
Proof.
  apply (@C7_reports_per_request ChatbotDemoPy w_refused [""] 0
           (site_request ChatbotDemo.init (nth 0 demo_sites (mkSite [] "" [] Plain)))
           (Raised (mkExn ConnectionError "Connection refused"))).
  vm_compute. reflexivity.
Defined.

(** C7 (as stated) fails.  The demo runs against a server whose
    [/jsonrpc] refuses the connection: for its first [tools/call] request
    [call_tool] prints ["Error calling tool chatbot_query: Connection
    refused"] and the call site prints ["Error: Connection refused"], two
    lines that report the one outcome. *)
Lemma C7_counterexample :
  after_call 0 (trace_of (entry ChatbotDemoPy) w_refused (start [""]))
  = [Printed [[Lit "Error calling tool "; Lit "chatbot_query"; Lit ": ";
               Recv "Connection refused"]];
     Printed [[Lit "Error:"]; [Recv "Connection refused"]];
     Printed [[Lit (newline ++ "2. Query: 'Tell me about pod crashes'")]]] /\
  count_reports (after_call 0 (trace_of (entry ChatbotDemoPy) w_refused (start [""]))) = 2 /\
  ~ (forall p w lines k,
       k < List.length (calls (trace_of (entry p) w (start lines))) ->
       count_reports (after_call k (trace_of (entry p) w (start lines))) <= 1).
Proof.
  split; [reflexivity|]. split; [reflexivity|].
  intros H. specialize (H ChatbotDemoPy w_refused [""] 0).
  vm_compute in H. specialize (H (le_n_S _ _ (le_0_n _))).
  apply le_S_n, Nat.nle_succ_0 in H. exact H.
Qed.

(** C8 (as amended).  Two of the three scripts, [test_chatbot.py] and
    [test_enhanced_timestamps.py], pass [timeout=30] with the request they
    send; the demo passes no timeout with any of its requests, the probe
    included. *)
Theorem C8_two_scripts_set_the_timeout :
  sets_timeout_30 TestChatbotPy /\
  sets_timeout_30 TestEnhancedTimestampsPy /\
  sets_no_timeout ChatbotDemoPy.
Proof.
  split; [|split].
  - intros w lines. cbn [entry]. rewrite test_chatbot_requests.
    split; [discriminate|]. now repeat constructor.
  - intros w lines. cbn [entry]. rewrite test_timestamps_requests.
    split; [discriminate|]. now repeat constructor.
  - intros w lines. apply demo_requests.
Qed.

(** C8 (as stated) fails: [test_chatbot.py] and
    [test_enhanced_timestamps.py] both send their request with
    [timeout=30], so there is no script that alone sets the timeout while
    the two others set none. *)
Lemma C8_counterexample :
  map req_timeout (requests (trace_of (entry TestChatbotPy) (w_text "ok") (start [])))
  = [Some 30%Z] /\
  map req_timeout (requests (trace_of (entry TestEnhancedTimestampsPy) (w_text "ok") (start [])))
  = [Some 30%Z] /\
  ~ (exists p, sets_timeout_30 p /\ forall p', p' <> p -> sets_no_timeout p').
Proof.
  split; [reflexivity|]. split; [reflexivity|].
  intros (p & _ & Hothers).
  assert (Hc : ~ sets_no_timeout TestChatbotPy).
  { intros H. specialize (H (w_text "ok") []). inversion H as [|? ? Hrq _]. discriminate Hrq. }
  assert (Ht : ~ sets_no_timeout TestEnhancedTimestampsPy).
  { intros H. specialize (H (w_text "ok") []). inversion H as [|? ? Hrq _]. discriminate Hrq. }
  destruct p.
  - apply Hc, Hothers. discriminate.
  - apply Ht, Hothers. discriminate.
  - apply Hc, Hothers. discriminate.
Qed.

(** C9.  [test_enhanced_timestamps] always returns a boolean, and it
    returns [True] exactly when the POST returns status 200 with a JSON
    object that has a ["result"] key and whose [result.content[0].text] is
    there as a string; in every other case, the handled faults included,
    it returns [False].  The substring test for ["Created:"], ["Updated:"]
    or ["Collected:"] only chooses the last line the function prints: the
    function returns [True] whichever way the test goes, and the lines the
    entry point prints last depend on the returned boolean alone. *)
Theorem C9_verdict_of_test_enhanced_timestamps (w : world) (s : state) :
  (value_of TestEnhancedTimestamps.test_enhanced_timestamps w s = Ret true \/
   value_of TestEnhancedTimestamps.test_enhanced_timestamps w s = Ret false) /\
  (value_of TestEnhancedTimestamps.test_enhanced_timestamps w s = Ret true <->
   exists r d x text,
     w (sent s) test_timestamps_request = Returned r /\ status_code r = 200%Z /\
     resp_json r = Ret (JDict d) /\ lookup "result" d = Some x /\
     result_text (JDict d) = Ret (JStr text)) /\
  (forall r d text,
     w (sent s) test_timestamps_request = Returned r -> status_code r = 200%Z ->
     resp_json r = Ret (JDict d) -> result_text (JDict d) = Ret (JStr text) ->
     trace_of TestEnhancedTimestamps.test_enhanced_timestamps w s =
     [Printed [[Lit "🧪 Testing Enhanced Timestamp Functionality..."]];
      Printed [[Lit "📡 Sending request to tools server..."]];
      Sent test_timestamps_request (Returned r);
      Printed [[Lit "✅ Enhanced timestamp query successful!"]];
      Printed [[Lit "Response preview:"]; [Recv (slice_to 500 text ++ "...")]];
      Printed (timestamps_line (has_timestamps text))] /\
     value_of TestEnhancedTimestamps.test_enhanced_timestamps w s = Ret true) /\
  (forall b,
     value_of TestEnhancedTimestamps.test_enhanced_timestamps w s = Ret b ->
     trace_of TestEnhancedTimestamps.main w s =
     (Printed [[Lit "🚀 Starting Enhanced Timestamp Tests..."]]
      :: trace_of TestEnhancedTimestamps.test_enhanced_timestamps w s
      ++ map Printed (verdict_lines b))%list /\
     value_of TestEnhancedTimestamps.main w s = Ret tt).
Proof.
  pose proof (test_timestamps_verdict w s) as [[b Hb] Htrue].
  split; [destruct b; auto|]. split; [|split].
  - split; [exact Htrue|].
    intros (r & d & x & text & Hw & Hs & Hj & _ & Ht).
    unfold value_of. now rewrite (test_timestamps_text _ _ Hw Hs Hj Ht).
  - intros r d text Hw Hs Hj Ht.
    unfold trace_of, value_of. now rewrite (test_timestamps_text _ _ Hw Hs Hj Ht).
  - intros b'. unfold trace_of, value_of, TestEnhancedTimestamps.main.
    cbv [bind print].
    destruct (TestEnhancedTimestamps.test_enhanced_timestamps w s) as [[t s1] [b''|e]];
      cbn [fst snd]; [|discriminate].
    intros [= ->]. destruct b'; cbn; rewrite ?app_nil_r; split; reflexivity.
Qed.

Lemma C9_witness :
  trace_of TestEnhancedTimestamps.test_enhanced_timestamps (w_text "Updated: 12:00") (start []) =
  [Printed [[Lit "🧪 Testing Enhanced Timestamp Functionality..."]];
   Printed [[Lit "📡 Sending request to tools server..."]];
   Sent test_timestamps_request (reply 200 (result_body "Updated: 12:00"));
   Printed [[Lit "✅ Enhanced timestamp query successful!"]];
   Printed [[Lit "Response preview:"]; [Recv (slice_to 500 "Updated: 12:00" ++ "...")]];
   Printed (timestamps_line (has_timestamps "Updated: 12:00"))] /\
  value_of TestEnhancedTimestamps.test_enhanced_timestamps (w_text "Updated: 12:00") (start [])
  = Ret true.
Proof.
  apply (proj1 (proj2 (proj2 (C9_verdict_of_test_enhanced_timestamps
                                (w_text "Updated: 12:00") (start []))))
           (mkResponse 200 "OK" "http://localhost:8084/jsonrpc"
                       (Ret (result_body "Updated: 12:00")))
           [("result", JDict [("content", JList [JDict [("text", JStr "Updated: 12:00")]])])]
           "Updated: 12:00");
    reflexivity.
Defined.

(** C10 (as amended).  In every run of the demo the [tools/call] requests
    come in the order of the eleven call sites (three [chatbot_query], one
    [get_remediation], seven [chatbot_query]), each with id 1: the [k]-th
    request sent is the request of the [k]-th site.  When the user has
    pressed Enter, the probe has returned status 200 and every call sent
    meets an outcome the demo copes with (a fault of the transport, an HTTP
    error status, a JSON object without ["result"], or one with a string at
    [result.content[0].text]), all eleven requests are sent and the run
    ends normally. *)
Theorem C10_eleven_calls_in_order (w : world) (lines : list string) :
  map (fun c => tool_of (site_request ChatbotDemo.init c)) demo_sites
  = [Some "chatbot_query"; Some "chatbot_query"; Some "chatbot_query";
     Some "get_remediation";
     Some "chatbot_query"; Some "chatbot_query"; Some "chatbot_query";
     Some "chatbot_query"; Some "chatbot_query"; Some "chatbot_query";
     Some "chatbot_query"] /\
  (forall k rq o,
     nth_error (calls (trace_of ChatbotDemo.main w (start lines))) k = Some (rq, o) ->
     nth_error (map (site_request ChatbotDemo.init) demo_sites) k = Some rq /\
     id_of rq = Some (JInt 1)) /\
  (forall l ls r,
     lines = l :: ls ->
     w 0 health_request = Returned r ->
     status_code r = 200%Z ->
     (forall rq o,
        In (rq, o) (calls (trace_of ChatbotDemo.main w (start lines))) -> handled o) ->
     map fst (calls (trace_of ChatbotDemo.main w (start lines)))
     = map (site_request ChatbotDemo.init) demo_sites /\
     List.length (calls (trace_of ChatbotDemo.main w (start lines))) = 11 /\
     value_of ChatbotDemo.main w (start lines) = Ret tt).
Proof.
  split; [reflexivity|]. split.
  - intros k rq o Hk.
    destruct (demo_at _ _ _ Hk) as (c & _ & Hc & -> & _).
    split; [now apply map_nth_error|reflexivity].
  - intros l ls r -> Hw Hs. unfold trace_of, value_of.
    rewrite (main_connected _ _ _ Hw Hs).
    pose proof (@sites_handled ChatbotDemo.init demo_sites w (mkState 1 ls)) as H.
    unfold trace_of, value_of in H.
    destruct ((for_each demo_sites (run_site ChatbotDemo.init) ;; demo_epilogue)
                w (mkState 1 ls)) as [[t s'] v].
    cbn [fst snd] in *.
    change (calls (demo_prelude l r ++ t)) with (calls t).
    intros Hh. destruct (H Hh) as [H1 H2].
    split; [assumption|]. split; [|assumption].
    rewrite <- (length_map fst), H1. reflexivity.
Qed.

Lemma C10_witness :
  map fst (calls (trace_of ChatbotDemo.main (w_text "ok") (start [""])))
  = map (site_request ChatbotDemo.init) demo_sites /\
  List.length (calls (trace_of ChatbotDemo.main (w_text "ok") (start [""]))) = 11 /\
  value_of ChatbotDemo.main (w_text "ok") (start [""]) = Ret tt.
Proof.
  apply (proj2 (proj2 (C10_eleven_calls_in_order (w_text "ok") [""]))
           "" [] (mkResponse 200 "OK" "http://localhost:8084/jsonrpc"
                             (Ret (result_body "ok")))).
  - reflexivity.
  - reflexivity.
  - reflexivity.
  - intros rq o Hin. vm_compute in Hin.
    repeat (destruct Hin as [Hin|Hin];
            [injection Hin as _ <-; right; eexists; split;
             [reflexivity|right; eexists; reflexivity]|]).
    contradiction.
Defined.

(** C10 (as stated) fails.  The probe returns status 200 and the first
    [tools/call] is answered with status 200 and the body [{"result":{}}]:
    the access to ["content"] raises a [KeyError] that leaves
    [run_full_demo], and one request has been sent instead of eleven. *)
Lemma C10_counterexample :
  In (Sent health_request (Returned no_content_response))
     (trace_of ChatbotDemo.main w_no_content (start [""])) /\
  status_code no_content_response = 200%Z /\
  List.length (calls (trace_of ChatbotDemo.main w_no_content (start [""]))) = 1 /\
  value_of ChatbotDemo.main w_no_content (start [""]) = Exc (mkExn KeyError "'content'") /\
  ~ (forall w lines r,
       In (Sent health_request (Returned r)) (trace_of ChatbotDemo.main w (start lines)) ->
       status_code r = 200%Z ->
       List.length (calls (trace_of ChatbotDemo.main w (start lines))) = 11).
Proof.
  assert (Hin : In (Sent health_request (Returned no_content_response))
                   (trace_of ChatbotDemo.main w_no_content (start [""])))
    by (vm_compute; tauto).
  split; [exact Hin|]. split; [reflexivity|]. split; [reflexivity|].
  split; [reflexivity|].
  intros H. specialize (H w_no_content [""] no_content_response Hin eq_refl).
  discriminate H.
Qed.

(* ================================================================== *)
(** * Further properties of the scripts *)
(* ================================================================== *)

(** ** A site that raises ends the run *)

Lemma sites_stop self cs :
  forall k w s rq o c e,
    nth_error (calls (trace_of (for_each cs (run_site self) ;; demo_epilogue) w s)) k
    = Some (rq, o) ->
    nth_error cs k = Some c ->
    snd (react self c o) = Exc e ->
    after_call k (trace_of (for_each cs (run_site self) ;; demo_epilogue) w s)
    = fst (react self c o).
Proof.
  induction cs as [|c0 cs IH]; intros k w s rq o c e; unfold trace_of in *.
  - now destruct k.
  - rewrite sites_cons. cbv zeta.
    set (o0 := w (sent s) (site_request self c0)).
    destruct (snd (react self c0 o0)) as [[]|e0] eqn:Hv.
    + specialize (IH (pred k) w (bump s) rq o c e).
      destruct ((for_each cs (run_site self) ;; demo_epilogue) w (bump s))
        as [[t s'] r].
      cbn [fst] in *.
      rewrite <- !app_assoc, calls_app, calls_prints, after_call_prints.
      cbn [app calls after_call]. rewrite call_of_site, calls_app, react_calls.
      cbn [app]. destruct k as [|k]; cbn [nth_error pred] in *.
      * intros [= <- <-] [= <-] He. fold o0 in He. congruence.
      * rewrite react_after_call. exact IH.
    + cbn [fst]. rewrite calls_app, calls_prints, after_call_prints.
      cbn [app calls after_call]. rewrite call_of_site, react_calls.
      destruct k as [|k]; cbn [nth_error]; [|now destruct k].
      intros [= <- <-] [= <-] _. fold o0.
      rewrite <- (app_nil_r (fst (react self c0 o0))) at 1.
      now rewrite react_until_call, app_nil_r.
Qed.

Lemma demo_stop w lines k rq o c e :
  nth_error (calls (trace_of ChatbotDemo.main w (start lines))) k = Some (rq, o) ->
  nth_error demo_sites k = Some c ->
  snd (react ChatbotDemo.init c o) = Exc e ->
  after_call k (trace_of ChatbotDemo.main w (start lines))
  = fst (react ChatbotDemo.init c o).
Proof.
  intros Hk Hc He.
  destruct (main_calls_inv w lines) as (l & ls & r & -> & Hw & Hs).
  { intros H. rewrite H in Hk. now destruct k. }
  unfold trace_of in *. rewrite (main_connected _ _ _ Hw Hs) in *.
  pose proof (@sites_stop ChatbotDemo.init demo_sites k w (mkState 1 ls) rq o c e) as H.
  unfold trace_of in H.
  destruct ((for_each demo_sites (run_site ChatbotDemo.init) ;; demo_epilogue)
              w (mkState 1 ls)) as [[t s'] v].
  cbn [fst] in *.
  change (calls (demo_prelude l r ++ t)) with (calls t) in *.
  change (after_call k (demo_prelude l r ++ t)) with (after_call k t).
  exact (H Hk Hc He).
Qed.

(** What the [k]-th call of the demo leads to, from the reaction of its
    site. *)
Lemma demo_call_returns w lines k rq o c post :
  nth_error (calls (trace_of ChatbotDemo.main w (start lines))) k = Some (rq, o) ->
  nth_error demo_sites k = Some c ->
  react ChatbotDemo.init c o = (post, Ret tt) ->
  (exists rest,
     after_call k (trace_of ChatbotDemo.main w (start lines)) = (post ++ rest)%list /\
     count_reports rest = 0) /\
  (S k < List.length demo_sites ->
   S k < List.length (calls (trace_of ChatbotDemo.main w (start lines)))) /\
  (S k = List.length demo_sites -> value_of ChatbotDemo.main w (start lines) = Ret tt).
Proof.
  intros Hk Hc Hr.
  destruct (demo_at _ _ _ Hk) as (c' & rest & Hc' & _ & _ & Ha & Hrest & Hm).
  assert (c' = c) by congruence. subst c'.
  rewrite Hr in Ha, Hm. cbn [fst snd] in Ha, Hm.
  split; [now exists rest|exact Hm].
Qed.

Lemma demo_call_raises w lines k rq o c post e :
  nth_error (calls (trace_of ChatbotDemo.main w (start lines))) k = Some (rq, o) ->
  nth_error demo_sites k = Some c ->
  react ChatbotDemo.init c o = (post, Exc e) ->
  after_call k (trace_of ChatbotDemo.main w (start lines)) = post /\
  value_of ChatbotDemo.main w (start lines) = Exc e /\
  List.length (calls (trace_of ChatbotDemo.main w (start lines))) = S k.
Proof.
  intros Hk Hc Hr.
  destruct (demo_at _ _ _ Hk) as (c' & rest & Hc' & _ & _ & _ & _ & Hm).
  assert (c' = c) by congruence. subst c'.
  pose proof (@demo_stop w lines k rq o c e Hk Hc) as Hs.
  rewrite Hr in Hm, Hs. cbn [fst snd] in Hm, Hs.
  split; [now apply Hs|exact Hm].
Qed.

Lemma demo_site_of_call w lines k rq o :
  nth_error (calls (trace_of ChatbotDemo.main w (start lines))) k = Some (rq, o) ->
  exists c, nth_error demo_sites k = Some c /\ rq = site_request ChatbotDemo.init c.
Proof.
  intros Hk. destruct (demo_at _ _ _ Hk) as (c & _ & Hc & Hrq & _). now exists c.
Qed.

(** ** More reactions of a site *)

Lemma react_http_error self c r :
  error_status (status_code r) = true ->
  react self c (Returned r) =
  ([Printed (caught_line c (http_error_message r));
    Printed (err_line (kind c) (http_error_message r))], Ret tt).
Proof.
  intros Hs. apply react_from_tail. intros w s.
  unfold error_status in Hs. apply andb_true_iff in Hs as [H4 H6].
  unfold http_error_message. run_glue. rewrite H4. cbn [andb].
  destruct (Z.ltb_spec (status_code r) 500) as [Hlt|Hge].
  - now destruct (kind c).
  - assert (H5 : (500 <=? status_code r)%Z = true) by (apply Z.leb_le; lia).
    rewrite H5, H6. now destruct (kind c).
Qed.

Lemma react_uncaught self c o e :
  raises_uncaught o e -> react self c o = ([], Exc e).
Proof.
  intros [He Ho]. apply react_from_tail. intros w s.
  destruct Ho as [->|(r & -> & Hs & Hj)].
  - run_glue. now rewrite He.
  - unfold site_tail, answered. cbv [bind try_except ret].
    rewrite (status_ok_run _ Hs). cbv [lift]. now rewrite Hj, He.
Qed.

Lemma react_json_caught self c r e :
  error_status (status_code r) = false ->
  resp_json r = Exc e ->
  is_RequestException (cls e) = true ->
  react self c (Returned r) =
  ([Printed (caught_line c (msg e)); Printed (err_line (kind c) (msg e))], Ret tt).
Proof.
  intros Hs Hj He. apply react_from_tail. intros w s.
  unfold site_tail, answered. cbv [bind try_except ret].
  rewrite (status_ok_run _ Hs). cbv [lift]. rewrite Hj, He.
  cbv [print report bind lift ret]. now destruct (kind c).
Qed.

Lemma react_no_result self c r d :
  error_status (status_code r) = false ->
  resp_json r = Ret (JDict d) ->
  lookup "result" d = None ->
  react self c (Returned r) =
  ([Printed (err_line (kind c)
       (py_str (match lookup "error" d with
                | Some x => x
                | None => JStr "Unknown error"
                end)))], Ret tt).
Proof.
  intros Hs Hj Hl. apply react_from_tail. intros w s. now apply tail_no_result.
Qed.

Lemma tail_body c r body w s :
  error_status (status_code r) = false ->
  resp_json r = Ret body ->
  site_tail c (Returned r) w s = report (kind c) body w s.
Proof.
  intros Hs Hj. unfold site_tail, answered. cbv [bind try_except ret].
  rewrite (status_ok_run _ Hs). cbv [lift]. rewrite Hj.
  now destruct (report (kind c) body w s) as [[t s'] v].
Qed.

Lemma report_not_object k body :
  not_an_object body ->
  exists post e,
    (forall w s, report k body w s = (post, s, Exc e)) /\
    count_reports post = 0 /\
    (cls e = TypeError \/ cls e = AttributeError).
Proof.
  intros Hb.
  destruct body as [|b|z|fr|str|l|d]; try contradiction;
    cbv [report bind lift print ret];
    cbn [py_in dict_get result_text getitem res_bind not_subscriptable type_error].
  1-4: destruct k; eexists _, _; (split; [intros w s; reflexivity|]);
       (split; [reflexivity|cbn; tauto]).
  - destruct (contains "result" str); destruct k; eexists _, _;
      (split; [intros w s; reflexivity|]); (split; [reflexivity|cbn; tauto]).
  - destruct (existsb _ l); destruct k; eexists _, _;
      (split; [intros w s; reflexivity|]); (split; [reflexivity|cbn; tauto]).
Qed.

Lemma react_not_object self c r body :
  error_status (status_code r) = false ->
  resp_json r = Ret body ->
  not_an_object body ->
  exists post e,
    react self c (Returned r) = (post, Exc e) /\
    count_reports post = 0 /\
    (cls e = TypeError \/ cls e = AttributeError).
Proof.
  intros Hs Hj Hb.
  destruct (report_not_object (kind c) _ Hb) as (post & e & Hrun & Hc & He).
  exists post, e. split; [|now split].
  apply react_from_tail. intros w s. now rewrite (@tail_body c r body w s Hs Hj).
Qed.

(** ** The demo and the faults of one call *)

(** X1.  When a [tools/call] of the demo is answered with a status in
    400..599, [raise_for_status] raises, the body is never read, and the
    same message ["<status> Client Error: ..."] or ["<status> Server
    Error: ..."] is printed twice, by [call_tool] and by the call site;
    the demo then goes on to its next call, or ends normally after its
    last. *)
Theorem X1_http_error_status_in_demo (w : world) (lines : list string)
    (k : nat) (rq : request) (r : response) :
  nth_error (calls (trace_of ChatbotDemo.main w (start lines))) k
  = Some (rq, Returned r) ->
  error_status (status_code r) = true ->
  exists c rest,
    nth_error demo_sites k = Some c /\
    after_call k (trace_of ChatbotDemo.main w (start lines))
    = Printed (caught_line c (http_error_message r))
      :: Printed (err_line (kind c) (http_error_message r)) :: rest /\
    count_reports rest = 0 /\
    (S k < List.length demo_sites ->
     S k < List.length (calls (trace_of ChatbotDemo.main w (start lines)))) /\
    (S k = List.length demo_sites -> value_of ChatbotDemo.main w (start lines) = Ret tt).
Proof.
  intros Hk Hs. destruct (demo_site_of_call _ _ _ Hk) as (c & Hc & _).
  destruct (demo_call_returns _ _ _ Hk Hc (react_http_error ChatbotDemo.init c r Hs))
    as ((rest & Ha & Hr) & Hnext).
  exists c, rest. now repeat split.
Qed.

Lemma X1_witness :
  exists c rest,
    nth_error demo_sites 3 = Some c /\
    after_call 3 (trace_of ChatbotDemo.main (w_calls (reply 503 JNull)) (start [""]))
    = Printed (caught_line c (http_error_message
                                (mkResponse 503 "OK" "http://localhost:8084/jsonrpc"
                                            (Ret JNull))))
      :: Printed (err_line (kind c) (http_error_message
                                (mkResponse 503 "OK" "http://localhost:8084/jsonrpc"
                                            (Ret JNull)))) :: rest /\
    count_reports rest = 0 /\
    (4 < List.length demo_sites ->
     4 < List.length (calls (trace_of ChatbotDemo.main (w_calls (reply 503 JNull))
                                      (start [""])))) /\
    (4 = List.length demo_sites ->
     value_of ChatbotDemo.main (w_calls (reply 503 JNull)) (start [""]) = Ret tt).
Proof.
  apply (@X1_http_error_status_in_demo (w_calls (reply 503 JNull)) [""] 3
           (site_request ChatbotDemo.init remediation_site)
           (mkResponse 503 "OK" "http://localhost:8084/jsonrpc" (Ret JNull))).
  - vm_compute. reflexivity.
  - reflexivity.
Defined.

(** X2.  [call_tool] catches [RequestException] only.  When the POST of a
    [tools/call] raises an exception of another class, or when [.json()]
    raises one on a response that passed [raise_for_status], nothing is
    printed for that call, the exception leaves [run_full_demo] and no
    further request is sent. *)
Theorem X2_other_exceptions_end_the_demo (w : world) (lines : list string)
    (k : nat) (rq : request) (o : outcome) (e : exn) :
  nth_error (calls (trace_of ChatbotDemo.main w (start lines))) k = Some (rq, o) ->
  raises_uncaught o e ->
  after_call k (trace_of ChatbotDemo.main w (start lines)) = [] /\
  value_of ChatbotDemo.main w (start lines) = Exc e /\
  List.length (calls (trace_of ChatbotDemo.main w (start lines))) = S k.
Proof.
  intros Hk Ho. destruct (demo_site_of_call _ _ _ Hk) as (c & Hc & _).
  exact (demo_call_raises _ _ _ Hk Hc (react_uncaught ChatbotDemo.init c Ho)).
Qed.

Lemma X2_witness :
  after_call 0 (trace_of ChatbotDemo.main
                  (w_calls (Returned (mkResponse 200 "OK" "http://localhost:8084/jsonrpc"
                                        (Exc (mkExn ValueError "Expecting value")))))
                  (start [""])) = [] /\
  value_of ChatbotDemo.main
    (w_calls (Returned (mkResponse 200 "OK" "http://localhost:8084/jsonrpc"
                          (Exc (mkExn ValueError "Expecting value")))))
    (start [""]) = Exc (mkExn ValueError "Expecting value") /\
  List.length (calls (trace_of ChatbotDemo.main
                  (w_calls (Returned (mkResponse 200 "OK" "http://localhost:8084/jsonrpc"
                                        (Exc (mkExn ValueError "Expecting value")))))
                  (start [""]))) = 1.
Proof.
  apply (@X2_other_exceptions_end_the_demo _ [""] 0
           (site_request ChatbotDemo.init (nth 0 demo_sites remediation_site))
           (Returned (mkResponse 200 "OK" "http://localhost:8084/jsonrpc"
                                 (Exc (mkExn ValueError "Expecting value"))))
           (mkExn ValueError "Expecting value")).
  - vm_compute. reflexivity.
  - split; [reflexivity|]. right. eexists. repeat split; reflexivity.
Defined.

(** X3.  When the body of a response that passed [raise_for_status] is not
    JSON and [.json()] raises a [RequestException] (as
    [requests.exceptions.JSONDecodeError] is), [call_tool] catches it like
    a fault of the transport: the message is printed twice and the demo
    goes on. *)
Theorem X3_undecodable_body_is_caught (w : world) (lines : list string)
    (k : nat) (rq : request) (r : response) (e : exn) :
  nth_error (calls (trace_of ChatbotDemo.main w (start lines))) k
  = Some (rq, Returned r) ->
  error_status (status_code r) = false ->
  resp_json r = Exc e ->
  is_RequestException (cls e) = true ->
  exists c rest,
    nth_error demo_sites k = Some c /\
    after_call k (trace_of ChatbotDemo.main w (start lines))
    = Printed (caught_line c (msg e)) :: Printed (err_line (kind c) (msg e)) :: rest /\
    count_reports rest = 0 /\
    (S k < List.length demo_sites ->
     S k < List.length (calls (trace_of ChatbotDemo.main w (start lines)))) /\
    (S k = List.length demo_sites -> value_of ChatbotDemo.main w (start lines) = Ret tt).
Proof.
  intros Hk Hs Hj He. destruct (demo_site_of_call _ _ _ Hk) as (c & Hc & _).
  destruct (demo_call_returns _ _ _ Hk Hc
              (react_json_caught ChatbotDemo.init c r Hs Hj He))
    as ((rest & Ha & Hr) & Hnext).
  exists c, rest. now repeat split.
Qed.

Lemma X3_witness :
  exists c rest,
    nth_error demo_sites 10 = Some c /\
    after_call 10 (trace_of ChatbotDemo.main
                     (w_calls (Returned (mkResponse 200 "OK" "http://localhost:8084/jsonrpc"
                        (Exc (mkExn RequestsJSONDecodeError "Expecting value")))))
                     (start [""]))
    = Printed (caught_line c "Expecting value")
      :: Printed (err_line (kind c) "Expecting value") :: rest /\
    count_reports rest = 0 /\
    (11 < List.length demo_sites ->
     11 < List.length (calls (trace_of ChatbotDemo.main
                     (w_calls (Returned (mkResponse 200 "OK" "http://localhost:8084/jsonrpc"
                        (Exc (mkExn RequestsJSONDecodeError "Expecting value")))))
                     (start [""])))) /\
    (11 = List.length demo_sites ->
     value_of ChatbotDemo.main
       (w_calls (Returned (mkResponse 200 "OK" "http://localhost:8084/jsonrpc"
          (Exc (mkExn RequestsJSONDecodeError "Expecting value")))))
       (start [""]) = Ret tt).
Proof.
  apply (@X3_undecodable_body_is_caught _ [""] 10
           (site_request ChatbotDemo.init (nth 10 demo_sites remediation_site))
           (mkResponse 200 "OK" "http://localhost:8084/jsonrpc"
                       (Exc (mkExn RequestsJSONDecodeError "Expecting value")))
           (mkExn RequestsJSONDecodeError "Expecting value")).
  - vm_compute. reflexivity.
  - reflexivity.
  - reflexivity.
  - reflexivity.
Defined.

(** X4.  The demo takes every status outside 400..599 for a success, not
    only 200: a reply with such a status whose body holds a string at
    [result.content[0].text] has its text printed by the call site (after
    ["Response:"], after the line ["Remediation Script:"], or truncated
    after ["Response: "]), and the demo goes on. *)
Theorem X4_demo_accepts_any_status_below_400 (w : world) (lines : list string)
    (k : nat) (rq : request) (r : response) (d : list (string * json)) (text : string) :
  nth_error (calls (trace_of ChatbotDemo.main w (start lines))) k
  = Some (rq, Returned r) ->
  error_status (status_code r) = false ->
  resp_json r = Ret (JDict d) ->
  result_text (JDict d) = Ret (JStr text) ->
  exists c rest,
    nth_error demo_sites k = Some c /\
    after_call k (trace_of ChatbotDemo.main w (start lines))
    = (map Printed (text_lines (kind c) text) ++ rest)%list /\
    count_reports rest = 0 /\
    (S k < List.length demo_sites ->
     S k < List.length (calls (trace_of ChatbotDemo.main w (start lines)))) /\
    (S k = List.length demo_sites -> value_of ChatbotDemo.main w (start lines) = Ret tt).
Proof.
  intros Hk Hs Hj Ht. destruct (demo_site_of_call _ _ _ Hk) as (c & Hc & _).
  destruct (demo_call_returns _ _ _ Hk Hc
              (@react_text ChatbotDemo.init c r d text Hs Hj Ht))
    as ((rest & Ha & Hr) & Hnext).
  exists c, rest. now repeat split.
Qed.

Lemma X4_witness :
  exists c rest,
    nth_error demo_sites 0 = Some c /\
    after_call 0 (trace_of ChatbotDemo.main (w_calls (reply 201 (result_body "ok")))
                           (start [""]))
    = (map Printed (text_lines (kind c) "ok") ++ rest)%list /\
    count_reports rest = 0 /\
    (1 < List.length demo_sites ->
     1 < List.length (calls (trace_of ChatbotDemo.main
                               (w_calls (reply 201 (result_body "ok"))) (start [""])))) /\
    (1 = List.length demo_sites ->
     value_of ChatbotDemo.main (w_calls (reply 201 (result_body "ok"))) (start [""])
     = Ret tt).
Proof.
  apply (@X4_demo_accepts_any_status_below_400 (w_calls (reply 201 (result_body "ok")))
           [""] 0
           (site_request ChatbotDemo.init (nth 0 demo_sites remediation_site))
           (mkResponse 201 "OK" "http://localhost:8084/jsonrpc" (Ret (result_body "ok")))
           [("result", JDict [("content", JList [JDict [("text", JStr "ok")]])])]
           "ok").
  - vm_compute. reflexivity.
  - reflexivity.
  - reflexivity.
  - reflexivity.
Defined.

(** X5.  When the body of a [tools/call] reply of the demo parses to
    something that is not a JSON object (null, a boolean, a number, a
    string or a list), the call site raises a [TypeError] (from
    ["result" in result] or from the subscript) or an [AttributeError]
    (from [result.get]): nothing of the reply is printed, the fault leaves
    [run_full_demo] and no further request is sent. *)
Theorem X5_body_that_is_not_an_object (w : world) (lines : list string)
    (k : nat) (rq : request) (r : response) (body : json) :
  nth_error (calls (trace_of ChatbotDemo.main w (start lines))) k
  = Some (rq, Returned r) ->
  error_status (status_code r) = false ->
  resp_json r = Ret body ->
  not_an_object body ->
  exists e,
    (cls e = TypeError \/ cls e = AttributeError) /\
    value_of ChatbotDemo.main w (start lines) = Exc e /\
    count_reports (after_call k (trace_of ChatbotDemo.main w (start lines))) = 0 /\
    List.length (calls (trace_of ChatbotDemo.main w (start lines))) = S k.
Proof.
  intros Hk Hs Hj Hb. destruct (demo_site_of_call _ _ _ Hk) as (c & Hc & _).
  destruct (@react_not_object ChatbotDemo.init c r body Hs Hj Hb)
    as (post & e & Hr & Hn & He).
  destruct (demo_call_raises _ _ _ Hk Hc Hr) as (Ha & Hv & Hl).
  exists e. rewrite Ha. now repeat split.
Qed.

Lemma X5_witness :
  exists e,
    (cls e = TypeError \/ cls e = AttributeError) /\
    value_of ChatbotDemo.main (w_calls (reply 200 (JList []))) (start [""]) = Exc e /\
    count_reports (after_call 0 (trace_of ChatbotDemo.main (w_calls (reply 200 (JList [])))
                                          (start [""]))) = 0 /\
    List.length (calls (trace_of ChatbotDemo.main (w_calls (reply 200 (JList [])))
                                 (start [""]))) = 1.
Proof.
  apply (@X5_body_that_is_not_an_object (w_calls (reply 200 (JList []))) [""] 0
           (site_request ChatbotDemo.init (nth 0 demo_sites remediation_site))
           (mkResponse 200 "OK" "http://localhost:8084/jsonrpc" (Ret (JList [])))
           (JList [])).
  - vm_compute. reflexivity.
  - reflexivity.
  - reflexivity.
  - exact I.
Defined.

(** ** The test scripts and what they catch *)

Lemma test_chatbot_json_fault w s r e :
  w (sent s) test_chatbot_request = Returned r ->
  status_code r = 200%Z ->
  resp_json r = Exc e ->
  TestChatbot.main w s =
  ([Printed [[Lit "🧪 Testing KAgent Chatbot Agent..."]];
    Sent test_chatbot_request (Returned r);
    Printed (connection_error_line e);
    Printed [[Lit "Make sure the MCP server is running on localhost:8084"]]],
   bump s, Ret tt).
Proof. intros H Hs Hj. given H. rewrite Hs, Hj. reflexivity. Qed.

Lemma test_timestamps_json_fault w s r e :
  w (sent s) test_timestamps_request = Returned r ->
  status_code r = 200%Z ->
  resp_json r = Exc e ->
  TestEnhancedTimestamps.main w s =
  ([Printed [[Lit "🚀 Starting Enhanced Timestamp Tests..."]];
    Printed [[Lit "🧪 Testing Enhanced Timestamp Functionality..."]];
    Printed [[Lit "📡 Sending request to tools server..."]];
    Sent test_timestamps_request (Returned r);
    Printed (connection_error_line e);
    Printed [[Lit "Make sure the tools server is accessible on localhost:8084"]];
    Printed [[Lit (newline ++ "❌ Some tests failed. Check the system configuration.")]]],
   bump s, Ret tt).
Proof. intros H Hs Hj. given H. rewrite Hs, Hj. reflexivity. Qed.

Lemma test_chatbot_status w s r :
  w (sent s) test_chatbot_request = Returned r ->
  status_code r <> 200%Z ->
  TestChatbot.main w s =
  ([Printed [[Lit "🧪 Testing KAgent Chatbot Agent..."]];
    Sent test_chatbot_request (Returned r);
    Printed [[Lit "❌ HTTP error: "; Recv (str_of_Z (status_code r))]]],
   bump s, Ret tt).
Proof.
  intros H Hs. given H.
  destruct (Z.eqb_spec (status_code r) 200); [contradiction|reflexivity].
Qed.

Lemma test_timestamps_status w s r :
  w (sent s) test_timestamps_request = Returned r ->
  status_code r <> 200%Z ->
  TestEnhancedTimestamps.main w s =
  ([Printed [[Lit "🚀 Starting Enhanced Timestamp Tests..."]];
    Printed [[Lit "🧪 Testing Enhanced Timestamp Functionality..."]];
    Printed [[Lit "📡 Sending request to tools server..."]];
    Sent test_timestamps_request (Returned r);
    Printed [[Lit "❌ HTTP error: "; Recv (str_of_Z (status_code r))]];
    Printed [[Lit (newline ++ "❌ Some tests failed. Check the system configuration.")]]],
   bump s, Ret tt).
Proof.
  intros H Hs. given H.
  destruct (Z.eqb_spec (status_code r) 200); [contradiction|reflexivity].
Qed.

(** X6.  The handler of the two test scripts is [except Exception]: an
    exception of any class raised by the POST, or by [.json()] on a reply
    with status 200, is caught; the script prints
    ["❌ Connection error: <message>"] and ends normally. *)
Theorem X6_test_scripts_catch_every_exception (p : script) (w : world)
    (lines : list string) (rq : request) (o : outcome) (e : exn) :
  p <> ChatbotDemoPy ->
  nth_error (calls (trace_of (entry p) w (start lines))) 0 = Some (rq, o) ->
  (o = Raised e \/
   exists r, o = Returned r /\ status_code r = 200%Z /\ resp_json r = Exc e) ->
  exists rest,
    after_call 0 (trace_of (entry p) w (start lines))
    = Printed (connection_error_line e) :: rest /\
    count_reports rest = 0 /\
    value_of (entry p) w (start lines) = Ret tt.
Proof.
  intros Hp Hk Ho. destruct p; [contradiction| |]; cbn [entry] in *.
  - pose proof (test_chatbot_calls w (start lines)) as [Hc _].
    rewrite Hc in Hk. injection Hk as _ Hw.
    unfold trace_of, value_of.
    destruct Ho as [->|(r & -> & Hs & Hj)].
    + rewrite (@test_chatbot_raised w (start lines) e Hw). eexists. repeat split.
    + rewrite (@test_chatbot_json_fault w (start lines) r e Hw Hs Hj). eexists. repeat split.
  - pose proof (test_timestamps_calls w (start lines)) as [Hc _].
    rewrite Hc in Hk. injection Hk as _ Hw.
    unfold trace_of, value_of.
    destruct Ho as [->|(r & -> & Hs & Hj)].
    + rewrite (@test_timestamps_raised w (start lines) e Hw). eexists. repeat split.
    + rewrite (@test_timestamps_json_fault w (start lines) r e Hw Hs Hj). eexists. repeat split.
Qed.

Lemma X6_witness :
  exists rest,
    after_call 0 (trace_of (entry TestChatbotPy)
                    (w_calls (Raised (mkExn KeyError "'boom'"))) (start []))
    = Printed (connection_error_line (mkExn KeyError "'boom'")) :: rest /\
    count_reports rest = 0 /\
    value_of (entry TestChatbotPy) (w_calls (Raised (mkExn KeyError "'boom'"))) (start [])
    = Ret tt.
Proof.
  apply (@X6_test_scripts_catch_every_exception TestChatbotPy
           (w_calls (Raised (mkExn KeyError "'boom'"))) [] test_chatbot_request
           (Raised (mkExn KeyError "'boom'")) (mkExn KeyError "'boom'")).
  - discriminate.
  - reflexivity.
  - left. reflexivity.
Defined.

(** X7.  The two test scripts take status 200 alone for a success: for any
    other status, 201 and 204 included, they print
    ["❌ HTTP error: <status>"], never read the body, and end normally;
    [test_enhanced_timestamps] returns [False]. *)
Theorem X7_test_scripts_want_status_200 (p : script) (w : world)
    (lines : list string) (rq : request) (r : response) :
  p <> ChatbotDemoPy ->
  nth_error (calls (trace_of (entry p) w (start lines))) 0 = Some (rq, Returned r) ->
  status_code r <> 200%Z ->
  (exists rest,
     after_call 0 (trace_of (entry p) w (start lines))
     = Printed [[Lit "❌ HTTP error: "; Recv (str_of_Z (status_code r))]] :: rest /\
     count_reports rest = 0) /\
  value_of (entry p) w (start lines) = Ret tt /\
  (p = TestEnhancedTimestampsPy ->
   value_of TestEnhancedTimestamps.test_enhanced_timestamps w (start lines) = Ret false).
Proof.
  intros Hp Hk Hs. destruct p; [contradiction| |]; cbn [entry] in *.
  - pose proof (test_chatbot_calls w (start lines)) as [Hc _].
    rewrite Hc in Hk. injection Hk as _ Hw.
    unfold trace_of, value_of. rewrite (@test_chatbot_status w (start lines) r Hw Hs).
    split; [eexists; now repeat split|]. split; [reflexivity|discriminate].
  - pose proof (test_timestamps_calls w (start lines)) as [Hc _].
    rewrite Hc in Hk. injection Hk as _ Hw.
    split; [|split].
    + unfold trace_of. rewrite (@test_timestamps_status w (start lines) r Hw Hs).
      eexists. now repeat split.
    + unfold value_of. now rewrite (@test_timestamps_status w (start lines) r Hw Hs).
    + intros _.
      destruct (test_timestamps_verdict w (start lines)) as [[[|] Hb] Htrue];
        [|exact Hb].
      destruct (Htrue Hb) as (r' & _ & _ & _ & Hw' & Hs' & _).
      cbn [start sent] in Hw, Hw'. congruence.
Qed.

Lemma X7_witness :
  (exists rest,
     after_call 0 (trace_of (entry TestEnhancedTimestampsPy)
                     (w_calls (reply 201 (result_body "ok"))) (start []))
     = Printed [[Lit "❌ HTTP error: "; Recv (str_of_Z 201)]] :: rest /\
     count_reports rest = 0) /\
  value_of (entry TestEnhancedTimestampsPy) (w_calls (reply 201 (result_body "ok")))
           (start []) = Ret tt /\
  (TestEnhancedTimestampsPy = TestEnhancedTimestampsPy ->
   value_of TestEnhancedTimestamps.test_enhanced_timestamps
            (w_calls (reply 201 (result_body "ok"))) (start []) = Ret false).
Proof.
  apply (@X7_test_scripts_want_status_200 TestEnhancedTimestampsPy
           (w_calls (reply 201 (result_body "ok"))) [] test_timestamps_request
           (mkResponse 201 "OK" "http://localhost:8084/jsonrpc" (Ret (result_body "ok")))).
  - discriminate.
  - reflexivity.
  - discriminate.
Defined.

(** X8.  When a reply with status 200 is a JSON object without a
    ["result"] key, each script prints the value of its ["error"] key as
    [str] renders it, whatever its type, and the literal
    ["Unknown error"] when that key is missing too; the script then goes
    on to its next call, or ends normally after its last. *)
Theorem X8_error_value_or_unknown_error (p : script) (w : world)
    (lines : list string) (k : nat) (rq : request) (r : response)
    (d : list (string * json)) :
  nth_error (calls (trace_of (entry p) w (start lines))) k = Some (rq, Returned r) ->
  status_code r = 200%Z ->
  resp_json r = Ret (JDict d) ->
  lookup "result" d = None ->
  (exists line rest,
     after_call k (trace_of (entry p) w (start lines)) = Printed line :: rest /\
     In (Recv (py_str (match lookup "error" d with
                       | Some x => x
                       | None => JStr "Unknown error"
                       end))) (List.concat line) /\
     count_reports rest = 0) /\
  (S k < call_sites p ->
   S k < List.length (calls (trace_of (entry p) w (start lines)))) /\
  (S k = call_sites p -> value_of (entry p) w (start lines) = Ret tt).
Proof.
  intros Hk Hs Hj Hl.
  assert (Hok : error_status (status_code r) = false)
    by (unfold error_status; now rewrite Hs).
  destruct p; cbn [entry call_sites] in *.
  - destruct (demo_site_of_call _ _ _ Hk) as (c & Hc & _).
    destruct (demo_call_returns _ _ _ Hk Hc
                (@react_no_result ChatbotDemo.init c r d Hok Hj Hl))
      as ((rest & Ha & Hr) & Hnext).
    split; [|exact Hnext].
    eexists _, rest. split; [exact Ha|]. split; [apply err_line_carries|exact Hr].
  - pose proof (test_chatbot_calls w (start lines)) as [Hc _].
    rewrite Hc in Hk. apply only_call in Hk as [-> [= -> Ho]].
    unfold trace_of, value_of.
    rewrite (@test_chatbot_no_result w (start lines) r d (eq_sym Ho) Hs Hj Hl).
    split; [|split; [cbn; lia|reflexivity]].
    eexists _, []. split; [reflexivity|]. cbn. tauto.
  - pose proof (test_timestamps_calls w (start lines)) as [Hc _].
    rewrite Hc in Hk. apply only_call in Hk as [-> [= -> Ho]].
    unfold trace_of, value_of.
    rewrite (@test_timestamps_no_result w (start lines) r d (eq_sym Ho) Hs Hj Hl).
    split; [|split; [cbn; lia|reflexivity]].
    eexists _, [_]. split; [reflexivity|]. cbn. tauto.
Qed.

Lemma X8_witness :
  (exists line rest,
     after_call 0 (trace_of (entry TestChatbotPy) (w_calls (reply 200 (JDict []))) (start []))
     = Printed line :: rest /\
     In (Recv (py_str (match lookup "error" [] with
                       | Some x => x
                       | None => JStr "Unknown error"
                       end))) (List.concat line) /\
     count_reports rest = 0) /\
  (1 < call_sites TestChatbotPy ->
   1 < List.length (calls (trace_of (entry TestChatbotPy) (w_calls (reply 200 (JDict [])))
                                    (start [])))) /\
  (1 = call_sites TestChatbotPy ->
   value_of (entry TestChatbotPy) (w_calls (reply 200 (JDict []))) (start []) = Ret tt).
Proof.
  apply (@X8_error_value_or_unknown_error TestChatbotPy (w_calls (reply 200 (JDict []))) []
           0 test_chatbot_request
           (mkResponse 200 "OK" "http://localhost:8084/jsonrpc" (Ret (JDict []))) []);
    reflexivity.
Defined.

(** X9.  [test_chatbot.py] prints ["✅ Chatbot query test passed!"], and
    [test_enhanced_timestamps.py] prints
    ["✅ Enhanced timestamp query successful!"], exactly when the reply
    has status 200 and ["result" in result] holds for its body; the line
    comes before [result.content[0].text] is read, so it is printed as
    well when that access then fails and the handler reports a
    connection error. *)
Theorem X9_passed_line_precedes_the_access (w : world) (s : state) :
  (In (Printed [[Lit "✅ Chatbot query test passed!"]]) (trace_of TestChatbot.main w s) <->
   exists r body,
     w (sent s) test_chatbot_request = Returned r /\ status_code r = 200%Z /\
     resp_json r = Ret body /\ py_in "result" body = Ret true) /\
  (In (Printed [[Lit "✅ Enhanced timestamp query successful!"]])
      (trace_of TestEnhancedTimestamps.main w s) <->
   exists r body,
     w (sent s) test_timestamps_request = Returned r /\ status_code r = 200%Z /\
     resp_json r = Ret body /\ py_in "result" body = Ret true).
Proof.
  split; split.
  - unfold test_chatbot_request, envelope, trace_of. run_test.
    match goal with |- context [w (sent s) ?rq] => destruct (w (sent s) rq) as [e|r] eqn:Hw end.
    { cbn. intuition discriminate. }
    destruct (Z.eqb_spec (status_code r) 200) as [Hs|Hs]; [|cbn; intuition discriminate].
    destruct (resp_json r) as [body|e] eqn:Hj; [|cbn; intuition discriminate].
    destruct (py_in "result" body) as [[|]|e] eqn:Hin.
    + intros _. now exists r, body.
    + destruct (dict_get body "error" (JStr "Unknown error")); cbn; intuition discriminate.
    + cbn. intuition discriminate.
  - intros (r & body & Hw & Hs & Hj & Hin). unfold trace_of.
    given Hw. rewrite Hs, Hj, Hin. cbn [Z.eqb Pos.eqb].
    destruct (result_text body) as [text|e]; cbv beta iota zeta;
      [destruct (res_bind (py_slice_to text 200) (fun cut => py_add_str cut "..."))|];
      cbn; tauto.
  - unfold test_timestamps_request, envelope, trace_of. run_test.
    match goal with |- context [w (sent s) ?rq] => destruct (w (sent s) rq) as [e|r] eqn:Hw end.
    { cbn. intuition discriminate. }
    destruct (Z.eqb_spec (status_code r) 200) as [Hs|Hs]; [|cbn; intuition discriminate].
    destruct (resp_json r) as [body|e] eqn:Hj; [|cbn; intuition discriminate].
    destruct (py_in "result" body) as [[|]|e] eqn:Hin.
    + intros _. now exists r, body.
    + destruct (dict_get body "error" (JStr "Unknown error")); cbn; intuition discriminate.
    + cbn. intuition discriminate.
  - intros (r & body & Hw & Hs & Hj & Hin). unfold trace_of.
    given Hw. rewrite Hs, Hj, Hin. cbn [Z.eqb Pos.eqb].
    destruct (result_text body) as [text|e]; cbv beta iota zeta; [|cbn; tauto].
    destruct (res_bind (py_slice_to text 500) (fun cut => py_add_str cut "..."));
      cbv beta iota zeta; [|cbn; tauto].
    repeat split_match; cbn; tauto.
Qed.

Lemma X9_witness :
  In (Printed [[Lit "✅ Chatbot query test passed!"]])
     (trace_of TestChatbot.main w_no_content (start [])).
Proof.
  apply (proj2 (proj1 (X9_passed_line_precedes_the_access w_no_content (start [])))).
  exists no_content_response, (JDict [("result", JDict [])]).
  repeat split; reflexivity.
Defined.

(** ** The start of [run_full_demo] *)

(** X10.  How the demo ends before any [tools/call].  At the end of
    standard input, [input()] raises [EOFError], which leaves the script
    before the probe is sent.  A probe answered with a status other than
    200 makes the demo print ["❌ Failed to connect to MCP server"] and
    return normally, whatever the body of the answer.  A probe that raises
    a [RequestException] makes it print
    ["❌ Cannot connect to MCP server. Is it running?"] and return
    normally.  An exception of another class raised by the probe leaves
    the script.  In each case the probe is the only request sent, if
    any. *)
Theorem X10_demo_ends_before_any_call (w : world) (l : string) (ls : list string) :
  ChatbotDemo.main w (start [])
  = ((demo_banner ++ [Input (Exc (mkExn EOFError "EOF when reading a line"))])%list,
     start [], Exc (mkExn EOFError "EOF when reading a line")) /\
  (forall r,
     w 0 health_request = Returned r -> status_code r <> 200%Z ->
     ChatbotDemo.main w (start (l :: ls))
     = ((demo_banner ++
         [Input (Ret l); Sent health_request (Returned r);
          Printed [[Lit "❌ Failed to connect to MCP server"]]])%list,
        mkState 1 ls, Ret tt)) /\
  (forall e,
     w 0 health_request = Raised e -> is_RequestException (cls e) = true ->
     ChatbotDemo.main w (start (l :: ls))
     = ((demo_banner ++
         [Input (Ret l); Sent health_request (Raised e);
          Printed [[Lit "❌ Cannot connect to MCP server. Is it running?"]]])%list,
        mkState 1 ls, Ret tt)) /\
  (forall e,
     w 0 health_request = Raised e -> is_RequestException (cls e) = false ->
     ChatbotDemo.main w (start (l :: ls))
     = ((demo_banner ++ [Input (Ret l); Sent health_request (Raised e)])%list,
        mkState 1 ls, Exc e)).
Proof.
  unfold ChatbotDemo.main. rewrite !run_full_demo_sites.
  remember (for_each demo_sites (run_site ChatbotDemo.init) ;; demo_epilogue) as body.
  cbv [bind print input try_except http ret start stdin sent].
  change (mkRequest GET (ChatbotDemo.base_url ChatbotDemo.init ++ "/health") None None)
    with health_request.
  split; [reflexivity|]. split; [|split].
  - intros r Hw Hs. rewrite Hw.
    destruct (Z.eqb_spec (status_code r) 200); [contradiction|reflexivity].
  - intros e Hw He. now rewrite Hw, He.
  - intros e Hw He. now rewrite Hw, He.
Qed.

Lemma X10_witness :
  ChatbotDemo.main w_unavailable (start [""; "more"])
  = ((demo_banner ++
      [Input (Ret ""); Sent health_request (reply 503 JNull);
       Printed [[Lit "❌ Failed to connect to MCP server"]]])%list,
     mkState 1 ["more"], Ret tt).
Proof.
  apply (proj1 (proj2 (X10_demo_ends_before_any_call w_unavailable "" ["more"]))
           (mkResponse 503 "OK" "http://localhost:8084/jsonrpc" (Ret JNull))).
  - reflexivity.
  - discriminate.
Defined.

(** ** The requests of a run, in order *)

Lemma sites_requests_prefix self cs w s :
  exists n,
    requests (trace_of (for_each cs (run_site self) ;; demo_epilogue) w s)
    = firstn n (map (site_request self) cs).
Proof.
  revert s. induction cs as [|c cs IH]; intros s; unfold trace_of in *.
  - exists 0. rewrite sites_nil. destruct (epilogue_run w s) as (l & -> & _).
    cbn [fst]. now rewrite requests_prints.
  - rewrite sites_cons. cbv zeta.
    destruct (react_prints self c (w (sent s) (site_request self c))) as (post & Hpost).
    destruct (snd (react self c _)) as [[]|e].
    + destruct (IH (bump s)) as [n Hn].
      destruct ((for_each cs (run_site self) ;; demo_epilogue) w (bump s)) as [[t s'] v].
      cbn [fst] in *. exists (S n). rewrite Hpost.
      rewrite <- app_assoc, requests_app, requests_prints. cbn [app requests].
      rewrite requests_app, requests_prints. cbn [app map firstn]. now rewrite Hn.
    + exists 1. cbn [fst]. rewrite Hpost, requests_app, requests_prints.
      cbn [app requests]. rewrite requests_prints. reflexivity.
Qed.

Lemma probe_cases w l ls :
  (exists r, w 0 health_request = Returned r /\ status_code r = 200%Z) \/
  requests (trace_of ChatbotDemo.main w (start (l :: ls))) = [health_request].
Proof.
  destruct (w 0 health_request) as [e|r] eqn:Hw.
  - right. unfold trace_of, ChatbotDemo.main. rewrite run_full_demo_sites.
    remember (for_each demo_sites (run_site ChatbotDemo.init) ;; demo_epilogue) as body.
    cbv [bind print input try_except http ret start stdin sent].
    change (mkRequest GET (ChatbotDemo.base_url ChatbotDemo.init ++ "/health") None None)
      with health_request.
    rewrite Hw. now destruct (is_RequestException (cls e)).
  - destruct (Z.eq_dec (status_code r) 200) as [Hs|Hs]; [left; now exists r|].
    right. unfold trace_of, ChatbotDemo.main. rewrite run_full_demo_sites.
    remember (for_each demo_sites (run_site ChatbotDemo.init) ;; demo_epilogue) as body.
    cbv [bind print input try_except http ret start stdin sent].
    change (mkRequest GET (ChatbotDemo.base_url ChatbotDemo.init ++ "/health") None None)
      with health_request.
    rewrite Hw. now destruct (Z.eqb_spec (status_code r) 200).
Qed.

(** X11.  No script repeats a request.  In every run the requests of the
    demo are an initial segment of one fixed list, the probe followed by
    the requests of the eleven call sites in order, hence at most twelve;
    each test script sends exactly one request, its POST, and ends
    normally whatever the server does. *)
Theorem X11_requests_follow_a_fixed_list (w : world) (lines : list string) :
  (exists n,
     requests (trace_of ChatbotDemo.main w (start lines))
     = firstn n (health_request :: map (site_request ChatbotDemo.init) demo_sites)) /\
  List.length (requests (trace_of ChatbotDemo.main w (start lines))) <= 12 /\
  requests (trace_of TestChatbot.main w (start lines)) = [test_chatbot_request] /\
  value_of TestChatbot.main w (start lines) = Ret tt /\
  requests (trace_of TestEnhancedTimestamps.main w (start lines))
  = [test_timestamps_request] /\
  value_of TestEnhancedTimestamps.main w (start lines) = Ret tt.
Proof.
  assert (Hdemo : exists n,
            requests (trace_of ChatbotDemo.main w (start lines))
            = firstn n (health_request :: map (site_request ChatbotDemo.init) demo_sites)).
  { destruct lines as [|l ls]; [now exists 0|].
    destruct (probe_cases w l ls) as [(r & Hw & Hs)|Hrun].
    - unfold trace_of. rewrite (main_connected _ _ _ Hw Hs).
      destruct (sites_requests_prefix ChatbotDemo.init demo_sites w (mkState 1 ls))
        as [n Hn]. unfold trace_of in Hn.
      destruct ((for_each demo_sites (run_site ChatbotDemo.init) ;; demo_epilogue)
                  w (mkState 1 ls)) as [[t s'] v].
      cbn [fst] in *. exists (S n). cbn [firstn]. now rewrite <- Hn.
    - exists 1. exact Hrun. }
  split; [exact Hdemo|]. split.
  - destruct Hdemo as [n ->]. rewrite length_firstn. cbn. lia.
  - pose proof (test_chatbot_calls w (start lines)) as [_ Hv1].
    pose proof (test_timestamps_calls w (start lines)) as [_ Hv2].
    rewrite test_chatbot_requests, test_timestamps_requests. now repeat split.
Qed.

(** ** [demo_remediation] *)

Lemma demo_remediation_site self w s :
  ChatbotDemo.demo_remediation self w s = run_site self remediation_site w s.
Proof.
  unfold ChatbotDemo.demo_remediation, run_site, remediation_site, report.
  cbn [for_each header tool arguments kind].
  norm_binds. all: try reflexivity.
Qed.

(** X12.  [demo_remediation] prints the line ["Remediation Script:"]
    before it reads [result.content[0].text]: for a reply that holds a
    string there, the line is followed by the text on a line of its own;
    for a reply with a ["result"] field that lacks part of the path, the
    line is printed all the same and then the [KeyError], [IndexError] or
    [TypeError] leaves the method; for a JSON object without ["result"]
    the line is not printed, only ["Error: ..."] is. *)
Theorem X12_remediation_header_comes_first (self : ChatbotDemo.KAgentChatbotDemo)
    (w : world) (s : state) (r : response) :
  w (sent s) (site_request self remediation_site) = Returned r ->
  (forall d text,
     error_status (status_code r) = false -> resp_json r = Ret (JDict d) ->
     result_text (JDict d) = Ret (JStr text) ->
     ChatbotDemo.demo_remediation self w s
     = ((map Printed (header remediation_site)
         ++ [Sent (site_request self remediation_site) (Returned r);
             Printed [[Lit "Remediation Script:"]];
             Printed [[Recv text]]])%list,
        bump s, Ret tt)) /\
  (malformed r ->
   exists e, structural e /\
     ChatbotDemo.demo_remediation self w s
     = ((map Printed (header remediation_site)
         ++ [Sent (site_request self remediation_site) (Returned r);
             Printed [[Lit "Remediation Script:"]]])%list,
        bump s, Exc e)) /\
  (forall d,
     error_status (status_code r) = false -> resp_json r = Ret (JDict d) ->
     lookup "result" d = None ->
     ChatbotDemo.demo_remediation self w s
     = ((map Printed (header remediation_site)
         ++ [Sent (site_request self remediation_site) (Returned r);
             Printed [[Lit "Error:"];
                      [Recv (py_str (match lookup "error" d with
                                     | Some x => x
                                     | None => JStr "Unknown error"
                                     end))]]])%list,
        bump s, Ret tt)).
Proof.
  intros Hw. rewrite demo_remediation_site, run_site_tail. cbv zeta. rewrite Hw.
  split; [|split].
  - intros d text Hs Hj Ht.
    now rewrite (@tail_text remediation_site r d text w (bump s) Hs Hj Ht).
  - intros (Hs & d & x & e & Hj & Hx & He).
    exists e. split; [eauto using result_text_structural|].
    now rewrite (@tail_access_fails remediation_site r d x e w (bump s) Hs Hj Hx He).
  - intros d Hs Hj Hl.
    now rewrite (@tail_no_result remediation_site r d w (bump s) Hs Hj Hl).
Qed.

Lemma X12_witness :
  exists e, structural e /\
    ChatbotDemo.demo_remediation ChatbotDemo.init w_no_content (start [])
    = ((map Printed (header remediation_site)
        ++ [Sent (site_request ChatbotDemo.init remediation_site)
                 (Returned no_content_response);
            Printed [[Lit "Remediation Script:"]]])%list,
       bump (start []), Exc e).
Proof.
  apply (proj1 (proj2 (@X12_remediation_header_comes_first ChatbotDemo.init w_no_content
                         (start []) no_content_response eq_refl))).
  split; [reflexivity|].
  exists [("result", JDict [])], (JDict []), (mkExn KeyError "'content'").
  repeat split; reflexivity.
Defined.

(** ** The epilogue of the demo *)

Lemma tail_never_completed c o w s :
  ~ In (Printed completed_line) (fst (fst (site_tail c o w s))).
Proof.
  run_glue. destruct (kind c); repeat split_match; cbn; intuition discriminate.
Qed.

Lemma react_never_completed self c o :
  ~ In (Printed completed_line) (fst (react self c o)).
Proof.
  pose proof (@tail_never_completed c o (fun _ _ => o) (start [])) as H.
  now rewrite (react_tail self) in H.
Qed.

Lemma demo_sites_plain : Forall plain_header demo_sites.
Proof. repeat constructor; unfold plain_header; cbn; intuition discriminate. Qed.

Lemma sites_completed self cs w s :
  Forall plain_header cs ->
  In (Printed completed_line)
     (trace_of (for_each cs (run_site self) ;; demo_epilogue) w s) <->
  List.length (calls (trace_of (for_each cs (run_site self) ;; demo_epilogue) w s))
  = List.length cs /\
  value_of (for_each cs (run_site self) ;; demo_epilogue) w s = Ret tt.
Proof.
  intros Hp. revert s. induction Hp as [|c cs Hc Hp IH]; intros s;
    unfold trace_of, value_of in *.
  - rewrite sites_nil. cbn. tauto.
  - rewrite sites_cons. cbv zeta.
    set (o0 := w (sent s) (site_request self c)).
    assert (Hhere : ~ In (Printed completed_line)
                      (map Printed (header c)
                       ++ Sent (site_request self c) o0 :: fst (react self c o0))%list).
    { rewrite in_app_iff. intros [H|[H|H]].
      - apply in_map_iff in H as (a & [= ->] & Ha). now apply Hc.
      - discriminate H.
      - now apply react_never_completed in H. }
    destruct (snd (react self c o0)) as [[]|e].
    + specialize (IH (bump s)).
      destruct ((for_each cs (run_site self) ;; demo_epilogue) w (bump s)) as [[t s'] v].
      cbn [fst snd] in *. rewrite in_app_iff.
      rewrite <- app_assoc, calls_app, calls_prints. cbn [app calls].
      rewrite call_of_site, calls_app, react_calls. cbn [app List.length].
      split.
      * intros [H|H]; [contradiction|]. apply IH in H as [H Hv]. split; [lia|assumption].
      * intros [H Hv]. right. apply IH. split; [lia|assumption].
    + cbn [fst snd]. split; [intros H; contradiction|]. intros [_ H]. discriminate H.
Qed.

Lemma main_unconnected_quiet w lines :
  (forall r, w 0 health_request = Returned r -> status_code r <> 200%Z) ->
  ~ In (Printed completed_line) (trace_of ChatbotDemo.main w (start lines)).
Proof.
  intros Hw. unfold trace_of, ChatbotDemo.main. rewrite run_full_demo_sites.
  remember (for_each demo_sites (run_site ChatbotDemo.init) ;; demo_epilogue) as body.
  cbv [bind print input try_except http ret start stdin sent].
  change (mkRequest GET (ChatbotDemo.base_url ChatbotDemo.init ++ "/health") None None)
    with health_request.
  destruct lines as [|l ls]; [cbn; intuition discriminate|].
  destruct (w 0 health_request) as [e|r] eqn:Ho.
  - destruct (is_RequestException (cls e)); cbn; intuition discriminate.
  - specialize (Hw r eq_refl).
    destruct (Z.eqb_spec (status_code r) 200); [contradiction|].
    cbn; intuition discriminate.
Qed.

Lemma unconnected_cases w lines :
  (exists l ls r,
     lines = l :: ls /\ w 0 health_request = Returned r /\ status_code r = 200%Z) \/
  (calls (trace_of ChatbotDemo.main w (start lines)) = [] /\
   ~ In (Printed completed_line) (trace_of ChatbotDemo.main w (start lines))).
Proof.
  destruct lines as [|l ls].
  - right. split; [reflexivity|]. cbn. intuition discriminate.
  - destruct (w 0 health_request) as [e|r] eqn:Ho.
    + right. split; [apply main_not_connected|apply main_unconnected_quiet];
        intros r Hr; congruence.
    + destruct (Z.eq_dec (status_code r) 200) as [Hs|Hs]; [left; now exists l, ls, r|].
      right. split; [apply main_not_connected|apply main_unconnected_quiet];
        intros r' Hr'; congruence.
Qed.

(** X13.  The demo prints ["🎉 Demo completed!"] exactly in the runs in
    which all eleven [tools/call] requests were sent and the script ends
    normally: never after a failed probe, and never in a run that a fault
    has cut short. *)
Theorem X13_completed_means_eleven_calls (w : world) (lines : list string) :
  In (Printed completed_line) (trace_of ChatbotDemo.main w (start lines)) <->
  List.length (calls (trace_of ChatbotDemo.main w (start lines))) = 11 /\
  value_of ChatbotDemo.main w (start lines) = Ret tt.
Proof.
  destruct (unconnected_cases w lines) as [(l & ls & r & -> & Hw & Hs)|[Hc Hn]].
  - unfold trace_of, value_of. rewrite (main_connected _ _ _ Hw Hs).
    pose proof (@sites_completed ChatbotDemo.init demo_sites w (mkState 1 ls)
                  demo_sites_plain) as H.
    unfold trace_of, value_of in H.
    destruct ((for_each demo_sites (run_site ChatbotDemo.init) ;; demo_epilogue)
                w (mkState 1 ls)) as [[t s'] v].
    cbn [fst snd] in *.
    change (calls (demo_prelude l r ++ t)) with (calls t).
    change (List.length demo_sites) with 11 in H. rewrite <- H.
    rewrite in_app_iff. split; [intros [Hp|Ht]; [|exact Ht]|tauto].
    exfalso. cbn in Hp. intuition discriminate.
  - rewrite Hc. split; [intros H; contradiction|intros [H _]; discriminate H].
Qed.

(** ** Standard input *)

Lemma sites_ignore_stdin self cs w n ls ls' :
  trace_of (for_each cs (run_site self) ;; demo_epilogue) w (mkState n ls)
  = trace_of (for_each cs (run_site self) ;; demo_epilogue) w (mkState n ls') /\
  value_of (for_each cs (run_site self) ;; demo_epilogue) w (mkState n ls)
  = value_of (for_each cs (run_site self) ;; demo_epilogue) w (mkState n ls').
Proof.
  revert n. induction cs as [|c cs IH]; intros n; unfold trace_of, value_of in *.
  - now rewrite !sites_nil.
  - rewrite !sites_cons. cbv zeta. unfold bump. cbn [sent stdin].
    destruct (snd (react self c (w n (site_request self c)))) as [[]|e]; [|now split].
    specialize (IH (S n)).
    destruct ((for_each cs (run_site self) ;; demo_epilogue) w (mkState (S n) ls))
      as [[t1 s1] v1].
    destruct ((for_each cs (run_site self) ;; demo_epilogue) w (mkState (S n) ls'))
      as [[t2 s2] v2].
    cbn [fst snd] in *. destruct IH as [-> ->]. split; reflexivity.
Qed.

(** X14.  The prompt of the demo is a pause and nothing more: the line
    read by [input()] is discarded, and so is the rest of standard input.
    Two runs against the same server that differ in what is typed differ
    in nothing but the line read: they print the same lines, send the same
    requests and end alike. *)
Theorem X14_typed_line_is_ignored (w : world) (l l' : string) (ls ls' : list string) :
  exists rest,
    trace_of ChatbotDemo.main w (start (l :: ls))
    = (demo_banner ++ Input (Ret l) :: rest)%list /\
    trace_of ChatbotDemo.main w (start (l' :: ls'))
    = (demo_banner ++ Input (Ret l') :: rest)%list /\
    value_of ChatbotDemo.main w (start (l :: ls))
    = value_of ChatbotDemo.main w (start (l' :: ls')).
Proof.
  unfold trace_of, value_of, ChatbotDemo.main. rewrite !run_full_demo_sites.
  pose proof (@sites_ignore_stdin ChatbotDemo.init demo_sites w 1 ls ls') as [Ht Hv].
  unfold trace_of, value_of in Ht, Hv.
  remember (for_each demo_sites (run_site ChatbotDemo.init) ;; demo_epilogue) as body.
  cbv [bind print input try_except http ret start stdin sent].
  destruct (w 0 _) as [e|r].
  - destruct (is_RequestException (cls e)); eexists; repeat split.
  - destruct (status_code r =? 200)%Z; [|eexists; repeat split].
    destruct (body w (mkState 1 ls)) as [[t1 s1] v1].
    destruct (body w (mkState 1 ls')) as [[t2 s2] v2].
    cbn [fst snd] in *. subst t2 v2. eexists. repeat split.
Qed.

(** ** The length of what is shown *)

Lemma length_app_string a b : String.length (a ++ b) = String.length a + String.length b.
Proof. induction a as [|c a IH]; cbn; [reflexivity|now rewrite IH]. Qed.

Lemma length_slice_to n text :
  String.length (slice_to n text) = Nat.min n (String.length text).
Proof.
  unfold slice_to. revert n. induction text as [|c text IH]; intros n.
  - destruct n; reflexivity.
  - destruct n as [|n]; cbn; [reflexivity|]. now rewrite IH.
Qed.

(** X15.  What the scripts show of a text is bounded: [test_chatbot.py]
    prints [min(200, len) + 3] characters of it, at most 203;
    [test_enhanced_timestamps.py] prints [min(500, len) + 3], at most 503;
    an intent site of the demo prints at most 203 characters, and at most
    two more than the text has (a text of 201 characters is shown as 200
    characters and the ellipsis). *)
Theorem X15_shown_text_is_bounded (w : world) (lines : list string)
    (r : response) (d : list (string * json)) (text : string) :
  status_code r = 200%Z ->
  resp_json r = Ret (JDict d) ->
  result_text (JDict d) = Ret (JStr text) ->
  (w 0 test_chatbot_request = Returned r ->
   exists shown,
     In (Printed [[Lit "Response:"]; [Recv shown]])
        (trace_of TestChatbot.main w (start lines)) /\
     String.length shown = Nat.min 200 (String.length text) + 3 /\
     String.length shown <= 203) /\
  (w 0 test_timestamps_request = Returned r ->
   exists shown,
     In (Printed [[Lit "Response preview:"]; [Recv shown]])
        (trace_of TestEnhancedTimestamps.main w (start lines)) /\
     String.length shown = Nat.min 500 (String.length text) + 3 /\
     String.length shown <= 503) /\
  (forall k rq,
     nth_error (calls (trace_of ChatbotDemo.main w (start lines))) k
     = Some (rq, Returned r) ->
     4 <= k ->
     exists shown rest,
       after_call k (trace_of ChatbotDemo.main w (start lines))
       = Printed [[Lit "Response: "; Recv shown]] :: rest /\
       String.length shown <= 203 /\
       String.length shown <= String.length text + 2).
Proof.
  intros Hs Hj Ht.
  assert (Hok : error_status (status_code r) = false)
    by (unfold error_status; now rewrite Hs).
  split; [|split].
  - intros Hw. exists (slice_to 200 text ++ "..."). unfold trace_of.
    rewrite (@test_chatbot_text w (start lines) r d text Hw Hs Hj Ht).
    split; [cbn; tauto|]. rewrite length_app_string, length_slice_to.
    change (String.length "...") with 3. lia.
  - intros Hw. exists (slice_to 500 text ++ "..."). unfold trace_of.
    unfold TestEnhancedTimestamps.main. cbv [bind print].
    rewrite (@test_timestamps_text w (start lines) r d text Hw Hs Hj Ht).
    split; [cbn; tauto|]. rewrite length_app_string, length_slice_to.
    change (String.length "...") with 3. lia.
  - intros k rq Hk H4. destruct (demo_site_of_call _ _ _ Hk) as (c & Hc & _).
    destruct (demo_call_returns _ _ _ Hk Hc
                (@react_text ChatbotDemo.init c r d text Hok Hj Ht))
      as ((rest & Ha & _) & _).
    rewrite (@intent_sites k c Hc H4) in Ha. cbn [text_lines map app] in Ha.
    eexists _, rest. split; [exact Ha|].
    destruct (Nat.ltb_spec 200 (String.length text)).
    + rewrite length_app_string, length_slice_to.
      change (String.length "...") with 3. lia.
    + lia.
Qed.

Lemma X15_witness :
  exists shown,
    In (Printed [[Lit "Response:"]; [Recv shown]])
       (trace_of TestChatbot.main (w_text "ok") (start [])) /\
    String.length shown = Nat.min 200 (String.length "ok") + 3 /\
    String.length shown <= 203.
Proof.
  refine (proj1 (@X15_shown_text_is_bounded (w_text "ok") []
            (mkResponse 200 "OK" "http://localhost:8084/jsonrpc" (Ret (result_body "ok")))
            [("result", JDict [("content", JList [JDict [("text", JStr "ok")]])])]
            "ok" _ _ _) _); reflexivity.
Defined.

(** ** A text that is not a string *)





(** ** What [call_tool] returns *)

(** X17.  No [RequestException] leaves [call_tool]: an exception it raises
    is of another class.  What it returns is either the parsed body of a
    response whose status is outside 400..599, with nothing printed, or
    the dict [{"error": m}] with the one key ["error"], after the line
    ["Error calling tool T: m"] has been printed.  In each case one
    request has been sent. *)
Theorem X17_call_tool_keeps_request_exceptions
    (self : ChatbotDemo.KAgentChatbotDemo) (T : string) (A : list (string * json))
    (w : world) (s : state) :
  (forall e,
     value_of (ChatbotDemo.call_tool self T A) w s = Exc e ->
     is_RequestException (cls e) = false) /\
  (forall body,
     value_of (ChatbotDemo.call_tool self T A) w s = Ret body ->
     (exists r,
        error_status (status_code r) = false /\ resp_json r = Ret body /\
        trace_of (ChatbotDemo.call_tool self T A) w s
        = [Sent (mkRequest POST (ChatbotDemo.base_url self ++ "/jsonrpc")
                           (Some (envelope T A)) None) (Returned r)]) \/
     (exists o m,
        body = JDict [("error", JStr m)] /\
        trace_of (ChatbotDemo.call_tool self T A) w s
        = [Sent (mkRequest POST (ChatbotDemo.base_url self ++ "/jsonrpc")
                           (Some (envelope T A)) None) o;
           Printed [[Lit "Error calling tool "; Lit T; Lit ": "; Recv m]]])) /\
  snd (fst (ChatbotDemo.call_tool self T A w s)) = bump s.
Proof.
  unfold value_of, trace_of, ChatbotDemo.call_tool, envelope.
  cbv [bind ret lift print raise try_except http].
  set (rq := mkRequest POST _ _ _).
  destruct (w (sent s) rq) as [e|r] eqn:Hw.
  - destruct (is_RequestException (cls e)) eqn:He; cbn [fst snd app].
    + split; [discriminate|]. split; [|reflexivity].
      intros body [= <-]. right. now exists (Raised e), (msg e).
    + split; [now intros e' [= <-]|]. split; [discriminate|reflexivity].
  - destruct (error_status (status_code r)) eqn:Hs.
    + rewrite error_status_split in Hs. unfold raise_for_status.
      cbv [raise ret].
      destruct ((400 <=? status_code r)%Z && (status_code r <? 500)%Z);
        [|cbn in Hs; rewrite Hs];
        cbn [fst snd app cls msg is_RequestException];
        (split; [discriminate|]; split; [|reflexivity]);
        intros body [= <-]; right; eexists (Returned r), _; split; reflexivity.
    + rewrite (status_ok_run _ Hs). cbn [app].
      destruct (resp_json r) as [body|e] eqn:Hj.
      * cbn [fst snd app]. split; [discriminate|]. split; [|reflexivity].
        intros body' [= <-]. left. now exists r.
      * destruct (is_RequestException (cls e)) eqn:He; cbn [fst snd app].
        { split; [discriminate|]. split; [|reflexivity].
          intros body [= <-]. right. now exists (Returned r), (msg e). }
        { split; [now intros e' [= <-]|]. split; [discriminate|reflexivity]. }
Qed.

Lemma X17_witness :
  (exists r,
     error_status (status_code r) = false /\ resp_json r = Ret (JDict [("error", JStr "boom")]) /\
     trace_of (ChatbotDemo.call_tool ChatbotDemo.init "chatbot_query" []) w_boom (start [])
     = [Sent (mkRequest POST (ChatbotDemo.base_url ChatbotDemo.init ++ "/jsonrpc")
                        (Some (envelope "chatbot_query" [])) None) (Returned r)]) \/
  (exists o m,
     JDict [("error", JStr "boom")] = JDict [("error", JStr m)] /\
     trace_of (ChatbotDemo.call_tool ChatbotDemo.init "chatbot_query" []) w_boom (start [])
     = [Sent (mkRequest POST (ChatbotDemo.base_url ChatbotDemo.init ++ "/jsonrpc")
                        (Some (envelope "chatbot_query" [])) None) o;
        Printed [[Lit "Error calling tool "; Lit "chatbot_query"; Lit ": "; Recv m]]]).
Proof.
  apply (proj1 (proj2 (X17_call_tool_keeps_request_exceptions
                         ChatbotDemo.init "chatbot_query" [] w_boom (start [])))).
  reflexivity.
Defined.

(** ** The timestamp check of [test_enhanced_timestamps] *)

Lemma slice_to_app n a b :
  n <= String.length a -> slice_to n (a ++ b) = slice_to n a.
Proof.
  unfold slice_to. revert n. induction a as [|c a IH]; intros n Hn.
  - cbn in Hn. assert (n = 0) as -> by lia. now destruct b.
  - destruct n as [|n]; [reflexivity|]. cbn in *. rewrite IH by lia. reflexivity.
Qed.

Lemma has_timestamps_marker pre marker post :
  In marker ["Created:"; "Updated:"; "Collected:"] ->
  has_timestamps (pre ++ marker ++ post) = true.
Proof.
  intros Hm. unfold has_timestamps.
  assert (Hc : contains marker (pre ++ marker ++ post) = true)
    by (apply contains_skip, contains_here).
  destruct Hm as [<-|[<-|[<-|[]]]]; rewrite Hc; now rewrite ?orb_true_r.
Qed.

(** X18.  [test_enhanced_timestamps] looks for ["Created:"], ["Updated:"]
    and ["Collected:"] in the whole text, not in the 500 characters it
    shows: a text that holds one of the three anywhere makes it print
    ["✅ Enhanced timestamp fields are being used!"] and not the warning,
    also when the marker lies beyond the preview, which then shows the
    first 500 characters of what precedes the marker. *)
Theorem X18_timestamps_sought_in_whole_text (w : world) (lines : list string)
    (r : response) (d : list (string * json)) (pre marker post : string) :
  w 0 test_timestamps_request = Returned r ->
  status_code r = 200%Z ->
  resp_json r = Ret (JDict d) ->
  result_text (JDict d) = Ret (JStr (pre ++ marker ++ post)) ->
  In marker ["Created:"; "Updated:"; "Collected:"] ->
  In (Printed [[Lit "✅ Enhanced timestamp fields are being used!"]])
     (trace_of TestEnhancedTimestamps.main w (start lines)) /\
  ~ In (Printed [[Lit "⚠️  Enhanced timestamp fields not found in response"]])
       (trace_of TestEnhancedTimestamps.main w (start lines)) /\
  value_of TestEnhancedTimestamps.test_enhanced_timestamps w (start lines) = Ret true /\
  (500 <= String.length pre ->
   In (Printed [[Lit "Response preview:"]; [Recv (slice_to 500 pre ++ "...")]])
      (trace_of TestEnhancedTimestamps.main w (start lines))).
Proof.
  intros Hw Hs Hj Ht Hm. unfold trace_of, value_of, TestEnhancedTimestamps.main.
  cbv [bind print].
  rewrite (@test_timestamps_text w (start lines) r d _ Hw Hs Hj Ht).
  rewrite (has_timestamps_marker pre post Hm). cbn [timestamps_line fst snd app].
  split; [cbn; tauto|]. split; [cbn; intuition discriminate|]. split; [reflexivity|].
  intros Hlen. rewrite (@slice_to_app 500 pre (marker ++ post) Hlen). cbn. tauto.
Qed.

Lemma X18_witness :
  In (Printed [[Lit "✅ Enhanced timestamp fields are being used!"]])
     (trace_of TestEnhancedTimestamps.main (w_text "Pod x. Updated: today") (start [])).
Proof.
  refine (proj1 (@X18_timestamps_sought_in_whole_text (w_text "Pod x. Updated: today") []
            (mkResponse 200 "OK" "http://localhost:8084/jsonrpc"
                        (Ret (result_body "Pod x. Updated: today")))
            [("result", JDict [("content", JList [JDict [("text",
                                  JStr "Pod x. Updated: today")]])])]
            "Pod x. " "Updated:" " today" _ _ _ _ _)); try reflexivity.
  right. left. reflexivity.
Defined.
